(** * Spycraft reactive cells: an executable model and its properties

    The development embeds the core of the [spycraft] package: the [Spook]
    base cell (spook.js), the [LatchSpook] derivative (latchSpook.js), the
    [SpookCache] shared cache (spookCache.js) and the [Spook.promise]
    bridge.  JavaScript objects live in a store indexed by the cell's
    [_uid]; every method is a state-passing function that also emits the
    trace of user functions it invoked, of console output and of frame
    messages; exceptions are a result of their own.  Method calls go
    through one fuel-indexed interpreter [call], since observers may call
    back into the runtime. *)

From Stdlib Require Import ZArith String Ascii List DecimalString Lia.
From stdpp Require Import base option list gmap strings.

#[local] Set Warnings "-register-all".
#[local] Open Scope string_scope.

(** ** JavaScript values and [JSON.stringify] *)

Module JS.

(** The values cells carry: the JSON fragment of JavaScript (numbers are the
    integers), plus [undefined], [NaN] and symbols, which [JSON.stringify]
    treats specially. *)
Inductive Value : Type :=
| VUndefined
| VNull
| VBool (b : bool)
| VNum (n : Z)
| VNaN
| VStr (s : string)
| VSymbol (id : nat)
| VArr (items : list Value)
| VObj (props : list (string * Value)).

Definition is_undefined (v : Value) : bool :=
  match v with VUndefined => true | _ => false end.

Definition is_null (v : Value) : bool :=
  match v with VNull => true | _ => false end.

Definition dquote : ascii := Ascii.ascii_of_nat 34.
Definition backslash : ascii := Ascii.ascii_of_nat 92.

(** String quoting of [JSON.stringify]; only the quote and the backslash
    are escaped (control characters are outside the modelled fragment). *)
Fixpoint escape (s : string) : string :=
  match s with
  | EmptyString => EmptyString
  | String a r =>
      if (Ascii.eqb a dquote || Ascii.eqb a backslash)%bool
      then String backslash (String a (escape r))
      else String a (escape r)
  end.

Definition quote (s : string) : string :=
  String dquote (escape s ++ String dquote EmptyString).

Fixpoint join (sep : string) (l : list string) : string :=
  match l with
  | [] => ""
  | [x] => x
  | x :: r => x ++ sep ++ join sep r
  end.

Definition decimal (n : Z) : string := NilZero.string_of_int (Z.to_int n).

(** [JSON.stringify v]: [None] is JavaScript's [undefined] result.  Inside
    an array an unserialisable item prints as [null]; inside an object it
    is left out. *)
Fixpoint JSON_stringify (v : Value) : option string :=
  match v with
  | VUndefined | VSymbol _ => None
  | VNull | VNaN => Some "null"
  | VBool b => Some (if b then "true" else "false")
  | VNum n => Some (decimal n)
  | VStr s => Some (quote s)
  | VArr items =>
      Some ("[" ++ join "," (map (fun x => default "null" (JSON_stringify x)) items) ++ "]")
  | VObj props =>
      Some ("{" ++ join ","
              (omap (fun p => match JSON_stringify (snd p) with
                              | Some t => Some (quote (fst p) ++ ":" ++ t)
                              | None => None
                              end) props) ++ "}")
  end.

(** spook.js, [equivalent (a, b)]:
    [JSON.stringify(a) === JSON.stringify(b)]. *)
Definition equivalent (a b : Value) : bool :=
  bool_decide (JSON_stringify a = JSON_stringify b).

(** Truthiness of a string or of a missing property, as in [!s]. *)
Definition truthy (s : option string) : bool :=
  match s with
  | None => false
  | Some EmptyString => false
  | Some _ => true
  end.

(** [Number.prototype.toString(16)] on a non-negative integer. *)
Definition hex_digit (d : Z) : ascii :=
  if (d <? 10)%Z then Ascii.ascii_of_nat (48 + Z.to_nat d)
  else Ascii.ascii_of_nat (87 + Z.to_nat d).

Fixpoint hex_digits (fuel : nat) (n : Z) (acc : string) : string :=
  match fuel with
  | O => acc
  | S fuel' =>
      let acc' := String (hex_digit (n mod 16)) acc in
      if (n / 16 =? 0)%Z then acc' else hex_digits fuel' (n / 16) acc'
  end.

Definition toString16 (n : Z) : string :=
  hex_digits (S (Z.to_nat (Z.log2 n))) n "".

(** [s.substr(1)] *)
Definition substr1 (s : string) : string :=
  match s with
  | EmptyString => EmptyString
  | String _ r => r
  end.

Definition is_hex (a : ascii) : bool :=
  let n := Ascii.nat_of_ascii a in
  ((48 <=? n) && (n <=? 57) || (97 <=? n) && (n <=? 102))%nat%bool.

Fixpoint all_hex (s : string) : bool :=
  match s with
  | EmptyString => true
  | String a r => is_hex a && all_hex r
  end.

End JS.
Export JS.

(** ** The object store *)

Module Runtime.

(** A cell is named by its [_uid]; a registration token is a fresh
    [Symbol], named by its creation index. *)
Definition CellId := nat.
Definition Sym := nat.

(** An item handed to [Spook.promise]. *)
Inductive Item : Type :=
| IValue (v : Value)
| IPromise (future : nat)
| ISpook (c : CellId).

(** Functions the runtime stores and calls.  A user function is opaque: its
    call is recorded in the trace under its [tag]; a script is a user
    function that then calls back into the runtime.  The other constructors
    are the closures the library itself creates. *)
Inductive Callback : Type :=
| CbObserve (tag : nat)
| CbScript (tag : nat) (body : list Call)
| CbLatchPoll (that : CellId)
| CbDoneCleanup (this : CellId) (idVar : nat) (callback : Callback)
| CbPromiseDone (promise : nat) (index : nat)
| CbPromiseReject (promise : nat)
with Call : Type :=
| CChanged (c : CellId) (newValue : Value)
| CTrigger (c : CellId) (newValue : Value)
| CReset (c : CellId)
| CDefaultTo (c : CellId) (defaultValue : Value)
| CUse (c : CellId)
| CDrop (c : CellId)
| CInitialise (c : CellId)
| CFinalise (c : CellId)
| CNotify (c : CellId) (callback : Callback)
| CUnnotify (c : CellId) (id : option Sym)
| CTie (c : CellId) (callback : Callback)
| CUntie (c : CellId) (id : option Sym)
| CThen (c : CellId) (callback : Callback)
| CDone (c : CellId) (callback : Callback)
| CInvoke (callback : Callback) (args : list Value)
| CCacheInitialise (uuid : string) (spook : CellId)
    (stringify : option (Value -> string)) (parse : option (string -> Value))
| CCacheFinalise (uuid : string) (spook : CellId)
| CCacheEnsureActive (uuid : string) (key : option string)
| CCacheChanged (uuid : string) (value : Value)
| CPromise (list : list Item)
| CSettle (future : nat) (outcome : Value + Value)
| CRunJobs.

(** What [this.isDone] is: the base class method, a subclass override, or
    [undefined]. *)
Inductive IsDone : Type :=
| IsDoneBase
| IsDoneOverride (p : Value -> bool)
| IsDoneUndefined.

(** The fields a [LatchSpook] adds; [targetSpook] is the constructor
    argument its [_poll] closure captured, [_poll] tells whether the
    property is still there. *)
Record Latch : Type := mkLatch {
  targetSpook : CellId;
  _targetSpook : option CellId;
  _poll : bool;
  _notifyId : option Sym
}.

(** The class of a cell, which decides its [initialise] and [finalise]. *)
Inductive Kind : Type :=
| KSpook
| KCustom (init fin : Callback)
| KLatch (l : Latch).

Record Spook : Type := mkSpook {
  _subscribers : list (Sym * Callback);
  _thens : list Callback;
  _notifies : list (Sym * Callback);
  _ready : bool;
  _value : Value;
  _triggering : option Value;
  _mayBeNull : bool;
  _users : nat;
  _uuid : option string;
  _stringify : option (Value -> string);
  _parse : option (string -> Value);
  _noCache : bool;
  _defaultTo : Value;
  isDone : IsDone;
  kind : Kind
}.

(** [SpookCache.regs[uuid]] *)
Record Reg : Type := mkReg {
  owned : bool;
  deferred : bool;
  users : list CellId;
  primary : option CellId;
  stringify : option (Value -> string);
  parse : option (string -> Value)
}.

Record SpookCache : Type := mkSpookCache {
  deferParentPrefix : option string;
  regs : gmap string Reg;
  sessionId : string;
  storage : gmap string string
}.

(** The state of one [Spook.promise] call: the closure variables
    [finished] and [resolved] and the state of the promise it returned. *)
Inductive PromiseState : Type :=
| Pending
| Fulfilled
| Rejected (reason : Value).

Record Bridge : Type := mkBridge {
  finished : nat;
  resolved : list Value;
  pstate : PromiseState
}.

(** A promise handed in as an item. *)
Inductive Future : Type :=
| FPending (reactions : list (Callback * Callback))
| FFulfilled (v : Value)
| FRejected (reason : Value).

Record World : Type := mkWorld {
  cells : gmap CellId Spook;
  globalCount : nat;
  symbols : nat;
  cache : option SpookCache;
  idVars : list (option Sym);
  bridges : list Bridge;
  futures : gmap nat Future;
  jobs : list (Callback * list Value)
}.

Inductive Level : Type := LWarn | LError.

Inductive Message : Type :=
| MsgUseSpook (uuid : string)
| MsgDropSpook (uuid : string).

Inductive Event : Type :=
| EvCall (tag : nat) (args : list Value)
| EvConsole (level : Level) (msg : string)
| EvPostParent (m : Message).

(** Result of a method call: the value returned. *)
Inductive Ret : Type :=
| RVoid
| RId (id : Sym)
| RThis (c : CellId)
| RPromise (p : nat).

Definition ret_id (r : Ret) : option Sym :=
  match r with RId id => Some id | _ => None end.

(** *** Field updates *)

Definition set_subscribers (v : list (Sym * Callback)) (x : Spook) : Spook :=
  mkSpook v (_thens x) (_notifies x) (_ready x) (_value x) (_triggering x)
    (_mayBeNull x) (_users x) (_uuid x) (_stringify x) (_parse x) (_noCache x)
    (_defaultTo x) (isDone x) (kind x).
Definition set_thens (v : list Callback) (x : Spook) : Spook :=
  mkSpook (_subscribers x) v (_notifies x) (_ready x) (_value x) (_triggering x)
    (_mayBeNull x) (_users x) (_uuid x) (_stringify x) (_parse x) (_noCache x)
    (_defaultTo x) (isDone x) (kind x).
Definition set_notifies (v : list (Sym * Callback)) (x : Spook) : Spook :=
  mkSpook (_subscribers x) (_thens x) v (_ready x) (_value x) (_triggering x)
    (_mayBeNull x) (_users x) (_uuid x) (_stringify x) (_parse x) (_noCache x)
    (_defaultTo x) (isDone x) (kind x).
Definition set_ready (v : bool) (x : Spook) : Spook :=
  mkSpook (_subscribers x) (_thens x) (_notifies x) v (_value x) (_triggering x)
    (_mayBeNull x) (_users x) (_uuid x) (_stringify x) (_parse x) (_noCache x)
    (_defaultTo x) (isDone x) (kind x).
Definition set_value (v : Value) (x : Spook) : Spook :=
  mkSpook (_subscribers x) (_thens x) (_notifies x) (_ready x) v (_triggering x)
    (_mayBeNull x) (_users x) (_uuid x) (_stringify x) (_parse x) (_noCache x)
    (_defaultTo x) (isDone x) (kind x).
Definition set_triggering (v : option Value) (x : Spook) : Spook :=
  mkSpook (_subscribers x) (_thens x) (_notifies x) (_ready x) (_value x) v
    (_mayBeNull x) (_users x) (_uuid x) (_stringify x) (_parse x) (_noCache x)
    (_defaultTo x) (isDone x) (kind x).
Definition set_users (v : nat) (x : Spook) : Spook :=
  mkSpook (_subscribers x) (_thens x) (_notifies x) (_ready x) (_value x) (_triggering x)
    (_mayBeNull x) v (_uuid x) (_stringify x) (_parse x) (_noCache x)
    (_defaultTo x) (isDone x) (kind x).
Definition set_noCache (v : bool) (x : Spook) : Spook :=
  mkSpook (_subscribers x) (_thens x) (_notifies x) (_ready x) (_value x) (_triggering x)
    (_mayBeNull x) (_users x) (_uuid x) (_stringify x) (_parse x) v
    (_defaultTo x) (isDone x) (kind x).
Definition set_defaultTo (v : Value) (x : Spook) : Spook :=
  mkSpook (_subscribers x) (_thens x) (_notifies x) (_ready x) (_value x) (_triggering x)
    (_mayBeNull x) (_users x) (_uuid x) (_stringify x) (_parse x) (_noCache x)
    v (isDone x) (kind x).
Definition set_isDone (v : IsDone) (x : Spook) : Spook :=
  mkSpook (_subscribers x) (_thens x) (_notifies x) (_ready x) (_value x) (_triggering x)
    (_mayBeNull x) (_users x) (_uuid x) (_stringify x) (_parse x) (_noCache x)
    (_defaultTo x) v (kind x).
Definition set_kind (v : Kind) (x : Spook) : Spook :=
  mkSpook (_subscribers x) (_thens x) (_notifies x) (_ready x) (_value x) (_triggering x)
    (_mayBeNull x) (_users x) (_uuid x) (_stringify x) (_parse x) (_noCache x)
    (_defaultTo x) (isDone x) v.

Definition set_latch (f : Latch -> Latch) (x : Spook) : Spook :=
  match kind x with
  | KLatch l => set_kind (KLatch (f l)) x
  | _ => x
  end.
Definition set__targetSpook (v : option CellId) (l : Latch) : Latch :=
  mkLatch (targetSpook l) v (_poll l) (_notifyId l).
Definition set__poll (v : bool) (l : Latch) : Latch :=
  mkLatch (targetSpook l) (_targetSpook l) v (_notifyId l).
Definition set__notifyId (v : option Sym) (l : Latch) : Latch :=
  mkLatch (targetSpook l) (_targetSpook l) (_poll l) v.

Definition set_owned (v : bool) (r : Reg) : Reg :=
  mkReg v (deferred r) (users r) (primary r) (stringify r) (parse r).
Definition set_deferred (v : bool) (r : Reg) : Reg :=
  mkReg (owned r) v (users r) (primary r) (stringify r) (parse r).
Definition set_reg_users (v : list CellId) (r : Reg) : Reg :=
  mkReg (owned r) (deferred r) v (primary r) (stringify r) (parse r).
Definition set_primary (v : option CellId) (r : Reg) : Reg :=
  mkReg (owned r) (deferred r) (users r) v (stringify r) (parse r).

Definition set_regs (v : gmap string Reg) (k : SpookCache) : SpookCache :=
  mkSpookCache (deferParentPrefix k) v (sessionId k) (storage k).
Definition set_storage (v : gmap string string) (k : SpookCache) : SpookCache :=
  mkSpookCache (deferParentPrefix k) (regs k) (sessionId k) v.

Definition set_cells (v : gmap CellId Spook) (w : World) : World :=
  mkWorld v (globalCount w) (symbols w) (cache w) (idVars w) (bridges w) (futures w) (jobs w).
Definition set_globalCount (v : nat) (w : World) : World :=
  mkWorld (cells w) v (symbols w) (cache w) (idVars w) (bridges w) (futures w) (jobs w).
Definition set_symbols (v : nat) (w : World) : World :=
  mkWorld (cells w) (globalCount w) v (cache w) (idVars w) (bridges w) (futures w) (jobs w).
Definition set_cache (v : option SpookCache) (w : World) : World :=
  mkWorld (cells w) (globalCount w) (symbols w) v (idVars w) (bridges w) (futures w) (jobs w).
Definition set_idVars (v : list (option Sym)) (w : World) : World :=
  mkWorld (cells w) (globalCount w) (symbols w) (cache w) v (bridges w) (futures w) (jobs w).
Definition set_bridges (v : list Bridge) (w : World) : World :=
  mkWorld (cells w) (globalCount w) (symbols w) (cache w) (idVars w) v (futures w) (jobs w).
Definition set_futures (v : gmap nat Future) (w : World) : World :=
  mkWorld (cells w) (globalCount w) (symbols w) (cache w) (idVars w) (bridges w) v (jobs w).
Definition set_jobs (v : list (Callback * list Value)) (w : World) : World :=
  mkWorld (cells w) (globalCount w) (symbols w) (cache w) (idVars w) (bridges w) (futures w) v.

(** ** The monad of method bodies: state, trace and exceptions *)

Inductive Outcome (A : Type) : Type :=
| Ok (a : A) (w : World) (tr : list Event)
| Thrown (e : string) (w : World) (tr : list Event)
| OutOfFuel.
Arguments Ok {A} a w tr.
Arguments Thrown {A} e w tr.
Arguments OutOfFuel {A}.

Definition M (A : Type) : Type := World -> Outcome A.

(** [prefix t o]: the outcome [o], reached after the events [t]. *)
Definition prefix {A} (t : list Event) (o : Outcome A) : Outcome A :=
  match o with
  | Ok a w tr => Ok a w (t ++ tr)
  | Thrown e w tr => Thrown e w (t ++ tr)
  | OutOfFuel => OutOfFuel
  end.

Definition ret {A} (a : A) : M A := fun w => Ok a w [].

Definition bind {A B} (m : M A) (f : A -> M B) : M B :=
  fun w =>
    match m w with
    | Ok a w1 t1 => prefix t1 (f a w1)
    | Thrown e w1 t1 => Thrown e w1 t1
    | OutOfFuel => OutOfFuel
    end.

Notation "'let*' x ':=' m 'in' k" := (bind m (fun x => k))
  (at level 10, x name, m at level 100, k at level 200).
Notation "m '>>' k" := (bind m (fun _ => k))
  (at level 65, right associativity).

Definition throw {A} (e : string) : M A := fun w => Thrown e w [].
Definition emit (e : Event) : M Ret := fun w => Ok RVoid w [e].
Definition get_world : M World := fun w => Ok w w [].
Definition modify (f : World -> World) : M Ret := fun w => Ok RVoid (f w) [].

(** [try { m } catch (e) { h e }] *)
Definition try_catch (m : M Ret) (h : string -> M Ret) : M Ret :=
  fun w =>
    match m w with
    | Thrown e w1 t1 => prefix t1 (h e w1)
    | o => o
    end.

Fixpoint forEach {A} (l : list A) (f : A -> M Ret) : M Ret :=
  match l with
  | [] => ret RVoid
  | a :: r => f a >> forEach r f
  end.

Definition console_warn (msg : string) : M Ret := emit (EvConsole LWarn msg).
Definition console_error (msg : string) : M Ret := emit (EvConsole LError msg).

(** Dereferencing: a dangling name cannot arise in the source; in the model
    it is an exception. *)
Definition get_cell (c : CellId) : M Spook :=
  fun w =>
    match cells w !! c with
    | Some x => Ok x w []
    | None => Thrown "ReferenceError: no such cell" w []
    end.

Definition update_cell (c : CellId) (f : Spook -> Spook) : M Ret :=
  modify (fun w => set_cells (alter f c (cells w)) w).

Definition get_latch (c : CellId) : M Latch :=
  let* this := get_cell c in
  match kind this with
  | KLatch l => ret l
  | _ => throw "TypeError: not a LatchSpook"
  end.

Definition update_latch (c : CellId) (f : Latch -> Latch) : M Ret :=
  update_cell c (set_latch f).

Definition the_cache : M SpookCache :=
  fun w =>
    match cache w with
    | Some k => Ok k w []
    | None => Thrown "TypeError: Spook.cache is null" w []
    end.

Definition update_cache (f : SpookCache -> SpookCache) : M Ret :=
  modify (fun w => set_cache (f <$> cache w) w).

Definition get_reg (uuid : string) : M (option Reg) :=
  let* k := the_cache in ret (regs k !! uuid).

Definition update_reg (uuid : string) (f : Reg -> Reg) : M Ret :=
  update_cache (fun k => set_regs (alter f uuid (regs k)) k).

Definition get_storage (key : string) : M (option string) :=
  let* k := the_cache in ret (storage k !! key).

Definition fresh_symbol : M Sym :=
  fun w => Ok (symbols w) (set_symbols (S (symbols w)) w) [].

End Runtime.
Export Runtime.

(** ** The methods

    Each body is written against [call], the method dispatcher one level of
    fuel below; [Spook.cache] is the world's [cache]. *)

Module Methods.

Section Bodies.

Variable call : Call -> M Ret.

Definition invoke (callback : Callback) (args : list Value) : M Ret :=
  call (CInvoke callback args).

(** spook.js, [symbolValues (o)]: the values under the object's own symbol
    keys, in insertion order. *)
Definition symbolValues (o : list (Sym * Callback)) : list Callback :=
  map snd o.

Definition lookup_symbol (o : list (Sym * Callback)) (id : option Sym) : option Callback :=
  match id with
  | Some i => snd <$> List.find (fun e => Nat.eqb (fst e) i) o
  | None => None
  end.

Definition delete_symbol (o : list (Sym * Callback)) (id : option Sym) : list (Sym * Callback) :=
  match id with
  | Some i => List.filter (fun e => negb (Nat.eqb (fst e) i)) o
  | None => o
  end.

(** The test [!this._uuid || !!this._noCache || !Spook.cache] of [use] and
    [drop], negated: the cell is handled through the shared cache. *)
Definition cache_managed (this : Spook) (w : World) : bool :=
  truthy (_uuid this) && negb (_noCache this) && bool_decide (is_Some (cache w)).

(** *** Spook *)

(** [defaultTo (_defaultValue)] *)
Definition defaultTo (c : CellId) (defaultValue : Value) : M Ret :=
  update_cell c (set_defaultTo defaultValue) >>
  let* this := get_cell c in
  (if negb (_ready this) then call (CTrigger c defaultValue) else ret RVoid) >>
  ret (RThis c).

(** [reset ()] *)
Definition reset (c : CellId) : M Ret :=
  let* this := get_cell c in
  if negb (is_undefined (_defaultTo this)) then
    call (CTrigger c (_defaultTo this)) >> ret RVoid
  else if _ready this then
    update_cell c (fun x => set_value VNull (set_ready false x)) >>
    let* this := get_cell c in
    forEach (symbolValues (_notifies this)) (fun callback => invoke callback [])
  else ret RVoid.

(** [changed (newValue)] *)
Definition changed (c : CellId) (newValue : Value) : M Ret :=
  if is_undefined newValue then ret RVoid
  else
    let* this := get_cell c in
    if negb (_mayBeNull this) && is_null newValue then call (CReset c)
    else if negb (_ready this) || negb (equivalent newValue (_value this)) then
      call (CTrigger c newValue)
    else ret RVoid.

(** [trigger (newValue = this._value)]: the default parameter also replaces
    an explicit [undefined]. *)
Definition trigger (c : CellId) (arg : Value) : M Ret :=
  let* this := get_cell c in
  let newValue := if is_undefined arg then _value this else arg in
  if is_undefined newValue then
    console_error "Trigger called with undefined value"
  else if bool_decide (is_Some (_triggering this)) then
    console_error "Trigger cannot be called while already triggering."
  else
    update_cell c (set_triggering (Some newValue)) >>
    (if negb (_mayBeNull this) && is_null newValue then call (CReset c)
     else
       update_cell c (fun x => set_value newValue (set_ready true x)) >>
       (let* this := get_cell c in
        forEach (symbolValues (_notifies this)) (fun callback => invoke callback [])) >>
       (let* this := get_cell c in
        forEach (symbolValues (_subscribers this)) (fun callback =>
          let* this := get_cell c in invoke callback [_value this])) >>
       (let* this := get_cell c in
        forEach (_thens this) (fun callback =>
          (let* this := get_cell c in invoke callback [_value this]) >>
          call (CDrop c))) >>
       update_cell c (set_thens [])) >>
    update_cell c (set_triggering None) >>
    let* this := get_cell c in
    let* w := get_world in
    match _uuid this with
    | Some uuid =>
        if cache_managed this w then call (CCacheChanged uuid newValue) else ret RVoid
    | None => ret RVoid
    end.

(** [use ()] *)
Definition use (c : CellId) : M Ret :=
  let* this := get_cell c in
  let* w := get_world in
  (if Nat.eqb (_users this) 0 then
     match _uuid this with
     | Some uuid =>
         if cache_managed this w
         then call (CCacheInitialise uuid c (_stringify this) (_parse this))
         else call (CInitialise c)
     | None => call (CInitialise c)
     end
   else ret RVoid) >>
  update_cell c (fun x => set_users (S (_users x)) x) >>
  ret (RThis c).

(** [drop ()] *)
Definition drop (c : CellId) : M Ret :=
  let* this := get_cell c in
  if Nat.eqb (_users this) 0 then
    throw "mismatched use()/drop(): drop() called once more than expected!"
  else
    update_cell c (fun x => set_users (Nat.pred (_users x)) x) >>
    let* this := get_cell c in
    let* w := get_world in
    if Nat.eqb (_users this) 0 then
      match _uuid this with
      | Some uuid =>
          if cache_managed this w
          then call (CCacheFinalise uuid c)
          else call (CFinalise c)
      | None => call (CFinalise c)
      end
    else ret RVoid.

(** [notify (callback)] *)
Definition notify (c : CellId) (callback : Callback) : M Ret :=
  call (CUse c) >>
  let* id := fresh_symbol in
  update_cell c (fun x => set_notifies (_notifies x ++ [(id, callback)]) x) >>
  let* this := get_cell c in
  (if _ready this then invoke callback [] else ret RVoid) >>
  ret (RId id).

(** [unnotify (id)] *)
Definition unnotify (c : CellId) (id : option Sym) : M Ret :=
  let* this := get_cell c in
  match lookup_symbol (_notifies this) id with
  | Some _ =>
      update_cell c (fun x => set_notifies (delete_symbol (_notifies x) id) x) >>
      call (CDrop c)
  | None => console_warn "untie on from old or non-existent notifyee ID"
  end.

(** [tie (callback)] *)
Definition tie (c : CellId) (callback : Callback) : M Ret :=
  call (CUse c) >>
  let* id := fresh_symbol in
  update_cell c (fun x => set_subscribers (_subscribers x ++ [(id, callback)]) x) >>
  let* this := get_cell c in
  (if _ready this then invoke callback [_value this; VSymbol id] else ret RVoid) >>
  ret (RId id).

(** [untie (id)] *)
Definition untie (c : CellId) (id : option Sym) : M Ret :=
  let* this := get_cell c in
  match lookup_symbol (_subscribers this) id with
  | Some _ =>
      update_cell c (fun x => set_subscribers (delete_symbol (_subscribers x) id) x) >>
      call (CDrop c)
  | None => console_warn "untie on from old or non-existent subscriber ID"
  end.

(** [then (callback)] *)
Definition then_ (c : CellId) (callback : Callback) : M Ret :=
  call (CUse c) >>
  let* this := get_cell c in
  (if _ready this then
     invoke callback [_value this] >> call (CDrop c)
   else
     update_cell c (fun x => set_thens (_thens x ++ [callback]) x)) >>
  ret (RThis c).

(** [done (callback)]: [var id] is a closure variable, assigned once [tie]
    has returned. *)
Definition done (c : CellId) (callback : Callback) : M Ret :=
  let* this := get_cell c in
  match isDone this with
  | IsDoneUndefined =>
      throw "Cannot call done() on Spook that has no implementation of isDone."
  | _ =>
      let* w := get_world in
      let idVar := length (idVars w) in
      modify (fun w => set_idVars (idVars w ++ [None]) w) >>
      let* r := call (CTie c (CbDoneCleanup c idVar callback)) in
      modify (fun w => set_idVars (<[idVar := ret_id r]> (idVars w)) w) >>
      ret (RThis c)
  end.

(** The [cleanupCallback] closure of [done]. *)
Definition cleanupCallback (c : CellId) (idVar : nat) (callback : Callback)
    (args : list Value) : M Ret :=
  let newValue := nth 0 args VUndefined in
  let* this := get_cell c in
  match isDone this with
  | IsDoneUndefined => throw "TypeError: this.isDone is not a function"
  | IsDoneBase => ret RVoid
  | IsDoneOverride p =>
      if p newValue then
        invoke callback [newValue] >>
        let* w := get_world in
        call (CUntie c (mjoin (idVars w !! idVar)))
      else ret RVoid
  end.

(** *** LatchSpook *)

(** The [_poll] closure built by the constructor. *)
Definition latch_poll (that : CellId) : M Ret :=
  let* l := get_latch that in
  match _targetSpook l with
  | Some t =>
      let* target := get_cell t in
      if _ready target then
        let* source := get_cell (targetSpook l) in
        call (CChanged that (_value source)) >>
        let* l := get_latch that in
        (match _notifyId l with
         | Some id =>
             match _targetSpook l with
             | Some t' => call (CUnnotify t' (Some id))
             | None => throw "TypeError: Cannot read property 'unnotify' of undefined"
             end >>
             update_latch that (set__targetSpook None)
         | None => ret RVoid
         end) >>
        update_latch that (set__poll false)
      else ret RVoid
  | None => console_warn "poll called when targetSpook is not set. This cannot happen."
  end.

(** [LatchSpook.initialise ()] *)
Definition latch_initialise (c : CellId) : M Ret :=
  let* l := get_latch c in
  if _poll l then
    match _targetSpook l with
    | None => throw "TypeError: Cannot read property 'notify' of undefined"
    | Some t =>
        let* notifyId := call (CNotify t (CbLatchPoll c)) in
        let* l := get_latch c in
        if _poll l then
          update_latch c (set__notifyId (ret_id notifyId)) >>
          latch_poll c
        else
          match _targetSpook l with
          | Some t' => call (CUnnotify t' (ret_id notifyId))
          | None => throw "TypeError: Cannot read property 'unnotify' of undefined"
          end >>
          update_latch c (set__targetSpook None)
    end
  else ret RVoid.

(** [LatchSpook.finalise ()] *)
Definition latch_finalise (c : CellId) : M Ret :=
  let* l := get_latch c in
  match _targetSpook l with
  | Some t => call (CUnnotify t (_notifyId l))
  | None => ret RVoid
  end.

(** [this.initialise ()] and [this.finalise ()], by class. *)
Definition initialise (c : CellId) : M Ret :=
  let* this := get_cell c in
  match kind this with
  | KSpook => ret RVoid
  | KCustom init _ => invoke init []
  | KLatch _ => latch_initialise c
  end.

Definition finalise (c : CellId) : M Ret :=
  let* this := get_cell c in
  match kind this with
  | KSpook => ret RVoid
  | KCustom _ fin => invoke fin []
  | KLatch _ => latch_finalise c
  end.

(** *** SpookCache *)

Definition value_key (uuid : string) : string := "$_Spooks." ++ uuid.
Definition owner_key (uuid : string) : string := "$_Spooks^" ++ uuid.

Definition store (key value : string) : M Ret :=
  update_cache (fun k => set_storage (<[key := value]> (storage k)) k).

Definition unstore (key : string) : M Ret :=
  update_cache (fun k => set_storage (delete key (storage k)) k).

(** [SpookCache.ensureActive (uuid, key = '$_Spooks^' + uuid)].  [item] is
    re-read from [regs] after each call that may run user code. *)
Definition cache_ensureActive (uuid : string) (key_arg : option string) : M Ret :=
  let key := default (owner_key uuid) key_arg in
  let* item := get_reg uuid in
  (match item with
   | Some i =>
       match primary i with
       | Some p =>
           if bool_decide (0 < length (users i)) && negb (owned i) then
             call (CFinalise p) >>
             update_reg uuid (fun r => set_owned false (set_primary None r))
           else ret RVoid
       | None => ret RVoid
       end
   | None => ret RVoid
   end) >>
  let* item := get_reg uuid in
  match item with
  | Some i =>
      if bool_decide (0 < length (users i)) && bool_decide (primary i = None)
         && negb (deferred i) then
        (if owned i then
           console_error "SpookCache.ensureActive: INCONSISTENT. Cannot have no primary but be owned."
         else ret RVoid) >>
        let* k := the_cache in
        if truthy (deferParentPrefix k)
           && String.prefix (default "" (deferParentPrefix k)) uuid then
          update_reg uuid (set_deferred true) >>
          emit (EvPostParent (MsgUseSpook uuid))
        else
          (if negb (truthy (storage k !! key)) then store key (sessionId k)
           else ret RVoid) >>
          let* k := the_cache in
          if bool_decide (storage k !! key = Some (sessionId k)) then
            match last (users i) with
            | Some p =>
                update_reg uuid (fun r =>
                  set_owned true (set_primary (Some p)
                    (set_reg_users (removelast (users r)) r))) >>
                call (CInitialise p)
            | None => ret RVoid
            end
          else ret RVoid
      else ret RVoid
  | None => ret RVoid
  end.

(** [SpookCache.initialise (uuid, spook, stringify, parse)] *)
Definition cache_initialise (uuid : string) (spook : CellId)
    (stringify : option (Value -> string)) (parse : option (string -> Value)) : M Ret :=
  let* item := get_reg uuid in
  match item with
  | None =>
      update_cache (fun k =>
        set_regs (<[uuid := mkReg false false [spook] None stringify parse]> (regs k)) k) >>
      let key := value_key uuid in
      let* stored := get_storage key in
      (match stored with
       | Some text =>
           match parse with
           | Some p => call (CChanged spook (p text))
           | None => throw "TypeError: parse is not a function"
           end
       | None => ret RVoid
       end) >>
      call (CCacheEnsureActive uuid None)
  | Some i =>
      if bool_decide (primary i = Some spook) then
        (if owned i then
           console_error "SpookCache.initialise: initialise called on already-active Spook."
         else ret RVoid) >>
        update_reg uuid (set_owned true)
      else
        (if bool_decide (primary i = None) && negb (deferred i) then
           console_error "SpookCache.initialise: Registered Spook that has neither primary nor deferred."
         else ret RVoid) >>
        update_reg uuid (fun r => set_reg_users (users r ++ [spook]) r) >>
        let equivSpook := default (hd spook (users i)) (primary i) in
        let* equiv := get_cell equivSpook in
        if _ready equiv then call (CChanged spook (_value equiv)) else ret RVoid
  end.

(** [SpookCache.changed (uuid, value)] *)
Definition cache_changed (uuid : string) (value : Value) : M Ret :=
  let* k := the_cache in
  match regs k !! uuid with
  | Some item =>
      if bool_decide (storage k !! owner_key uuid = Some (sessionId k)) then
        let key := value_key uuid in
        if is_undefined value then
          unstore key >>
          forEach (users item) (fun spook => call (CReset spook))
        else
          match stringify item with
          | Some f =>
              store key (f value) >>
              forEach (users item) (fun spook => call (CChanged spook value))
          | None => throw "TypeError: item.stringify is not a function"
          end
      else ret RVoid
  | None => ret RVoid
  end.

(** [SpookCache.finalise (uuid, spook)] *)
Definition cache_finalise (uuid : string) (spook : CellId) : M Ret :=
  let* item := get_reg uuid in
  match item with
  | None => console_error "SpookCache.finalise: called for unregistered UUID"
  | Some i =>
      (if bool_decide (primary i = Some spook) then
         let keepAround := true in
         if keepAround then
           update_reg uuid (set_owned false)
         else
           call (CFinalise spook) >>
           update_reg uuid (set_primary None) >>
           if bool_decide (length (users i) = 0) then
             let* k := the_cache in
             if bool_decide (storage k !! owner_key uuid = Some (sessionId k))
             then unstore (owner_key uuid) else ret RVoid
           else call (CCacheEnsureActive uuid None)
       else
         update_reg uuid (fun r =>
           set_reg_users (List.filter (fun b => negb (Nat.eqb b spook)) (users r)) r) >>
         let* item := get_reg uuid in
         match item with
         | Some i =>
             if bool_decide (length (users i) = 0) && deferred i then
               emit (EvPostParent (MsgDropSpook uuid)) >>
               update_reg uuid (set_deferred false)
             else ret RVoid
         | None => ret RVoid
         end) >>
      let* item := get_reg uuid in
      match item with
      | Some i =>
          if bool_decide (primary i = None) && negb (deferred i)
             && bool_decide (length (users i) = 0) then
            update_cache (fun k => set_regs (delete uuid (regs k)) k)
          else ret RVoid
      | None => ret RVoid
      end
  end.

(** *** Spook.promise *)

Definition get_bridge (p : nat) : M Bridge :=
  fun w =>
    match bridges w !! p with
    | Some b => Ok b w []
    | None => Thrown "ReferenceError: no such promise" w []
    end.

Definition update_bridge (p : nat) (f : Bridge -> Bridge) : M Ret :=
  modify (fun w => set_bridges (alter f p (bridges w)) w).

(** [resolve (resolved)] and [reject (reason)] of the promise under
    construction: only the first settlement counts.  The promise is
    fulfilled with the array [resolved] itself. *)
Definition settle (p : nat) (s : PromiseState) : M Ret :=
  update_bridge p (fun b =>
    match pstate b with
    | Pending => mkBridge (finished b) (resolved b) s
    | _ => b
    end).

(** The [done (index, value)] closure of [promise]. *)
Definition promise_done (p : nat) (index : nat) (value : Value) : M Ret :=
  update_bridge p (fun b =>
    mkBridge (S (finished b)) (<[index := value]> (resolved b)) (pstate b)) >>
  let* b := get_bridge p in
  if Nat.eqb (finished b) (length (resolved b)) then settle p Fulfilled
  else ret RVoid.

(** [future.then (onFulfilled, onRejected)] on an item that is a promise:
    reactions of a settled promise are queued as jobs. *)
Definition future_then (f : nat) (onFulfilled onRejected : Callback) : M Ret :=
  let* w := get_world in
  match default (FPending []) (futures w !! f) with
  | FPending rs =>
      modify (fun w =>
        set_futures (<[f := FPending (rs ++ [(onFulfilled, onRejected)])]> (futures w)) w)
  | FFulfilled v =>
      modify (fun w => set_jobs (jobs w ++ [(onFulfilled, [v])]) w)
  | FRejected r =>
      modify (fun w => set_jobs (jobs w ++ [(onRejected, [r])]) w)
  end.

(** [static promise (list)]: the executor runs at once; an exception in it
    rejects the promise. *)
Definition promise (items : list Item) : M Ret :=
  let* w := get_world in
  let p := length (bridges w) in
  modify (fun w =>
    set_bridges (bridges w ++ [mkBridge 0 (replicate (length items) VUndefined) Pending]) w) >>
  try_catch
    (forEach (imap (fun index item => (index, item)) items) (fun entry =>
       match snd entry with
       | ISpook c => call (CThen c (CbPromiseDone p (fst entry)))
       | IPromise f => future_then f (CbPromiseDone p (fst entry)) (CbPromiseReject p)
       | IValue v => promise_done p (fst entry) v
       end))
    (fun e => settle p (Rejected (VStr e))) >>
  ret (RPromise p).

(** An item promise settles: its reactions become jobs. *)
Definition settle_future (f : nat) (outcome : Value + Value) : M Ret :=
  let* w := get_world in
  match default (FPending []) (futures w !! f) with
  | FPending rs =>
      modify (fun w =>
        set_futures (<[f := match outcome with
                            | inl v => FFulfilled v
                            | inr r => FRejected r
                            end]> (futures w))
          (set_jobs (jobs w ++
                     map (fun r => match outcome with
                                   | inl v => (fst r, [v])
                                   | inr e => (snd r, [e])
                                   end) rs) w))
  | _ => ret RVoid
  end.

(** The job queue is drained in order; an exception in a job only rejects
    the promise [then] derived, which nobody holds. *)
Definition run_jobs : M Ret :=
  let* w := get_world in
  match jobs w with
  | [] => ret RVoid
  | (callback, args) :: rest =>
      modify (set_jobs rest) >>
      try_catch (invoke callback args) (fun _ => ret RVoid) >>
      call CRunJobs
  end.

(** *** Calling a function value *)

Definition apply_callback (callback : Callback) (args : list Value) : M Ret :=
  match callback with
  | CbObserve tag => emit (EvCall tag args)
  | CbScript tag body => emit (EvCall tag args) >> forEach body call
  | CbLatchPoll that => latch_poll that
  | CbDoneCleanup c idVar f => cleanupCallback c idVar f args
  | CbPromiseDone p index => promise_done p index (nth 0 args VUndefined)
  | CbPromiseReject p => settle p (Rejected (nth 0 args VUndefined))
  end.

Definition dispatch (k : Call) : M Ret :=
  match k with
  | CChanged c v => changed c v
  | CTrigger c v => trigger c v
  | CReset c => reset c
  | CDefaultTo c v => defaultTo c v
  | CUse c => use c
  | CDrop c => drop c
  | CInitialise c => initialise c
  | CFinalise c => finalise c
  | CNotify c f => notify c f
  | CUnnotify c id => unnotify c id
  | CTie c f => tie c f
  | CUntie c id => untie c id
  | CThen c f => then_ c f
  | CDone c f => done c f
  | CInvoke f args => apply_callback f args
  | CCacheInitialise uuid spook stringify parse =>
      cache_initialise uuid spook stringify parse
  | CCacheFinalise uuid spook => cache_finalise uuid spook
  | CCacheEnsureActive uuid key => cache_ensureActive uuid key
  | CCacheChanged uuid value => cache_changed uuid value
  | CPromise items => promise items
  | CSettle f outcome => settle_future f outcome
  | CRunJobs => run_jobs
  end.

End Bodies.

End Methods.

(** ** The interpreter *)

Fixpoint call (fuel : nat) (k : Call) : M Ret :=
  match fuel with
  | O => fun _ => OutOfFuel
  | S fuel' => Methods.dispatch (call fuel') k
  end.

Arguments call : simpl never.

(** *** Constructors *)

Record CacheConfig : Type := mkCacheConfig {
  id : option string;
  cfg_stringify : option (Value -> string);
  cfg_parse : option (string -> Value)
}.

(** [new Spook (mayBeNull = true, cache = null)] *)
Definition new_Spook (mayBeNull : bool) (config : option CacheConfig) : Spook :=
  mkSpook [] [] [] false VNull None mayBeNull 0
    (config ≫= id) (config ≫= cfg_stringify) (config ≫= cfg_parse)
    false VUndefined IsDoneBase KSpook.

Definition allocate (x : Spook) (w : World) : CellId * World :=
  (globalCount w,
   set_globalCount (S (globalCount w)) (set_cells (<[globalCount w := x]> (cells w)) w)).

(** [new LatchSpook (targetSpook, def = undefined, mayBeNull = undefined,
    cache = null)], given the target's [_mayBeNull]. *)
Definition new_LatchSpook (target : CellId) (target_mayBeNull : bool) (def : Value)
    (mayBeNull : option bool) (config : option CacheConfig) : Spook :=
  let base := new_Spook (default target_mayBeNull mayBeNull) config in
  let base := if is_undefined def then base
              else set_value def (set_ready true base) in
  set_kind (KLatch (mkLatch target (Some target) true None)) base.

(** [new SpookCache (backupStorage, deferParentPrefix)]; [random] stands
    for [Math.floor((1 + Math.random()) * 0x100000000)]. *)
Definition new_SpookCache (backupStorage : gmap string string)
    (deferParentPrefix : option string) (random : Z) : SpookCache :=
  mkSpookCache deferParentPrefix ∅ (substr1 (toString16 random)) backupStorage.

Definition empty_world : World :=
  mkWorld ∅ 0 0 None [] [] ∅ [].

(** ** Vocabulary of the statements *)

Import Methods.

#[local] Open Scope list_scope.

(** A sequence of top-level calls, as a test would make them. *)
Definition run (fuel : nat) (ks : list Call) : M Ret :=
  forEach ks (call fuel).

(** [put c x w]: the store [w] with cell [c] holding [x]. *)
Definition put (c : CellId) (x : Spook) (w : World) : World :=
  set_cells (<[c := x]> (cells w)) w.

(** An observer that does not call back into the runtime. *)
Definition observer (callback : Callback) : bool :=
  match callback with
  | CbObserve _ => true
  | _ => false
  end.

Definition tag_of (callback : Callback) : nat :=
  match callback with
  | CbObserve t | CbScript t _ => t
  | _ => 0
  end.

(** The trace of calling each of [l], in order, with [args]. *)
Definition calls (args : list Value) (l : list Callback) : list Event :=
  map (fun callback => EvCall (tag_of callback) args) l.

(** All functions registered on a cell are observers. *)
Definition observed (x : Spook) : bool :=
  forallb observer (Methods.symbolValues (_notifies x))
  && forallb observer (Methods.symbolValues (_subscribers x))
  && forallb observer (_thens x).

(** The cell after a transition to [v] that drained its one-shots. *)
Definition triggered (v : Value) (x : Spook) : Spook :=
  set_users (_users x - length (_thens x))
    (set_thens [] (set_value v (set_ready true x))).

(** Finalisation and initialisation of the cell do nothing: it has the base
    class hooks and is not handled through the shared cache. *)
Definition inert (x : Spook) (w : World) : Prop :=
  kind x = KSpook /\ Methods.cache_managed x w = false.

(** Draining the one-shots never drops below zero users, and reaches zero
    only on an inert cell. *)
Definition drains (x : Spook) (w : World) : Prop :=
  length (_thens x) <= _users x /\
  (length (_thens x) = _users x -> _thens x <> [] -> inert x w).

(** [use] on the cell only counts: it has users already, or is inert. *)
Definition settled (x : Spook) (w : World) : Prop :=
  0 < _users x \/ inert x w.

(** The uuid is not one the cache defers to the parent frame. *)
Definition no_deferral (k : SpookCache) (u : string) : Prop :=
  truthy (deferParentPrefix k)
  && String.prefix (default ""%string (deferParentPrefix k)) u = false.

(** [post R w o]: the state the outcome [o] ends in is [R]-related to [w],
    whether the call returned or threw. *)
Definition post {A} (R : World -> World -> Prop) (w : World) (o : Outcome A) : Prop :=
  match o with
  | Ok _ w' _ | Thrown _ w' _ => R w w'
  | OutOfFuel => True
  end.

Definition keeps {A} (R : World -> World -> Prop) (m : M A) : Prop :=
  forall w, post R w (m w).

(** What a relation must tolerate for every method but [trigger] to keep
    it: the elementary updates they make. *)
Record tolerant (R : World -> World -> Prop) : Prop := mkTolerant {
  tol_cell : forall c f w,
    (forall x, _triggering (f x) = _triggering x /\ _uuid (f x) = _uuid x
               /\ _noCache (f x) = _noCache x) ->
    R w (set_cells (alter f c (cells w)) w);
  tol_symbols : forall w n, R w (set_symbols n w);
  tol_cache : forall w f, R w (set_cache (f <$> cache w) w);
  tol_idVars : forall w v, R w (set_idVars v w);
  tol_bridges : forall w v, R w (set_bridges v w);
  tol_futures : forall w v, R w (set_futures v w);
  tol_jobs : forall w v, R w (set_jobs v w)
}.

(** The [_triggering] sentinel of cell [c] is set, with [becoming = b]. *)
Definition armed (c : CellId) (b : Value) (w : World) : Prop :=
  exists x, cells w !! c = Some x /\ _triggering x = Some b.

Definition stays_armed (w w' : World) : Prop :=
  forall c b, armed c b w -> armed c b w'.

Definition stays_armed_but (c0 : CellId) (w w' : World) : Prop :=
  forall c b, c <> c0 -> armed c b w -> armed c b w'.

(** Fields no method assigns. *)
Definition cell_static (x : Spook) : option string * bool :=
  (_uuid x, _noCache x).

Definition static (w w' : World) : Prop :=
  (forall c, cell_static <$> cells w' !! c = cell_static <$> cells w !! c) /\
  (is_Some (cache w') <-> is_Some (cache w)).

(** *** Vocabulary of [done] *)

Definition done_test (i : IsDone) (v : Value) : bool :=
  match i with
  | IsDoneOverride p => p v
  | _ => false
  end.

Definition done_wrapper (c : CellId) (w : World) (tag : nat) : Callback :=
  CbDoneCleanup c (length (idVars w)) (CbObserve tag).

Definition done_registered (c : CellId) (tag : nat) (x : Spook) (w : World) : World :=
  put c (set_subscribers (_subscribers x ++ [(symbols w, done_wrapper c w tag)])
           (set_users (S (_users x)) x))
    (set_idVars (idVars w ++ [Some (symbols w)]) (set_symbols (S (symbols w)) w)).

Definition fresh_id (id : Sym) (o : list (Sym * Callback)) : bool :=
  forallb (fun e => negb (Nat.eqb (fst e) id)) o.

Definition accepts (x : Spook) (v : Value) : bool :=
  negb (is_undefined v) && (_mayBeNull x || negb (is_null v)).

Definition calls_of (tag : nat) (tr : list Event) : list Event :=
  List.filter (fun e => match e with EvCall t _ => Nat.eqb t tag | _ => false end) tr.

Definition awaiting (c : CellId) (slot tag : nat) (id : Sym)
    (subs : list (Sym * Callback)) (w : World) (x : Spook) : Prop :=
  cells w !! c = Some x /\ _triggering x = None /\ isDone x <> IsDoneUndefined /\
  idVars w !! slot = Some (Some id) /\
  _subscribers x = subs ++ [(id, CbDoneCleanup c slot (CbObserve tag))] /\
  fresh_id id subs = true /\ 2 <= _users x /\ _thens x = [] /\
  forallb observer (symbolValues (_notifies x)) = true /\
  forallb observer (symbolValues subs) = true /\
  cache_managed x w = false.

Definition untagged (tag : nat) (l : list Callback) : bool :=
  forallb (fun callback => negb (Nat.eqb (tag_of callback) tag)) l.

(** ** Worlds of the worked examples *)

(** S1 with more observers: two readiness-notifiers, two change-subscribers
    and a queued one-shot on a fresh cell. *)
Definition busy_cell : Spook :=
  mkSpook [(2, CbObserve 20); (3, CbObserve 21)] [CbObserve 30]
    [(0, CbObserve 10); (1, CbObserve 11)]
    false VNull None true 5 None None None false VUndefined IsDoneBase KSpook.

Definition busy_world : World :=
  set_symbols 4 (snd (allocate busy_cell empty_world)).

(** The same cell in the middle of a trigger to 69. *)
Definition midway_world : World :=
  put 0 (set_triggering (Some (VNum 69)) busy_cell) busy_world.

(** A cell of a user subclass whose hooks are watched, with one user. *)
Definition hooked_cell : Spook :=
  set_users 1 (set_kind (KCustom (CbObserve 40) (CbObserve 41)) (new_Spook true None)).

Definition hooked_world : World :=
  snd (allocate hooked_cell empty_world).

(** A cell that disallows [null] and was given the default 7, watched by a
    readiness-notifier and a change-subscriber. *)
Definition defaulted_cell : Spook :=
  mkSpook [(1, CbObserve 20)] [] [(0, CbObserve 10)]
    true (VNum 7) None false 2 None None None false (VNum 7) IsDoneBase KSpook.

Definition defaulted_world : World :=
  set_symbols 2 (snd (allocate defaulted_cell empty_world)).

(** A cell with the cache identity [x], whose values are integers, and the
    cache as the module installs it: no window, an empty backup storage. *)
Definition show_value (v : Value) : string :=
  default "undefined"%string (JSON_stringify v).

Definition read_value (text : string) : Value :=
  match NilZero.int_of_string text with
  | Some i => VNum (Z.of_int i)
  | None => VNull
  end.

Definition x_config : CacheConfig :=
  mkCacheConfig (Some "x"%string) (Some show_value) (Some read_value).

Definition cached_world : World :=
  set_cache (Some (new_SpookCache ∅ None 6000000000))
    (snd (allocate (new_Spook true (Some x_config)) empty_world)).

(** A fresh cell of the base class. *)
Definition plain_world : World :=
  snd (allocate (new_Spook true None) empty_world).

(** A cell of a subclass whose [isDone] holds of the numbers from ten on,
    with one user. *)
Definition at_least_ten (v : Value) : bool :=
  match v with
  | VNum n => (10 <=? n)%Z
  | _ => false
  end.

Definition final_cell : Spook :=
  set_users 1 (set_isDone (IsDoneOverride at_least_ten) (new_Spook true None)).

Definition final_world : World :=
  snd (allocate final_cell empty_world).

(** *** Vocabulary of the latch *)

(** The latch fires its own transition when it adopts [v]. *)
Definition fires (v : Value) (xl : Spook) : bool :=
  negb (_ready xl) || negb (equivalent v (_value xl)).

(** The latch cell once it has adopted [v] and let go of its input. *)
Definition latched (a : CellId) (id : Sym) (v : Value) (xl : Spook) : Spook :=
  set_kind (KLatch (mkLatch a None false (Some id)))
    (if fires v xl then triggered v xl else xl).

(** The input cell once the latch has taken its notifier back. *)
Definition released (rest : list (Sym * Callback)) (xa : Spook) : Spook :=
  set_users (Nat.pred (_users xa)) (set_notifies rest xa).

Definition fired (v : Value) (xl : Spook) : list Event :=
  if fires v xl
  then calls [] (symbolValues (_notifies xl)) ++
       calls [v] (symbolValues (_subscribers xl)) ++ calls [v] (_thens xl)
  else [].

(** The latch [l] is in use and waits on its input [a]: its notifier is
    registered on [a] under [id], among notifiers that only watch. *)
Definition attached (a l : CellId) (id : Sym) (before after : list (Sym * Callback))
    (xa xl : Spook) (w : World) : Prop :=
  a <> l /\ cells w !! a = Some xa /\ cells w !! l = Some xl /\
  kind xl = KLatch (mkLatch a (Some a) true (Some id)) /\
  _notifies xa = before ++ (id, CbLatchPoll l) :: after /\
  fresh_id id before = true /\ fresh_id id after = true /\
  forallb observer (symbolValues (before ++ after)) = true /\
  forallb observer (symbolValues (_subscribers xa)) = true /\
  forallb observer (_thens xa) = true /\
  _triggering xa = None /\ length (_thens xa) < _users xa /\ inert xa w /\
  _triggering xl = None /\ observed xl = true /\
  length (_thens xl) < _users xl /\ cache_managed xl w = false.

(** *** Changes of a cell whose observers only watch *)

(** The cell is at rest, its observers only watch, no one-shot is queued
    and it is not published through the shared cache. *)
Definition at_rest (x : Spook) (w : World) : Prop :=
  _triggering x = None /\ observed x = true /\ _thens x = [] /\
  cache_managed x w = false.

(** [y] is [x] with, at most, another readiness and value. *)
Definition revalued (x y : Spook) : Prop :=
  exists r v, y = set_value v (set_ready r x).

(** No event of [tr] is a call of a function other than the cell's
    notifiers and subscribers. *)
Definition only_calls (x : Spook) (tr : list Event) : Prop :=
  forall tag,
    untagged tag (symbolValues (_notifies x) ++ symbolValues (_subscribers x)) = true ->
    calls_of tag tr = [].

(** A change made to a cell from outside. *)
Inductive Change : Type :=
  | ByTrigger (v : Value)
  | ByChanged (v : Value)
  | ByReset.

Definition change (c : CellId) (ch : Change) : Call :=
  match ch with
  | ByTrigger v => CTrigger c v
  | ByChanged v => CChanged c v
  | ByReset => CReset c
  end.

(** *** Putting a latch to use *)

(** The latch cell in use, waiting on [a] under the notifier [id]. *)
Definition waiting (a : CellId) (id : Sym) (xl : Spook) : Spook :=
  set_users 1 (set_kind (KLatch (mkLatch a (Some a) true (Some id))) xl).

(** The input cell with the notifier of latch [l] added under [id]. *)
Definition polled (l : CellId) (id : Sym) (xa : Spook) : Spook :=
  set_notifies (_notifies xa ++ [(id, CbLatchPoll l)]) (set_users (S (_users xa)) xa).

(** The latch cell once [f] is tied to it. *)
Definition tied (a : CellId) (id : Sym) (f : Callback) (xl : Spook) : Spook :=
  set_subscribers (_subscribers xl ++ [(S id, f)]) (waiting a id xl).

(** A latch as constructed, with S3's two cells. *)
Definition latch_world (d : Value) : World :=
  set_globalCount 2
    (put 1 (new_LatchSpook 0 true d None None) (put 0 (new_Spook true None) empty_world)).

(** A latch cell as its constructor leaves it. *)
Definition unused_latch (a : CellId) (d : Value) (xl : Spook) : Prop :=
  kind xl = KLatch (mkLatch a (Some a) true None) /\ _users xl = 0 /\
  _uuid xl = None /\ _triggering xl = None /\
  _notifies xl = [] /\ _subscribers xl = [] /\ _thens xl = [] /\
  _ready xl = negb (is_undefined d) /\ (is_undefined d = false -> _value xl = d).

Definition plain_entries (k : nat) (vs : list Value) : list (nat * Item) :=
  imap (fun index item => (k + index, item)) (map IValue vs).

(** A fresh cell, numbered 0, next to a promise yet to settle, numbered 0. *)
Definition mixed_world : World :=
  set_globalCount 1 (put 0 (new_Spook true None) empty_world).

(** The latch cell put to use when its input is ready already: it takes the
    input's value of that moment and never attaches. *)
Definition caught_up (a : CellId) (v : Value) (xl : Spook) : Spook :=
  set_users 1
    (set_kind (KLatch (mkLatch a None false None))
       (if fires v xl then triggered v xl else xl)).

(** *** [then] *)

(** The cell with [callback] queued as a one-shot. *)
Definition queued (callback : Callback) (x : Spook) : Spook :=
  set_thens (_thens x ++ [callback]) (set_users (S (_users x)) x).

(** *** [defaultTo] and [reset] *)

(** The cell is at rest, ready with a value it accepts, and has the
    accepted default [d]. *)
Definition defaulted (d : Value) (x : Spook) (w : World) : Prop :=
  at_rest x w /\ _defaultTo x = d /\ accepts x d = true /\
  _ready x = true /\ accepts x (_value x) = true.

(** The value a cell with default [d] holds after a change. *)
Definition after_change (d : Value) (x : Spook) (ch : Change) : Value :=
  match ch with
  | ByTrigger a =>
      let newValue := if is_undefined a then _value x else a in
      if negb (_mayBeNull x) && is_null newValue then _value x else newValue
  | ByChanged a =>
      if is_undefined a then _value x
      else if negb (_mayBeNull x) && is_null a then d
      else if equivalent a (_value x) then _value x else a
  | ByReset => d
  end.

(** *** Ready cells hold accepted values *)

(** A ready cell holds a value that is not [undefined], and not [null] when
    the cell disallows it. *)
Definition sound (x : Spook) : Prop :=
  _ready x = true -> accepts x (_value x) = true.

Definition all_sound (w : World) : Prop :=
  forall c x, cells w !! c = Some x -> sound x.

Definition stays_sound (w w' : World) : Prop := all_sound w -> all_sound w'.

(** *** The shared cache: registration *)

(** The calls of a watched [initialise] hook. *)
Definition init_calls (x : Spook) : list Event :=
  match kind x with
  | KCustom (CbObserve i) _ => [EvCall i []]
  | _ => []
  end.

(** The cell is of the base class or of a subclass whose [initialise] only
    reports that it ran. *)
Definition plain_hooks (x : Spook) : bool :=
  match kind x with
  | KSpook | KCustom (CbObserve _) _ => true
  | _ => false
  end.

(** The cell after its first [use] has restored the value [v]. *)
Definition restored (v : Value) (x : Spook) : Spook :=
  set_users 1 (set_value v (set_ready true x)).

(** The cache of a new session over a storage that holds 42 for [x]. *)
Definition stored_world : World :=
  set_cache (Some (new_SpookCache {[ "$_Spooks.x"%string := "42"%string ]} None 6000000000))
    (snd (allocate (new_Spook true (Some x_config)) empty_world)).

(** *** The shared cache: cells of one uuid are kept equal *)

(** The cell already shows a value equivalent to [v]. *)
Definition shows (v : Value) (x : Spook) : bool :=
  _ready x && equivalent v (_value x).

(** The cell once [changed v] has been applied to it. *)
Definition adopt (v : Value) (x : Spook) : Spook :=
  if shows v x then x else set_value v (set_ready true x).

(** What the observers of the cell see of [changed v]. *)
Definition told (v : Value) (x : Spook) : list Event :=
  if shows v x then []
  else calls [] (symbolValues (_notifies x)) ++ calls [v] (symbolValues (_subscribers x)).

(** The cell is at rest, carries the cache identity [u], and accepts [v]. *)
Definition mirrors (u : string) (v : Value) (x : Spook) : Prop :=
  _triggering x = None /\ observed x = true /\ _thens x = [] /\
  _uuid x = Some u /\ _noCache x = false /\ accepts x v = true.

(** The cells of [us] with [changed v] applied to each. *)
Definition sync_cells (v : Value) (us : list CellId) (m : gmap CellId Spook)
    : gmap CellId Spook :=
  map_imap (fun c x => Some (if bool_decide (c ∈ us) then adopt v x else x)) m.

Definition synced (v : Value) (us : list CellId) (w : World) : World :=
  set_cells (sync_cells v us (cells w)) w.

(** The calls made while [changed v] goes through the cells of [us]. *)
Definition all_told (v : Value) (us : list CellId) (w : World) : list Event :=
  flat_map (fun c => from_option (told v) [] (cells w !! c)) us.

(** This instance owns [u], [us] are its users, all mirrors, and the
    storage already holds the text of [v]. *)
Definition publishing (u : string) (v : Value) (f : Value -> string)
    (us : list CellId) (w : World) : Prop :=
  exists k item,
    cache w = Some k /\ regs k !! u = Some item /\ users item = us /\
    stringify item = Some f /\ truthy (Some u) = true /\
    storage k !! owner_key u = Some (sessionId k) /\
    storage k !! value_key u = Some (f v) /\
    forall c, c ∈ us -> exists x, cells w !! c = Some x /\ mirrors u v x.

(** The cell still has to be told of [v]. *)
Definition stale (v : Value) (w : World) (c : CellId) : bool :=
  match cells w !! c with
  | Some x => negb (shows v x)
  | None => false
  end.

(** The world once the owner has written the text of the value. *)
Definition stored (u text : string) (k : SpookCache) (w : World) : World :=
  set_cache (Some (set_storage (<[value_key u := text]> (storage k)) k)) w.

(** Three cells of the cache identity [x]: the primary, a user watched by
    one subscriber, and a user that already shows 5. *)
Definition shared_world : World :=
  mkWorld
    (<[0 := set_users 1 (new_Spook true (Some x_config))]>
      (<[1 := set_users 1 (set_subscribers [(0, CbObserve 10)] (new_Spook true (Some x_config)))]>
        (<[2 := set_users 1 (set_value (VNum 5) (set_ready true (new_Spook true (Some x_config))))]> ∅)))
    3 1
    (Some (mkSpookCache None
       {[ "x"%string := mkReg true false [1; 2] (Some 0) (Some show_value) (Some read_value) ]}
       "s" {[ "$_Spooks^x"%string := "s"%string ]}))
    [] [] ∅ [].

(** *** The shared cache: events of the window *)

(** [String.prototype.substr (start)] *)
Fixpoint substr (start : nat) (s : string) : string :=
  match start, s with
  | 0, _ => s
  | S n, String _ r => substr n r
  | S _, EmptyString => EmptyString
  end.

(** [SpookCache.onStorageChanged (e)], as a function of [e.key], which is
    [null] when the storage was cleared. *)
Definition onStorageChanged (call : Call -> M Ret) (key : option string) : M Ret :=
  match key with
  | None => throw "TypeError: e.key is null"
  | Some key =>
      if negb (String.prefix "$_Spooks" key) then ret RVoid
      else
        let uuid := substr 8 key in
        let* item := get_reg uuid in
        match item with
        | None => ret RVoid
        | Some i =>
            if bool_decide (String.get 7 key = Some "."%char) then
              let* stored := get_storage key in
              match stored with
              | None => forEach (users i) (fun spook => call (CReset spook))
              | Some text =>
                  match parse i with
                  | Some p => forEach (users i) (fun spook => call (CChanged spook (p text)))
                  | None => throw "TypeError: item.parse is not a function"
                  end
              end
            else if bool_decide (String.get 7 key = Some "^"%char) then
              call (CCacheEnsureActive uuid (Some key))
            else ret RVoid
        end
  end.

(** The [spookCacheUpdate] of a message from the parent frame; a property
    that is absent reads as [undefined]. *)
Record Update : Type := mkUpdate {
  up_uuid : string;
  up_valueString : option string;
  up_value : Value
}.

(** [typeof value === 'object' && value !== null] *)
Definition is_object (v : Value) : bool :=
  match v with
  | VArr _ | VObj _ => true
  | _ => false
  end.

(** [prepUpdate (uuid, spook)] of the proxy in the parent frame *)
Definition prepUpdate (uuid : string) (spook : Spook) : Update :=
  let value := if _ready spook then _value spook else VUndefined in
  if is_object value then
    match _stringify spook with
    | Some f => mkUpdate uuid (Some (f value)) VUndefined
    | None => mkUpdate uuid None value
    end
  else mkUpdate uuid None value.

(** [SpookCache.reconstruct (updateMessage, spook)] *)
Definition reconstruct (updateMessage : Update) (spook : Spook) : M Value :=
  match up_valueString updateMessage with
  | Some text =>
      if truthy (Some text) then
        match _parse spook with
        | Some p => ret (p text)
        | None => throw "TypeError: spook._parse is not a function"
        end
      else ret (up_value updateMessage)
  | None => ret (up_value updateMessage)
  end.

(** [SpookCache.onMessage (e)]: [from_parent] is
    [this.window && e.source === this.window.parent], and [data] is
    [e.data.spookCacheUpdate] when [e.data] is an object that has one. *)
Definition onMessage (call : Call -> M Ret) (from_parent : bool) (data : option Update)
    : M Ret :=
  if from_parent then
    match data with
    | Some up =>
        let* item := get_reg (up_uuid up) in
        match item with
        | Some i =>
            match users i with
            | first :: _ =>
                let* spook := get_cell first in
                let* value := reconstruct up spook in
                if negb (is_undefined value) then
                  forEach (users i) (fun spook => call (CChanged spook value))
                else
                  forEach (users i) (fun spook => call (CReset spook))
            | [] => ret RVoid
            end
        | None => ret RVoid
        end
    | None => ret RVoid
    end
  else ret RVoid.

(** This instance does not own [u]. *)
Definition following (u : string) (w : World) : Prop :=
  exists k, cache w = Some k /\ truthy (Some u) = true /\
            storage k !! owner_key u <> Some (sessionId k).

(** The same cells as [shared_world], in a frame that defers the identity
    [x] to its parent. *)
Definition deferring_world : World :=
  set_cache
    (Some (mkSpookCache (Some "x"%string)
       {[ "x"%string := mkReg false true [1; 2] None (Some show_value) (Some read_value) ]}
       "s" ∅))
    shared_world.

(** *** The shared cache: a second cell of an identity *)

(** The registration with one more user. *)
Definition joined (c : CellId) (item : Reg) : Reg :=
  set_reg_users (users item ++ [c]) item.

(** A ready primary of the identity [x] in the instance that owns it, and
    an unused cell of the same identity watched by one subscriber. *)
Definition joining_world : World :=
  mkWorld
    (<[0 := set_users 1 (set_value (VNum 5) (set_ready true (new_Spook true (Some x_config))))]>
      (<[1 := set_subscribers [(0, CbObserve 10)] (new_Spook true (Some x_config))]> ∅))
    2 1
    (Some (mkSpookCache None
       {[ "x"%string := mkReg true false [] (Some 0) (Some show_value) (Some read_value) ]}
       "s" {[ "$_Spooks^x"%string := "s"%string ]}))
    [] [] ∅ [].

(** *** Promises over values at hand *)

(** The item has the value [v] at once: it is a plain value, or a ready
    cell on which [use] and [drop] only count. *)
Definition immediate (w : World) (item : Item) (v : Value) : Prop :=
  match item with
  | IValue v' => v' = v
  | ISpook c => exists x, cells w !! c = Some x /\ _ready x = true /\ settled x w /\ _value x = v
  | IPromise _ => False
  end.

(** The bridge after [done (index, value)]. *)
Definition done_bridge (index : nat) (value : Value) (b : Bridge) : Bridge :=
  let b1 := mkBridge (S (finished b)) (<[index := value]> (resolved b)) (pstate b) in
  if Nat.eqb (finished b1) (length (resolved b1)) then
    match pstate b1 with
    | Pending => mkBridge (finished b1) (resolved b1) Fulfilled
    | _ => b1
    end
  else b1.

(** A cell of a user subclass, with the cache identity [x], that the cache
    keeps as the primary it does not own any more. *)
Definition kept_world : World :=
  mkWorld
    {[ 0 := set_kind (KCustom (CbObserve 40) (CbObserve 41)) (new_Spook true (Some x_config)) ]}
    1 0
    (Some (mkSpookCache None
       {[ "x"%string := mkReg false false [] (Some 0) (Some show_value) (Some read_value) ]}
       "s" {[ "$_Spooks^x"%string := "s"%string ]}))
    [] [] ∅ [].

(** *** A latch that is dropped before its input is ready *)

(** The latch cell after a use and a drop: it remembers the identifier of
    the notifier it had. *)
Definition released_latch (a : CellId) (id : Sym) (xl : Spook) : Spook :=
  set_kind (KLatch (mkLatch a (Some a) true (Some id))) xl.

(** ** Running method bodies *)


Lemma prefix_nil {A} (o : Outcome A) : prefix [] o = o.
Proof. now destruct o. Qed.

Lemma prefix_prefix {A} t1 t2 (o : Outcome A) :
  prefix t1 (prefix t2 o) = prefix (t1 ++ t2) o.
Proof. destruct o; simpl; now rewrite ?app_assoc. Qed.

Lemma get_cell_run w c x : cells w !! c = Some x -> get_cell c w = Ok x w [].
Proof. intros H. unfold get_cell. now rewrite H. Qed.

Lemma update_cell_run w c x f :
  cells w !! c = Some x -> update_cell c f w = Ok RVoid (put c (f x) w) [].
Proof.
  intros H. unfold update_cell, modify, put. do 2 f_equal.
  apply map_eq. intros i. destruct (decide (i = c)) as [->|Hne].
  - rewrite lookup_alter_eq, lookup_insert_eq, H. reflexivity.
  - rewrite lookup_alter_ne, lookup_insert_ne by congruence. reflexivity.
Qed.

Lemma cells_put_eq c x w : cells (put c x w) !! c = Some x.
Proof. unfold put. simpl. apply lookup_insert_eq. Qed.

Lemma cells_put_ne c d x w : c <> d -> cells (put c x w) !! d = cells w !! d.
Proof. intros. unfold put. simpl. now apply lookup_insert_ne. Qed.

Lemma put_put c x y w : put c x (put c y w) = put c x w.
Proof. unfold put, set_cells. simpl. f_equal. apply insert_insert_eq. Qed.

Lemma put_id c x w : cells w !! c = Some x -> put c x w = w.
Proof. intros H. unfold put, set_cells. rewrite insert_id by done. now destruct w. Qed.

Lemma bind_Ok {A B} (m : M A) (f : A -> M B) w a w1 t1 :
  m w = Ok a w1 t1 -> bind m f w = prefix t1 (f a w1).
Proof. intros H. unfold bind. now rewrite H. Qed.

Lemma bind_Ok_inv {A B} (m : M A) (f : A -> M B) w b w' tr :
  bind m f w = Ok b w' tr ->
  exists a w1 t1 t2, m w = Ok a w1 t1 /\ f a w1 = Ok b w' t2 /\ tr = (t1 ++ t2)%list.
Proof.
  unfold bind. destruct (m w) as [a w1 t1| |]; try discriminate.
  destruct (f a w1) as [b' w2 t2| |] eqn:E; simpl; try discriminate.
  intros [= -> -> <-]. eauto 8.
Qed.

Lemma bind_ret {A B} (a : A) (f : A -> M B) w : bind (ret a) f w = f a w.
Proof. unfold bind, ret. apply prefix_nil. Qed.

Lemma bind_get_world {B} (f : World -> M B) w : bind get_world f w = f w w.
Proof. unfold bind, get_world. apply prefix_nil. Qed.

Lemma bind_modify {B} g (f : Ret -> M B) w : bind (modify g) f w = f RVoid (g w).
Proof. unfold bind, modify. apply prefix_nil. Qed.

Lemma bind_emit {B} e (f : Ret -> M B) w : bind (emit e) f w = prefix [e] (f RVoid w).
Proof. reflexivity. Qed.

Lemma bind_throw {A B} e (f : A -> M B) w : bind (throw e) f w = Thrown e w [].
Proof. reflexivity. Qed.

Lemma bind_get_cell {B} c x (f : Spook -> M B) w :
  cells w !! c = Some x -> bind (get_cell c) f w = f x w.
Proof.
  intros H. rewrite (bind_Ok _ _ _ _ _ _ (get_cell_run _ _ _ H)). apply prefix_nil.
Qed.

Lemma bind_update_cell {B} c x g (f : Ret -> M B) w :
  cells w !! c = Some x -> bind (update_cell c g) f w = f RVoid (put c (g x) w).
Proof.
  intros H. rewrite (bind_Ok _ _ _ _ _ _ (update_cell_run _ _ _ _ H)). apply prefix_nil.
Qed.

Lemma bind_fresh_symbol {B} (f : Sym -> M B) w :
  bind fresh_symbol f w = f (symbols w) (set_symbols (S (symbols w)) w).
Proof. unfold bind, fresh_symbol. apply prefix_nil. Qed.

Lemma bind_bind {A B C} (m : M A) (f : A -> M B) (g : B -> M C) w :
  bind (bind m f) g w = bind m (fun a => bind (f a) g) w.
Proof.
  unfold bind. destruct (m w) as [a w1 t1| |]; try reflexivity.
  destruct (f a w1) as [b w2 t2| |]; simpl; try reflexivity.
  now rewrite prefix_prefix.
Qed.

Lemma forEach_app {A} (l1 l2 : list A) (f : A -> M Ret) w :
  forEach (l1 ++ l2) f w = bind (forEach l1 f) (fun _ => forEach l2 f) w.
Proof.
  revert w. induction l1 as [|a l1 IH]; intros w.
  - simpl. now rewrite bind_ret.
  - simpl. rewrite bind_bind. unfold bind at 1 2.
    destruct (f a w) as [r w1 t1| |]; try reflexivity. now rewrite IH.
Qed.

Lemma call_S fuel k : call (S fuel) k = dispatch (call fuel) k.
Proof. reflexivity. Qed.

Lemma is_undefined_false v : v <> VUndefined -> is_undefined v = false.
Proof. destruct v; simpl; congruence. Qed.

Lemma is_null_false v : v <> VNull -> is_null v = false.
Proof. destruct v; simpl; congruence. Qed.

Lemma set_users_id x : set_users (_users x) x = x.
Proof. now destruct x. Qed.

Ltac lookup_cell :=
  first [ eassumption | apply cells_put_eq
        | rewrite cells_put_ne by congruence; lookup_cell ].

Ltac mstep :=
  first
    [ rewrite bind_bind
    | rewrite bind_ret
    | rewrite bind_get_world
    | rewrite bind_modify
    | rewrite bind_emit
    | rewrite bind_throw
    | rewrite bind_fresh_symbol
    | erewrite bind_get_cell by lookup_cell
    | erewrite bind_update_cell by lookup_cell
    | rewrite prefix_nil
    | rewrite prefix_prefix ].

(** *** Observers that only watch *)

Lemma observer_inv callback : observer callback = true -> exists t, callback = CbObserve t.
Proof. destruct callback; simpl; try discriminate. eauto. Qed.

Lemma invoke_observe fuel tag args w :
  call (S fuel) (CInvoke (CbObserve tag) args) w = Ok RVoid w [EvCall tag args].
Proof. reflexivity. Qed.

Lemma forEach_observers fuel l args w :
  forallb observer l = true ->
  forEach l (fun callback => call (S fuel) (CInvoke callback args)) w
  = Ok RVoid w (calls args l).
Proof.
  induction l as [|cb l IH]; [reflexivity|].
  simpl. intros [Hcb Hl]%andb_prop.
  destruct (observer_inv _ Hcb) as [t ->].
  unfold bind. rewrite invoke_observe, (IH Hl). reflexivity.
Qed.

Lemma forEach_subscribers fuel c l w x :
  cells w !! c = Some x -> forallb observer l = true ->
  forEach l (fun callback =>
     let* this := get_cell c in invoke (call (S fuel)) callback [_value this]) w
  = Ok RVoid w (calls [_value x] l).
Proof.
  intros Hc. unfold invoke. induction l as [|cb l IH]; [reflexivity|].
  simpl. intros [Hcb Hl]%andb_prop.
  destruct (observer_inv _ Hcb) as [t ->].
  repeat mstep. erewrite bind_Ok by apply invoke_observe.
  rewrite (IH Hl). reflexivity.
Qed.

Lemma drop_more fuel w c x n :
  cells w !! c = Some x -> _users x = S (S n) ->
  call (S fuel) (CDrop c) w = Ok RVoid (put c (set_users (S n) x) w) [].
Proof.
  intros Hc Hu. rewrite call_S. unfold dispatch, drop.
  mstep. rewrite Hu. cbn [Nat.eqb].
  repeat mstep. cbn [_users set_users Nat.pred]. rewrite Hu. reflexivity.
Qed.

Lemma finalise_base fuel w c x :
  cells w !! c = Some x -> kind x = KSpook ->
  call (S fuel) (CFinalise c) w = Ok RVoid w [].
Proof.
  intros Hc Hk. rewrite call_S. unfold dispatch, finalise. mstep. now rewrite Hk.
Qed.

Lemma initialise_base fuel w c x :
  cells w !! c = Some x -> kind x = KSpook ->
  call (S fuel) (CInitialise c) w = Ok RVoid w [].
Proof.
  intros Hc Hk. rewrite call_S. unfold dispatch, initialise. mstep. now rewrite Hk.
Qed.

Lemma drop_last fuel w c x :
  cells w !! c = Some x -> _users x = 1 ->
  call (S fuel) (CDrop c) w =
  (if cache_managed x w
   then call fuel (CCacheFinalise (default "" (_uuid x)) c)
   else call fuel (CFinalise c)) (put c (set_users 0 x) w).
Proof.
  intros Hc Hu. rewrite call_S. unfold dispatch, drop.
  mstep. rewrite Hu. cbn [Nat.eqb].
  repeat mstep. cbn [_users set_users Nat.pred _uuid]. rewrite Hu. cbn [Nat.eqb Nat.pred].
  change (cache_managed (set_users 0 x) (put c (set_users 0 x) w))
    with (cache_managed x w).
  unfold cache_managed. destruct (_uuid x) as [u|]; [|reflexivity].
  cbn [default]. now destruct (truthy (Some u) && _ && _).
Qed.

Lemma drop_last_inert fuel w c x :
  cells w !! c = Some x -> _users x = 1 -> inert x w ->
  call (S (S fuel)) (CDrop c) w = Ok RVoid (put c (set_users 0 x) w) [].
Proof.
  intros Hc Hu [Hk Hm]. rewrite (drop_last _ _ _ _ Hc Hu), Hm.
  eapply finalise_base; [apply cells_put_eq | exact Hk].
Qed.

Lemma drain_thens fuel c l : forall w x,
  cells w !! c = Some x -> forallb observer l = true ->
  length l <= _users x ->
  (length l = _users x -> l <> [] -> inert x w) ->
  forEach l (fun callback =>
     (let* this := get_cell c in invoke (call (S (S fuel))) callback [_value this]) >>
     call (S (S fuel)) (CDrop c)) w
  = Ok RVoid (put c (set_users (_users x - length l) x) w) (calls [_value x] l).
Proof.
  unfold invoke. induction l as [|cb l IH]; intros w x Hc Hp Hle Hin.
  - simpl. rewrite Nat.sub_0_r, set_users_id, put_id by done. reflexivity.
  - simpl in Hp. apply andb_prop in Hp as [Hcb Hp].
    destruct (observer_inv _ Hcb) as [t ->]. simpl in Hle.
    cbn [forEach]. repeat mstep.
    erewrite bind_Ok by apply invoke_observe.
    destruct (_users x) as [|[|n]] eqn:Hu; [lia| |].
    + assert (l = []) as -> by (destruct l; simpl in *; [done|lia]).
      erewrite bind_Ok
        by (apply drop_last_inert; [eassumption..| apply Hin; simpl; congruence]).
      simpl. reflexivity.
    + erewrite bind_Ok by (eapply drop_more; eassumption).
      rewrite (IH (put c (set_users (S n) x) w) (set_users (S n) x)).
      * simpl. rewrite put_put. reflexivity.
      * apply cells_put_eq.
      * done.
      * simpl. lia.
      * simpl. intros H1 H2. destruct Hin as [Hk Hm]; [simpl; lia | congruence |].
        split; done.
Qed.

Lemma observed_inv x :
  observed x = true ->
  forallb observer (symbolValues (_notifies x)) = true /\
  forallb observer (symbolValues (_subscribers x)) = true /\
  forallb observer (_thens x) = true.
Proof.
  unfold observed. intros [[H1 H2]%andb_prop H3]%andb_prop. auto.
Qed.

(** A transition of a cell whose observers only watch: the whole outcome. *)
Lemma trigger_passive fuel w c x v :
  cells w !! c = Some x -> _triggering x = None ->
  v <> VUndefined -> (_mayBeNull x = true \/ v <> VNull) ->
  observed x = true -> drains x w ->
  call (S (S (S fuel))) (CTrigger c v) w =
  prefix (calls [] (symbolValues (_notifies x)) ++
          calls [v] (symbolValues (_subscribers x)) ++
          calls [v] (_thens x))
    (if cache_managed x w
     then call (S (S fuel)) (CCacheChanged (default "" (_uuid x)) v)
            (put c (triggered v x) w)
     else Ok RVoid (put c (triggered v x) w) []).
Proof.
  intros Hc Ht Hv Hn (Hpn & Hps & Hpt)%observed_inv [Hle Hin].
  rewrite call_S. unfold dispatch, trigger.
  mstep. rewrite (is_undefined_false v Hv). cbv iota.
  rewrite (is_undefined_false v Hv). cbv iota.
  rewrite Ht. rewrite bool_decide_false by (intros [? ?]; discriminate).
  assert (negb (_mayBeNull x) && is_null v = false) as ->.
  { destruct Hn as [->| Hn]; [reflexivity|].
    rewrite (is_null_false v Hn). apply andb_false_r. }
  repeat mstep.
  cbn [_notifies set_value set_ready set_triggering].
  unfold invoke.
  erewrite bind_Ok by (apply forEach_observers; assumption).
  repeat mstep.
  cbn [_subscribers set_value set_ready set_triggering].
  erewrite bind_Ok
    by (eapply (forEach_subscribers (S fuel)); [lookup_cell | assumption]).
  repeat mstep.
  cbn [_thens _value set_value set_ready set_triggering].
  erewrite bind_Ok.
  2:{ eapply (drain_thens fuel); [lookup_cell | assumption | exact Hle | ].
      cbn. intros H1 H2. destruct (Hin H1 H2). split; assumption. }
  repeat mstep. rewrite !put_put.
  cbn [_value _thens _users set_value set_ready set_triggering set_users set_thens].
  set (x' := set_triggering None _).
  assert (x' = triggered v x) as ->.
  { unfold x', triggered. destruct x; simpl in *; subst; reflexivity. }
  change (cache_managed (triggered v x) (put c (triggered v x) w))
    with (cache_managed x w).
  change (_uuid (triggered v x)) with (_uuid x).
  rewrite <- app_assoc. f_equal.
  destruct (_uuid x) as [u|] eqn:Hu; simpl.
  - now destruct (cache_managed x w).
  - unfold cache_managed. rewrite Hu. reflexivity.
Qed.

(** ** Relations every call keeps *)

Section Keeps.

Context (R : World -> World -> Prop).
Context (R_refl : forall w, R w w).
Context (R_trans : forall a b c, R a b -> R b c -> R a c).

Lemma post_prefix {A} w t (o : Outcome A) : post R w (prefix t o) <-> post R w o.
Proof. now destruct o. Qed.

Lemma keeps_ret {A} (a : A) : keeps R (ret a).
Proof. intros w. apply R_refl. Qed.

Lemma keeps_throw {A} e : keeps R (@throw A e).
Proof. intros w. apply R_refl. Qed.

Lemma keeps_emit e : keeps R (emit e).
Proof. intros w. apply R_refl. Qed.

Lemma keeps_get_world : keeps R get_world.
Proof. intros w. apply R_refl. Qed.

Lemma keeps_get_cell c : keeps R (get_cell c).
Proof. intros w. unfold get_cell. destruct (cells w !! c); apply R_refl. Qed.

Lemma keeps_the_cache : keeps R the_cache.
Proof. intros w. unfold the_cache. destruct (cache w); apply R_refl. Qed.

Lemma keeps_get_bridge p : keeps R (get_bridge p).
Proof. intros w. unfold get_bridge. destruct (bridges w !! p); apply R_refl. Qed.

Lemma keeps_modify f : (forall w, R w (f w)) -> keeps R (modify f).
Proof. intros H w. apply H. Qed.

Lemma keeps_fresh_symbol : (forall w n, R w (set_symbols n w)) -> keeps R fresh_symbol.
Proof. intros H w. apply H. Qed.

Lemma keeps_bind {A B} (m : M A) (f : A -> M B) :
  keeps R m -> (forall a, keeps R (f a)) -> keeps R (bind m f).
Proof.
  intros Hm Hf w. unfold bind. specialize (Hm w).
  destruct (m w) as [a w1 t1|e w1 t1|]; [|assumption|exact I].
  apply post_prefix. specialize (Hf a w1).
  destruct (f a w1); simpl in *; eauto.
Qed.

Lemma keeps_try_catch m h :
  keeps R m -> (forall e, keeps R (h e)) -> keeps R (try_catch m h).
Proof.
  intros Hm Hh w. unfold try_catch. specialize (Hm w).
  destruct (m w) as [a w1 t1|e w1 t1|]; [assumption| |exact I].
  apply post_prefix. specialize (Hh e w1).
  destruct (h e w1); simpl in *; eauto.
Qed.

Lemma keeps_forEach {A} (l : list A) f :
  (forall a, keeps R (f a)) -> keeps R (forEach l f).
Proof.
  intros Hf. induction l as [|a l IH]; simpl.
  - apply keeps_ret.
  - apply keeps_bind; [apply Hf | intros _; exact IH].
Qed.

Lemma keeps_get_latch c : keeps R (get_latch c).
Proof.
  unfold get_latch. apply keeps_bind; [apply keeps_get_cell|].
  intros x. destruct (kind x); first [apply keeps_ret | apply keeps_throw].
Qed.

Lemma keeps_get_reg u : keeps R (get_reg u).
Proof.
  unfold get_reg. apply keeps_bind; [apply keeps_the_cache | intros; apply keeps_ret].
Qed.

Lemma keeps_get_storage u : keeps R (get_storage u).
Proof.
  unfold get_storage.
  apply keeps_bind; [apply keeps_the_cache | intros; apply keeps_ret].
Qed.

Lemma keeps_get_cell_bind {B} c (f : Spook -> M B) :
  (forall w x, cells w !! c = Some x -> post R w (f x w)) ->
  keeps R (bind (get_cell c) f).
Proof.
  intros H w. unfold bind, get_cell.
  destruct (cells w !! c) as [x|] eqn:E; [|apply R_refl].
  apply post_prefix. now apply H.
Qed.

End Keeps.

Lemma keeps_weaken {A} (R R' : World -> World -> Prop) (m : M A) :
  (forall w w', R w w' -> R' w w') -> keeps R m -> keeps R' m.
Proof. intros H Hm w. specialize (Hm w). destruct (m w); simpl in *; auto. Qed.

(** One step of a proof that a method body keeps a relation; [upd] deals
    with the updates. *)
Ltac keeps_step upd :=
  lazymatch goal with
  | |- keeps _ _ =>
    first
      [ match goal with H : forall k, keeps _ (_ k) |- _ => apply H end
      | apply keeps_ret; assumption
      | apply keeps_throw; assumption
      | apply keeps_emit; assumption
      | apply keeps_get_world; assumption
      | apply keeps_get_cell; assumption
      | apply keeps_the_cache; assumption
      | apply keeps_get_bridge; assumption
      | apply keeps_get_latch; assumption
      | apply keeps_get_reg; assumption
      | apply keeps_get_storage; assumption
      | apply keeps_bind; [assumption | | intros ?]
      | apply keeps_forEach; [assumption | assumption | intros ?]
      | apply keeps_try_catch; [assumption | | intros ?]
      | upd
      | match goal with
        | |- keeps _ (if ?b then _ else _) => destruct b
        | |- keeps _ (match ?x with _ => _ end) => destruct x
        | |- keeps _ (let _ := _ in _) => cbv zeta
        end ]
  end.

Ltac unfold_bodies :=
  unfold changed, reset, defaultTo, use, drop, initialise, finalise,
    notify, unnotify, tie, untie, then_, done, apply_callback,
    cache_initialise, cache_finalise, cache_ensureActive, cache_changed,
    promise, settle_future, run_jobs, latch_initialise, latch_finalise,
    latch_poll, cleanupCallback, promise_done, future_then, settle,
    update_bridge, store, unstore, update_reg, update_cache, update_latch, invoke,
    console_warn, console_error.

Section Tolerant.

Context (R : World -> World -> Prop).
Context (R_refl : forall w, R w w).
Context (R_trans : forall a b c, R a b -> R b c -> R a c).
Context (tol : tolerant R).

Ltac upd_tol :=
  first
    [ apply keeps_fresh_symbol; intros; apply (tol_symbols R tol)
    | apply keeps_modify; intros ?;
      first [ apply (tol_idVars R tol) | apply (tol_bridges R tol)
            | apply (tol_futures R tol) | apply (tol_jobs R tol)
            | apply (tol_cache R tol)
            | eapply R_trans; [apply (tol_jobs R tol) | apply (tol_futures R tol)] ]
    | unfold update_cell; apply keeps_modify; intros ?; apply (tol_cell R tol);
      intros x; try (unfold set_latch; destruct (kind x)); repeat split; reflexivity ].

(** Every method keeps a tolerant preorder, once [trigger] does. *)
Lemma keeps_dispatch rec k :
  (forall k, keeps R (rec k)) -> (forall c v, keeps R (trigger rec c v)) ->
  keeps R (dispatch rec k).
Proof.
  intros Hrec Htrig.
  destruct k; unfold dispatch.
  all: try apply Htrig.
  all: unfold_bodies.
  all: repeat keeps_step upd_tol.
Qed.

End Tolerant.

(** *** The sentinel stays set while its trigger runs *)

Lemma armed_alter c b c0 f w :
  (forall x, _triggering (f x) = _triggering x) ->
  armed c b w -> armed c b (set_cells (alter f c0 (cells w)) w).
Proof.
  intros Hf (x & Hx & Ht). unfold armed. cbn [cells set_cells].
  destruct (decide (c = c0)) as [->|Hne].
  - exists (f x). rewrite lookup_alter_eq, Hx. split; [reflexivity|]. now rewrite Hf.
  - exists x. now rewrite lookup_alter_ne by congruence.
Qed.

Lemma armed_alter_ne c b c0 f w :
  c <> c0 -> armed c b w -> armed c b (set_cells (alter f c0 (cells w)) w).
Proof.
  intros Hne (x & Hx & Ht). exists x. cbn [cells set_cells].
  now rewrite lookup_alter_ne by congruence.
Qed.

Lemma stays_armed_tolerant : tolerant stays_armed.
Proof.
  split; try (intros; intros c b H; exact H).
  intros c f w Hf c' b H. apply armed_alter; [|assumption]. intros x. apply Hf.
Qed.

Lemma keeps_trigger_armed rec c v :
  (forall k, keeps stays_armed (rec k)) -> keeps stays_armed (trigger rec c v).
Proof.
  intros Hrec.
  assert (Hrec' : forall k, keeps (stays_armed_but c) (rec k)).
  { intros k. eapply keeps_weaken; [|apply Hrec]. intros w w' H c' b _. apply H. }
  assert (Hr : forall w, stays_armed_but c w w) by (intros w c' b _ H; exact H).
  assert (Ht : forall w1 w2 w3, stays_armed_but c w1 w2 -> stays_armed_but c w2 w3 ->
                                stays_armed_but c w1 w3).
  { intros w1 w2 w3 H1 H2 c' b Hne H. apply H2, H1; assumption. }
  unfold trigger. apply keeps_get_cell_bind; [intros w c' b H; exact H|].
  intros w x Hx. cbv zeta.
  destruct (is_undefined (if is_undefined v then _value x else v)).
  { intros c' b H; exact H. }
  destruct (bool_decide (is_Some (_triggering x))) eqn:Hs.
  { intros c' b H; exact H. }
  apply bool_decide_eq_false in Hs.
  match goal with
  | |- post _ _ (?m w) => assert (Hk : keeps (stays_armed_but c) m)
  end.
  { unfold invoke.
    repeat keeps_step ltac:(unfold update_cell; apply keeps_modify; intros ?;
                            intros c' b Hne H; apply armed_alter_ne; assumption). }
  specialize (Hk w). unfold post in *.
  match goal with
  | |- match ?o with _ => _ end => destruct o as [a w' t|e w' t|]; [| |exact I]
  end.
  all: intros c' b H; destruct (decide (c' = c)) as [->|Hne]; [|now apply Hk].
  all: destruct H as (x' & Hx' & Hb); rewrite Hx in Hx'; injection Hx' as <-;
       exfalso; apply Hs; rewrite Hb; eauto.
Qed.

Lemma call_stays_armed fuel k : keeps stays_armed (call fuel k).
Proof.
  revert k. induction fuel as [|fuel IH]; intros k.
  - intros w. exact I.
  - change (call (S fuel) k) with (dispatch (call fuel) k).
    apply keeps_dispatch.
    + intros w c b H; exact H.
    + intros w1 w2 w3 H1 H2 c b H. apply H2, H1, H.
    + apply stays_armed_tolerant.
    + exact IH.
    + intros c v. apply keeps_trigger_armed, IH.
Qed.

(** *** The fields no method assigns *)

Lemma static_refl w : static w w.
Proof. split; [reflexivity | tauto]. Qed.

Lemma static_trans a b c : static a b -> static b c -> static a c.
Proof. intros [H1 H2] [H3 H4]. split; [intros i; now rewrite H3, H1 | tauto]. Qed.

Lemma static_alter c f w :
  (forall x, _uuid (f x) = _uuid x /\ _noCache (f x) = _noCache x) ->
  static w (set_cells (alter f c (cells w)) w).
Proof.
  intros Hf. split; [|reflexivity]. intros i. cbn [cells set_cells].
  destruct (decide (i = c)) as [->|Hne].
  - rewrite lookup_alter_eq. destruct (cells w !! c) as [x|]; [|reflexivity].
    cbn. unfold cell_static. destruct (Hf x) as [-> ->]. reflexivity.
  - now rewrite lookup_alter_ne by congruence.
Qed.

Lemma static_tolerant : tolerant static.
Proof.
  split; try (intros; split; [intros; reflexivity | reflexivity]).
  - intros c f w Hf. apply static_alter. intros x. apply Hf.
  - intros w f. split; [reflexivity|]. cbn [cache set_cache].
    destruct (cache w); cbn; split; intros [? H]; eauto; inversion H.
Qed.

Ltac upd_static :=
  unfold update_cell; apply keeps_modify; intros ?; apply static_alter;
  intros ?; split; reflexivity.

Lemma keeps_trigger_static rec c v :
  (forall k, keeps static (rec k)) -> keeps static (trigger rec c v).
Proof.
  intros Hrec.
  pose proof static_refl as Hr. pose proof static_trans as Ht.
  unfold trigger, invoke, console_error.
  repeat keeps_step upd_static.
Qed.

Lemma call_static fuel k : keeps static (call fuel k).
Proof.
  revert k. induction fuel as [|fuel IH]; intros k.
  - intros w. exact I.
  - change (call (S fuel) k) with (dispatch (call fuel) k).
    apply keeps_dispatch.
    + apply static_refl.
    + apply static_trans.
    + apply static_tolerant.
    + exact IH.
    + intros c v. apply keeps_trigger_static, IH.
Qed.

Lemma static_cache_managed w w' c x :
  static w w' -> cells w !! c = Some x ->
  exists x', cells w' !! c = Some x' /\ cache_managed x' w' = cache_managed x w.
Proof.
  intros [H1 H2] Hx. specialize (H1 c). rewrite Hx in H1.
  destruct (cells w' !! c) as [x'|]; [|discriminate].
  exists x'. split; [reflexivity|]. cbn in H1. injection H1 as Hu Hn.
  unfold cache_managed. rewrite Hu, Hn. f_equal.
  apply bool_decide_ext. exact H2.
Qed.

(** A trigger that returns has cleared its sentinel, whatever its observers
    did, when the cell is not published to the shared cache. *)
Lemma trigger_clears fuel w c x v r w' tr :
  cells w !! c = Some x -> _triggering x = None -> cache_managed x w = false ->
  call fuel (CTrigger c v) w = Ok r w' tr ->
  exists x', cells w' !! c = Some x' /\ _triggering x' = None.
Proof.
  intros Hc Ht Hm H. destruct fuel as [|fuel]; [discriminate|].
  rewrite call_S in H. unfold dispatch, trigger in H.
  rewrite (bind_get_cell _ _ _ _ Hc) in H. cbv zeta in H.
  destruct (is_undefined (if is_undefined v then _value x else v)).
  { injection H as _ <- _. eauto. }
  rewrite Ht in H. rewrite bool_decide_false in H by (intros [? ?]; discriminate).
  rewrite (bind_update_cell _ _ _ _ _ Hc) in H.
  apply bind_Ok_inv in H as (a & w2 & t1 & t2 & Hmid & H & ->).
  assert (Hst : static (put c (set_triggering (Some (if is_undefined v then _value x else v)) x) w) w2).
  { match type of Hmid with ?m ?w0 = _ => assert (Hk : keeps static m) end.
    { pose proof static_refl as Hr. pose proof static_trans as Htr.
      pose proof (call_static fuel) as Hrec.
      unfold invoke.
      repeat keeps_step upd_static. }
    match type of Hmid with _ ?w0 = _ => specialize (Hk w0) end.
    rewrite Hmid in Hk. exact Hk. }
  destruct (static_cache_managed _ _ c _ Hst (cells_put_eq _ _ _)) as (x2 & Hx2 & Hm2).
  change (cache_managed _ (put c _ w)) with (cache_managed x w) in Hm2.
  rewrite (bind_update_cell _ _ _ _ _ Hx2) in H.
  erewrite bind_get_cell in H by apply cells_put_eq.
  rewrite bind_get_world in H.
  change (cache_managed (set_triggering None x2) (put c (set_triggering None x2) w2))
    with (cache_managed x2 w2) in H.
  rewrite Hm2, Hm in H.
  assert (H' : ret RVoid (put c (set_triggering None x2) w2) = Ok r w' t2).
  { cbn [_uuid set_triggering] in H. destruct (_uuid x2); exact H. }
  injection H' as _ <- _. exists (set_triggering None x2). split; [apply cells_put_eq|reflexivity].
Qed.

(** *** [use], [notify] and [changed] *)

Lemma use_more fuel w c x :
  cells w !! c = Some x -> 0 < _users x ->
  call (S fuel) (CUse c) w = Ok (RThis c) (put c (set_users (S (_users x)) x) w) [].
Proof.
  intros Hc Hu. rewrite call_S. unfold dispatch, use.
  repeat mstep. destruct (_users x) as [|n] eqn:E; [lia|]. cbn [Nat.eqb].
  repeat mstep. rewrite E. reflexivity.
Qed.

Lemma use_first_inert fuel w c x :
  cells w !! c = Some x -> _users x = 0 -> inert x w ->
  call (S (S fuel)) (CUse c) w = Ok (RThis c) (put c (set_users 1 x) w) [].
Proof.
  intros Hc Hu [Hk Hm]. rewrite call_S. unfold dispatch, use.
  repeat mstep. rewrite Hu. cbn [Nat.eqb]. rewrite Hm.
  assert (Hi : call (S fuel) (CInitialise c) w = Ok RVoid w [])
    by (eapply initialise_base; eassumption).
  destruct (_uuid x).
  all: rewrite (bind_Ok _ _ _ _ _ _ Hi); repeat mstep; rewrite Hu; reflexivity.
Qed.

Lemma use_settled fuel w c x :
  cells w !! c = Some x -> settled x w ->
  call (S (S fuel)) (CUse c) w = Ok (RThis c) (put c (set_users (S (_users x)) x) w) [].
Proof.
  intros Hc [Hu|Hi].
  - now apply use_more.
  - destruct (Nat.eq_dec (_users x) 0) as [E|E]; [|apply use_more; [assumption|lia]].
    rewrite (use_first_inert _ _ _ _ Hc E Hi), E. reflexivity.
Qed.

Lemma notify_run fuel w c tag r w1 tr1 x1 :
  call fuel (CUse c) w = Ok r w1 tr1 -> cells w1 !! c = Some x1 ->
  call (S fuel) (CNotify c (CbObserve tag)) w =
  Ok (RId (symbols w1))
     (put c (set_notifies (_notifies x1 ++ [(symbols w1, CbObserve tag)]) x1)
        (set_symbols (S (symbols w1)) w1))
     (tr1 ++ (if _ready x1 then [EvCall tag []] else [])).
Proof.
  intros Hu Hc. rewrite call_S. unfold dispatch, notify.
  rewrite (bind_Ok _ _ _ _ _ _ Hu). repeat mstep.
  cbn [_ready set_notifies]. unfold invoke.
  destruct fuel as [|fuel]; [discriminate|].
  destruct (_ready x1).
  - erewrite bind_Ok by apply invoke_observe. repeat mstep.
    unfold ret. simpl. now rewrite !app_nil_r.
  - repeat mstep. unfold ret. simpl. now rewrite !app_nil_r.
Qed.

Lemma changed_equal fuel w c x v :
  cells w !! c = Some x -> v <> VUndefined -> (_mayBeNull x = true \/ v <> VNull) ->
  _ready x = true -> equivalent v (_value x) = true ->
  call (S fuel) (CChanged c v) w = Ok RVoid w [].
Proof.
  intros Hc Hv Hn Hr He. rewrite call_S. unfold dispatch, changed.
  rewrite (is_undefined_false v Hv). mstep.
  assert (negb (_mayBeNull x) && is_null v = false) as ->.
  { destruct Hn as [->| Hn]; [reflexivity|].
    rewrite (is_null_false v Hn). apply andb_false_r. }
  rewrite Hr, He. reflexivity.
Qed.

Lemma changed_differs fuel w c x v :
  cells w !! c = Some x -> v <> VUndefined -> (_mayBeNull x = true \/ v <> VNull) ->
  _ready x = false \/ equivalent v (_value x) = false ->
  call (S fuel) (CChanged c v) w = call fuel (CTrigger c v) w.
Proof.
  intros Hc Hv Hn Hr. rewrite call_S. unfold dispatch, changed.
  rewrite (is_undefined_false v Hv). mstep.
  assert (negb (_mayBeNull x) && is_null v = false) as ->.
  { destruct Hn as [->| Hn]; [reflexivity|].
    rewrite (is_null_false v Hn). apply andb_false_r. }
  destruct Hr as [-> | ->]; [reflexivity|]. now rewrite orb_true_r.
Qed.

Lemma put_symbols_put c x y n w :
  put c x (set_symbols n (put c y w)) = put c x (set_symbols n w).
Proof. unfold put, set_symbols, set_cells. simpl. f_equal. apply insert_insert_eq. Qed.

(** *** The shared cache *)

Lemma bind_the_cache {B} k (f : SpookCache -> M B) w :
  cache w = Some k -> bind the_cache f w = f k w.
Proof. intros H. unfold bind, the_cache. rewrite H. apply prefix_nil. Qed.

Lemma bind_update_cache {B} k g (f : Ret -> M B) w :
  cache w = Some k -> bind (update_cache g) f w = f RVoid (set_cache (Some (g k)) w).
Proof. intros H. unfold update_cache. rewrite bind_modify, H. reflexivity. Qed.

Lemma bind_get_reg {B} k u (f : option Reg -> M B) w :
  cache w = Some k -> bind (get_reg u) f w = f (regs k !! u) w.
Proof.
  intros H. unfold get_reg. rewrite bind_bind, (bind_the_cache _ _ _ H).
  now rewrite bind_ret.
Qed.

Lemma bind_get_storage {B} k u (f : option string -> M B) w :
  cache w = Some k -> bind (get_storage u) f w = f (storage k !! u) w.
Proof.
  intros H. unfold get_storage. rewrite bind_bind, (bind_the_cache _ _ _ H).
  now rewrite bind_ret.
Qed.

Ltac cache_is := first [ eassumption | reflexivity ].

Ltac cstep :=
  first
    [ mstep
    | erewrite bind_the_cache by cache_is
    | erewrite bind_update_cache by cache_is
    | erewrite bind_get_reg by cache_is
    | erewrite bind_get_storage by cache_is ].

(** [SpookCache.changed] by the owner. *)
Lemma cache_changed_owner fuel w k uuid item f v :
  cache w = Some k -> regs k !! uuid = Some item ->
  storage k !! owner_key uuid = Some (sessionId k) ->
  stringify item = Some f -> v <> VUndefined ->
  call (S fuel) (CCacheChanged uuid v) w =
  forEach (users item) (fun spook => call fuel (CChanged spook v))
    (set_cache (Some (set_storage (<[value_key uuid := f v]> (storage k)) k)) w).
Proof.
  intros Hk Hr Ho Hf Hv. rewrite call_S. unfold dispatch, cache_changed.
  rewrite (bind_the_cache _ _ _ Hk), Hr, Ho.
  rewrite bool_decide_true by reflexivity.
  rewrite (is_undefined_false v Hv), Hf. unfold store.
  rewrite (bind_update_cache _ _ _ _ Hk). reflexivity.
Qed.

Lemma cache_changed_other fuel w k uuid v :
  cache w = Some k ->
  regs k !! uuid = None \/ storage k !! owner_key uuid <> Some (sessionId k) ->
  call (S fuel) (CCacheChanged uuid v) w = Ok RVoid w [].
Proof.
  intros Hk H. rewrite call_S. unfold dispatch, cache_changed.
  rewrite (bind_the_cache _ _ _ Hk).
  destruct (regs k !! uuid) as [item|]; [|reflexivity].
  destruct H as [H|H]; [discriminate|]. now rewrite bool_decide_false.
Qed.

(** [SpookCache.ensureActive] adopting an unowned uuid. *)
Lemma ensureActive_adopts fuel w k uuid item p :
  cache w = Some k -> regs k !! uuid = Some item ->
  primary item = None -> deferred item = false -> owned item = false ->
  last (users item) = Some p ->
  no_deferral k uuid ->
  truthy (storage k !! owner_key uuid) = false ->
  call (S fuel) (CCacheEnsureActive uuid None) w =
  call fuel (CInitialise p)
    (set_cache (Some
       (set_regs (<[uuid := set_owned true (set_primary (Some p)
                              (set_reg_users (removelast (users item)) item))]> (regs k))
          (set_storage (<[owner_key uuid := sessionId k]> (storage k)) k))) w).
Proof.
  intros Hk Hr Hp Hd Ho Hl Hpre Hst. rewrite call_S. unfold dispatch, cache_ensureActive.
  cbv zeta. cbn [default].
  rewrite (bind_get_reg _ _ _ _ Hk), Hr, Hp. repeat cstep.
  rewrite Hr, Hp, Hd, Ho.
  assert (0 < length (users item)) by (destruct (users item); [discriminate|simpl; lia]).
  rewrite !bool_decide_true by done. cbn [andb negb].
  repeat cstep. rewrite Hpre, Hst. cbn [negb]. unfold store.
  repeat cstep. cbn [storage set_storage sessionId].
  rewrite lookup_insert_eq, bool_decide_true by reflexivity. rewrite Hl.
  unfold update_reg. repeat cstep.
  cbn [regs set_regs set_storage storage deferParentPrefix sessionId].
  f_equal. unfold set_cache. f_equal. f_equal. unfold set_regs, set_storage. cbn.
  f_equal. apply map_eq. intros i. destruct (decide (i = uuid)) as [->|Hne].
  - now rewrite lookup_alter_eq, lookup_insert_eq, Hr.
  - now rewrite lookup_alter_ne, lookup_insert_ne by congruence.
Qed.

Lemma cache_initialise_fresh fuel w c k u s p :
  cache w = Some k -> regs k !! u = None -> storage k !! value_key u = None ->
  call (S fuel) (CCacheInitialise u c s p) w =
  call fuel (CCacheEnsureActive u None)
    (set_cache (Some (set_regs (<[u := mkReg false false [c] None s p]> (regs k)) k)) w).
Proof.
  intros Hk Hr Hs. rewrite call_S. unfold dispatch, cache_initialise.
  repeat cstep. rewrite Hr. repeat cstep.
  cbn [storage set_regs]. rewrite Hs. repeat cstep. reflexivity.
Qed.

Lemma cache_finalise_primary fuel w c k u item :
  cache w = Some k -> regs k !! u = Some item -> primary item = Some c ->
  call (S fuel) (CCacheFinalise u c) w =
  Ok RVoid (set_cache (Some (set_regs (<[u := set_owned false item]> (regs k)) k)) w) [].
Proof.
  intros Hk Hr Hp. rewrite call_S. unfold dispatch, cache_finalise.
  repeat cstep. rewrite Hr, Hp. rewrite bool_decide_true by reflexivity. cbv zeta.
  cbv iota. unfold update_reg. repeat cstep. cbn [regs set_regs].
  rewrite lookup_alter_eq, Hr. cbn [fmap option_fmap option_map primary set_owned].
  rewrite Hp. rewrite bool_decide_false by discriminate. cbn [andb].
  unfold ret. do 4 f_equal.
  apply map_eq. intros i. destruct (decide (i = u)) as [->|Hne].
  - now rewrite lookup_alter_eq, lookup_insert_eq, Hr.
  - now rewrite lookup_alter_ne, lookup_insert_ne by congruence.
Qed.

Lemma put_cache_id c x k w : cells w !! c = Some x -> put c x (set_cache k w) = set_cache k w.
Proof.
  intros H. unfold put, set_cache, set_cells. cbn. f_equal. now apply insert_id.
Qed.

Lemma cache_managed_some x w k :
  cache w = Some k -> cache_managed x w = truthy (_uuid x) && negb (_noCache x).
Proof. intros H. unfold cache_managed. rewrite H. cbn. now rewrite andb_true_r. Qed.

Lemma use_drop_cold fuel w c x k u :
  cells w !! c = Some x -> _users x = 0 -> kind x = KSpook ->
  _uuid x = Some u -> cache_managed x w = true -> cache w = Some k ->
  regs k !! u = None -> storage k !! value_key u = None ->
  truthy (storage k !! owner_key u) = false -> no_deferral k u ->
  run (4 + fuel) [CUse c; CDrop c] w =
  Ok RVoid
    (set_cache (Some
       (set_regs (<[u := mkReg false false [] (Some c) (_stringify x) (_parse x)]> (regs k))
          (set_storage (<[owner_key u := sessionId k]> (storage k)) k))) w) [].
Proof.
  intros Hc Hu Hk Hid Hm Hca Hr Hs Ho Hd.
  unfold run. cbn [forEach]. change (4 + fuel) with (S (S (S (S fuel)))).
  assert (Huse : call (S (S (S (S fuel)))) (CUse c) w =
    Ok (RThis c)
      (put c (set_users 1 x)
         (set_cache (Some
            (set_regs (<[u := mkReg true false [] (Some c) (_stringify x) (_parse x)]> (regs k))
               (set_storage (<[owner_key u := sessionId k]> (storage k)) k))) w)) []).
  { rewrite call_S. unfold dispatch, use. repeat mstep. rewrite Hu, Hid, Hm. cbn [Nat.eqb].
    erewrite bind_Ok.
    2:{ rewrite (cache_initialise_fresh _ _ _ _ _ _ _ Hca Hr Hs).
        erewrite ensureActive_adopts;
          [ | reflexivity | apply lookup_insert_eq | reflexivity | reflexivity
            | reflexivity | reflexivity | exact Hd | exact Ho ].
        eapply initialise_base; [exact Hc | exact Hk]. }
    repeat mstep. rewrite Hu. cbn [users removelast set_reg_users set_primary set_owned regs set_regs
      storage set_storage sessionId deferParentPrefix owned deferred primary stringify parse].
    rewrite insert_insert_eq. reflexivity. }
  rewrite (bind_Ok _ _ _ _ _ _ Huse).
  erewrite bind_Ok.
  2:{ erewrite drop_last; [ | apply cells_put_eq | reflexivity ].
      erewrite cache_managed_some by reflexivity.
      erewrite <- (cache_managed_some (set_users 1 x) w) by exact Hca.
      change (cache_managed (set_users 1 x) w) with (cache_managed x w). rewrite Hm.
      cbn [_uuid set_users]. rewrite Hid. cbn [default].
      eapply cache_finalise_primary; [reflexivity | apply lookup_insert_eq | reflexivity]. }
  repeat mstep. unfold ret. cbn [prefix app]. f_equal.
  unfold put, set_cache, set_cells, set_regs, set_storage. cbn.
  rewrite !insert_insert_eq. f_equal.
  apply insert_id. rewrite Hc. f_equal. destruct x; simpl in *; now subst.
Qed.

(** *** The session identifier *)

Lemma hex_digit_is_hex d : (0 <= d < 16)%Z -> is_hex (hex_digit d) = true.
Proof.
  intros Hd. unfold is_hex, hex_digit.
  destruct (d <? 10)%Z eqn:E.
  - apply Z.ltb_lt in E. rewrite nat_ascii_embedding by lia.
    apply orb_true_iff. left. apply andb_true_iff. split; apply Nat.leb_le; lia.
  - apply Z.ltb_ge in E. rewrite nat_ascii_embedding by lia.
    apply orb_true_iff. right. apply andb_true_iff. split; apply Nat.leb_le; lia.
Qed.

Lemma hex_digits_all_hex fuel : forall n acc,
  all_hex acc = true -> all_hex (hex_digits fuel n acc) = true.
Proof.
  induction fuel as [|fuel IH]; intros n acc Ha; [exact Ha|].
  cbn [hex_digits].
  assert (Hd : all_hex (String (hex_digit (n mod 16)) acc) = true).
  { cbn [all_hex]. rewrite hex_digit_is_hex, Ha; [reflexivity|].
    apply Z.mod_pos_bound. lia. }
  destruct (n / 16 =? 0)%Z; [exact Hd | now apply IH].
Qed.

Lemma hex_digits_length k : forall fuel n acc,
  (16 ^ Z.of_nat k <= n < 16 ^ Z.of_nat (S k))%Z -> k < fuel ->
  String.length (hex_digits fuel n acc) = S k + String.length acc.
Proof.
  induction k as [|k IH]; intros fuel n acc Hn Hf.
  - destruct fuel as [|fuel]; [lia|]. cbn [hex_digits].
    change (16 ^ Z.of_nat 0)%Z with 1%Z in Hn. change (16 ^ Z.of_nat 1)%Z with 16%Z in Hn.
    rewrite Z.div_small by lia. reflexivity.
  - destruct fuel as [|fuel]; [lia|]. cbn [hex_digits].
    rewrite !Nat2Z.inj_succ, !Z.pow_succ_r in Hn by lia.
    rewrite Nat2Z.inj_succ in IH.
    assert (H16 : (0 < 16 ^ Z.of_nat k)%Z) by (apply Z.pow_pos_nonneg; lia).
    assert (Hq : (16 ^ Z.of_nat k <= n / 16 < 16 ^ Z.succ (Z.of_nat k))%Z).
    { rewrite Z.pow_succ_r by lia. split.
      - apply Z.div_le_lower_bound; lia.
      - apply Z.div_lt_upper_bound; lia. }
    destruct (n / 16 =? 0)%Z eqn:E; [apply Z.eqb_eq in E; lia|].
    rewrite IH by (try exact Hq; lia). cbn [String.length]. lia.
Qed.

Lemma sessionId_format backup pre random :
  (2 ^ 32 <= random <= 2 ^ 33)%Z ->
  String.length (sessionId (new_SpookCache backup pre random)) = 8 /\
  all_hex (sessionId (new_SpookCache backup pre random)) = true.
Proof.
  intros Hr. cbn [sessionId new_SpookCache]. unfold toString16.
  assert (Hl : String.length (hex_digits (S (Z.to_nat (Z.log2 random))) random "") = 9).
  { rewrite (hex_digits_length 8); [reflexivity| |].
    - change (16 ^ Z.of_nat 8)%Z with (2 ^ 32)%Z.
      change (16 ^ Z.of_nat 9)%Z with (2 ^ 36)%Z. lia.
    - assert (32 <= Z.log2 random)%Z.
      { change 32%Z with (Z.log2 (2 ^ 32)). apply Z.log2_le_mono. lia. }
      lia. }
  assert (Ha : all_hex (hex_digits (S (Z.to_nat (Z.log2 random))) random "") = true)
    by now apply hex_digits_all_hex.
  destruct (hex_digits _ random "") as [|a s]; [discriminate|].
  cbn [substr1]. cbn [String.length] in Hl. cbn [all_hex] in Ha.
  apply andb_prop in Ha as [_ Ha]. split; [lia | exact Ha].
Qed.

(** *** [use] then [drop] *)

Lemma set_users_twice n m x : set_users n (set_users m x) = set_users n x.
Proof. reflexivity. Qed.

Lemma set_users_same n x : _users x = n -> set_users n x = x.
Proof. intros <-. apply set_users_id. Qed.

Lemma use_drop_settled fuel w c x :
  cells w !! c = Some x -> settled x w ->
  run (2 + fuel) [CUse c; CDrop c] w = Ok RVoid w [].
Proof.
  intros Hc Hs. unfold run. cbn [forEach]. change (2 + fuel) with (S (S fuel)).
  rewrite (bind_Ok _ _ _ _ _ _ (use_settled fuel w c x Hc Hs)).
  assert (Hd : call (S (S fuel)) (CDrop c) (put c (set_users (S (_users x)) x) w)
               = Ok RVoid w []).
  { destruct (_users x) as [|n] eqn:Hu.
    - destruct Hs as [Hs|[Hk Hm]]; [lia|].
      erewrite drop_last_inert; [ | apply cells_put_eq | reflexivity | split; assumption ].
      rewrite put_put, set_users_twice, (set_users_same _ _ Hu), put_id by assumption.
      reflexivity.
    - erewrite drop_more; [ | apply cells_put_eq | reflexivity ].
      rewrite put_put, set_users_twice, (set_users_same _ _ Hu), put_id by assumption.
      reflexivity. }
  rewrite (bind_Ok _ _ _ _ _ _ Hd). reflexivity.
Qed.

Lemma use_drop_hooked fuel w c x i f :
  cells w !! c = Some x -> _users x = 0 -> cache_managed x w = false ->
  kind x = KCustom (CbObserve i) (CbObserve f) ->
  run (3 + fuel) [CUse c; CDrop c] w = Ok RVoid w [EvCall i []; EvCall f []].
Proof.
  intros Hc Hu Hm Hk. unfold run. cbn [forEach]. change (3 + fuel) with (S (S (S fuel))).
  assert (Huse : call (S (S (S fuel))) (CUse c) w
                 = Ok (RThis c) (put c (set_users 1 x) w) [EvCall i []]).
  { rewrite call_S. unfold dispatch, use. repeat mstep. rewrite Hu, Hm. cbn [Nat.eqb].
    assert (Hi : call (S (S fuel)) (CInitialise c) w = Ok RVoid w [EvCall i []]).
    { rewrite call_S. unfold dispatch, initialise. mstep. rewrite Hk. reflexivity. }
    destruct (_uuid x).
    all: rewrite (bind_Ok _ _ _ _ _ _ Hi); repeat mstep; rewrite Hu; reflexivity. }
  rewrite (bind_Ok _ _ _ _ _ _ Huse).
  assert (Hd : call (S (S (S fuel))) (CDrop c) (put c (set_users 1 x) w)
               = Ok RVoid w [EvCall f []]).
  { erewrite drop_last; [ | apply cells_put_eq | reflexivity ].
    change (cache_managed (set_users 1 x) _) with (cache_managed x w). rewrite Hm.
    rewrite call_S. unfold dispatch, finalise. repeat mstep.
    cbn [kind set_users]. rewrite Hk. unfold invoke. rewrite invoke_observe.
    rewrite put_put, set_users_twice, (set_users_same _ _ Hu), put_id by assumption.
    reflexivity. }
  rewrite (bind_Ok _ _ _ _ _ _ Hd). reflexivity.
Qed.


(** *** [done] *)

Lemma done_throws fuel w c x f :
  cells w !! c = Some x -> isDone x = IsDoneUndefined ->
  call (S fuel) (CDone c f) w =
  Thrown "Cannot call done() on Spook that has no implementation of isDone." w [].
Proof.
  intros Hc Hi. rewrite call_S. unfold dispatch, done. mstep. now rewrite Hi.
Qed.

(** The wrapper when the value is not final: nothing happens. *)
Lemma cleanup_miss fuel w c x slot f args :
  cells w !! c = Some x -> isDone x <> IsDoneUndefined ->
  done_test (isDone x) (nth 0 args VUndefined) = false ->
  call (S fuel) (CInvoke (CbDoneCleanup c slot f) args) w = Ok RVoid w [].
Proof.
  intros Hc Hi Ht. rewrite call_S. unfold dispatch, apply_callback, cleanupCallback.
  cbv zeta. mstep. destruct (isDone x); [reflexivity| |congruence].
  simpl in Ht. now rewrite Ht.
Qed.

Lemma tie_done_wrapper fuel w c x slot tag :
  cells w !! c = Some x -> settled x w -> isDone x <> IsDoneUndefined ->
  _ready x && done_test (isDone x) (_value x) = false ->
  call (S (S (S fuel))) (CTie c (CbDoneCleanup c slot (CbObserve tag))) w =
  Ok (RId (symbols w))
    (put c (set_subscribers
              (_subscribers x ++ [(symbols w, CbDoneCleanup c slot (CbObserve tag))])
              (set_users (S (_users x)) x))
       (set_symbols (S (symbols w)) w)) [].
Proof.
  intros Hc Hs Hi Hr. rewrite call_S. unfold dispatch, tie.
  rewrite (bind_Ok _ _ _ _ _ _ (use_settled fuel w c x Hc Hs)). repeat mstep.
  cbn [_ready _value set_users set_subscribers symbols put set_cells]. unfold invoke.
  rewrite put_symbols_put.
  destruct (_ready x) eqn:Hrd.
  - erewrite bind_Ok.
    2:{ eapply cleanup_miss; [apply cells_put_eq | exact Hi | exact Hr]. }
    repeat mstep. reflexivity.
  - repeat mstep. reflexivity.
Qed.

Lemma done_registers fuel w c x tag :
  cells w !! c = Some x -> settled x w -> isDone x <> IsDoneUndefined ->
  _ready x && done_test (isDone x) (_value x) = false ->
  call (4 + fuel) (CDone c (CbObserve tag)) w
  = Ok (RThis c) (done_registered c tag x w) [].
Proof.
  intros Hc Hs Hi Hr. change (4 + fuel) with (S (S (S (S fuel)))).
  rewrite call_S. unfold dispatch, done. mstep.
  assert (Hgo :
    (let* w1 := get_world in
     let idVar := length (idVars w1) in
     modify (fun w2 => set_idVars (idVars w2 ++ [None]) w2) >>
     (let* r := call (S (S (S fuel))) (CTie c (CbDoneCleanup c idVar (CbObserve tag))) in
      modify (fun w2 => set_idVars (<[idVar:=ret_id r]> (idVars w2)) w2) >>
      ret (RThis c))) w = Ok (RThis c) (done_registered c tag x w) []).
  { repeat mstep. cbv zeta. repeat mstep.
    erewrite bind_Ok.
    2:{ eapply tie_done_wrapper; [lookup_cell | exact Hs | exact Hi | exact Hr]. }
    repeat mstep. unfold ret. cbn [prefix app ret_id]. f_equal.
    unfold done_registered, done_wrapper, put, set_idVars, set_symbols, set_cells. cbn.
    f_equal. rewrite insert_app_r_alt by lia. now rewrite Nat.sub_diag. }
  destruct (isDone x); [exact Hgo | exact Hgo | congruence].
Qed.

Lemma accepts_inv x v :
  accepts x v = true -> v <> VUndefined /\ (_mayBeNull x = true \/ v <> VNull).
Proof.
  unfold accepts. intros [H1 H2]%andb_prop. split.
  - intros ->. discriminate.
  - destruct (_mayBeNull x); [now left|]. right. intros ->. discriminate.
Qed.

Lemma lookup_symbol_last subs id f :
  fresh_id id subs = true -> lookup_symbol (subs ++ [(id, f)]) (Some id) = Some f.
Proof.
  unfold lookup_symbol, fresh_id. induction subs as [|[i g] subs IH]; simpl.
  - now rewrite Nat.eqb_refl.
  - intros [H1 H2]%andb_prop. destruct (Nat.eqb i id); [discriminate|]. now apply IH.
Qed.

Lemma delete_symbol_last subs id f :
  fresh_id id subs = true -> delete_symbol (subs ++ [(id, f)]) (Some id) = subs.
Proof.
  unfold delete_symbol, fresh_id. induction subs as [|[i g] subs IH]; simpl.
  - now rewrite Nat.eqb_refl.
  - intros [H1 H2]%andb_prop. simpl in H1. rewrite H1. f_equal. now apply IH.
Qed.

Lemma untie_run fuel w c x subs id f n :
  cells w !! c = Some x -> _subscribers x = subs ++ [(id, f)] ->
  fresh_id id subs = true -> _users x = S (S n) ->
  call (S (S fuel)) (CUntie c (Some id)) w
  = Ok RVoid (put c (set_users (S n) (set_subscribers subs x)) w) [].
Proof.
  intros Hc Hs Hf Hu. rewrite call_S. unfold dispatch, untie. mstep.
  rewrite Hs, (lookup_symbol_last _ _ _ Hf). repeat mstep.
  rewrite Hs, (delete_symbol_last _ _ _ Hf).
  erewrite drop_more; [ | apply cells_put_eq | exact Hu ]. now rewrite put_put.
Qed.

Lemma cleanup_hit fuel w c x slot tag id v subs n :
  cells w !! c = Some x -> done_test (isDone x) v = true ->
  idVars w !! slot = Some (Some id) ->
  _subscribers x = subs ++ [(id, CbDoneCleanup c slot (CbObserve tag))] ->
  fresh_id id subs = true -> _users x = S (S n) ->
  call (S (S (S fuel))) (CInvoke (CbDoneCleanup c slot (CbObserve tag)) [v]) w
  = Ok RVoid (put c (set_users (S n) (set_subscribers subs x)) w) [EvCall tag [v]].
Proof.
  intros Hc Ht Hi Hs Hf Hu. rewrite call_S.
  unfold dispatch, apply_callback, cleanupCallback. cbv zeta. mstep. cbn [nth].
  destruct (isDone x) as [|p|]; try discriminate. simpl in Ht. rewrite Ht.
  unfold invoke. erewrite bind_Ok by apply invoke_observe. repeat mstep.
  rewrite Hi. cbn [mjoin option_join].
  erewrite untie_run by eassumption. reflexivity.
Qed.

Lemma forEach_subscribers_wrapper fuel c w x v l slot tag :
  cells w !! c = Some x -> _value x = v -> forallb observer l = true ->
  forEach (l ++ [CbDoneCleanup c slot (CbObserve tag)]) (fun callback =>
     let* this := get_cell c in invoke (call (S fuel)) callback [_value this]) w
  = prefix (calls [v] l)
      (bind (call (S fuel) (CInvoke (CbDoneCleanup c slot (CbObserve tag)) [v]))
         (fun _ => ret RVoid) w).
Proof.
  intros Hc Hv Hl. rewrite forEach_app.
  erewrite bind_Ok by (eapply forEach_subscribers; eassumption).
  cbn [forEach]. unfold invoke. repeat mstep. now rewrite Hv.
Qed.

(** A transition of a cell on which [done] waits. *)
Lemma trigger_awaited fuel w c x v slot tag id subs n :
  cells w !! c = Some x -> _triggering x = None -> accepts x v = true ->
  isDone x <> IsDoneUndefined -> idVars w !! slot = Some (Some id) ->
  _subscribers x = subs ++ [(id, CbDoneCleanup c slot (CbObserve tag))] ->
  fresh_id id subs = true -> _users x = S (S n) -> _thens x = [] ->
  forallb observer (symbolValues (_notifies x)) = true ->
  forallb observer (symbolValues subs) = true ->
  cache_managed x w = false ->
  call (4 + fuel) (CTrigger c v) w =
  if done_test (isDone x) v
  then Ok RVoid
         (put c (set_users (S n) (set_subscribers subs (set_value v (set_ready true x)))) w)
         (calls [] (symbolValues (_notifies x)) ++ calls [v] (symbolValues subs)
          ++ [EvCall tag [v]])
  else Ok RVoid (put c (set_value v (set_ready true x)) w)
         (calls [] (symbolValues (_notifies x)) ++ calls [v] (symbolValues subs)).
Proof.
  intros Hc Ht [Hv Hn]%accepts_inv Hi Hid Hs Hf Hu Hth Hpn Hps Hm.
  change (4 + fuel) with (S (S (S (S fuel)))).
  rewrite call_S. unfold dispatch, trigger.
  mstep. rewrite (is_undefined_false v Hv). cbv iota.
  rewrite (is_undefined_false v Hv). cbv iota.
  rewrite Ht. rewrite bool_decide_false by (intros [? ?]; discriminate).
  assert (negb (_mayBeNull x) && is_null v = false) as ->.
  { destruct Hn as [->| Hn]; [reflexivity|].
    rewrite (is_null_false v Hn). apply andb_false_r. }
  repeat mstep.
  cbn [_notifies set_value set_ready set_triggering].
  unfold invoke at 1.
  erewrite bind_Ok by (apply forEach_observers; assumption).
  repeat mstep.
  cbn [_subscribers set_value set_ready set_triggering]. rewrite Hs.
  unfold symbolValues at 2. rewrite map_app. cbn [map snd].
  fold (symbolValues subs). rewrite !put_put.
  set (x1 := set_value v (set_ready true (set_triggering (Some v) x))).
  assert (Hx1 : cells (put c x1 w) !! c = Some x1) by apply cells_put_eq.
  destruct (done_test (isDone x) v) eqn:Hd.
  - erewrite bind_Ok.
    2:{ erewrite forEach_subscribers_wrapper; [ | exact Hx1 | reflexivity | exact Hps ].
        erewrite bind_Ok;
          [ | eapply cleanup_hit;
              [ exact Hx1 | exact Hd | exact Hid | exact Hs | exact Hf | exact Hu ] ].
        reflexivity. }
    repeat mstep. cbn [_thens set_users set_subscribers x1 set_value set_ready set_triggering].
    rewrite Hth. cbn [forEach]. repeat mstep. rewrite !put_put.
    match goal with
    | |- context [cache_managed ?a (put c ?a w)] =>
        change (cache_managed a (put c a w)) with (cache_managed x w)
    end.
    rewrite Hm.
    match goal with
    | |- context [match ?o with Some _ => ret RVoid | None => ret RVoid end] =>
        replace (match o with Some _ => ret RVoid | None => ret RVoid end)
          with (@ret Ret RVoid) by (now destruct o)
    end.
    unfold ret. cbn [prefix]. rewrite !app_nil_r. subst x1. cbn [_value set_value].
    f_equal. f_equal. destruct x; simpl in *; subst; reflexivity.
  - erewrite bind_Ok.
    2:{ erewrite forEach_subscribers_wrapper; [ | exact Hx1 | reflexivity | exact Hps ].
        erewrite bind_Ok; [ | eapply cleanup_miss; [ exact Hx1 | exact Hi | exact Hd ] ].
        reflexivity. }
    repeat mstep. cbn [_thens x1 set_value set_ready set_triggering].
    rewrite Hth. cbn [forEach]. repeat mstep. rewrite !put_put.
    match goal with
    | |- context [cache_managed ?a (put c ?a w)] =>
        change (cache_managed a (put c a w)) with (cache_managed x w)
    end.
    rewrite Hm.
    match goal with
    | |- context [match ?o with Some _ => ret RVoid | None => ret RVoid end] =>
        replace (match o with Some _ => ret RVoid | None => ret RVoid end)
          with (@ret Ret RVoid) by (now destruct o)
    end.
    unfold ret. cbn [prefix]. rewrite !app_nil_r. subst x1. cbn [_value set_value].
    f_equal. f_equal. destruct x; simpl in *; subst; reflexivity.
Qed.

Lemma calls_of_app tag t1 t2 : calls_of tag (t1 ++ t2) = calls_of tag t1 ++ calls_of tag t2.
Proof. unfold calls_of. apply List.filter_app. Qed.

Lemma calls_of_calls tag args l : untagged tag l = true -> calls_of tag (calls args l) = [].
Proof.
  unfold untagged, calls_of, calls. induction l as [|cb l IH]; [reflexivity|].
  simpl. intros [H1 H2]%andb_prop. apply negb_true_iff in H1. rewrite H1. now apply IH.
Qed.

Lemma run_cons fuel k ks w :
  run fuel (k :: ks) w = bind (call fuel k) (fun _ => run fuel ks) w.
Proof. reflexivity. Qed.

Lemma trigger_unpublished fuel w c x v :
  cells w !! c = Some x -> _triggering x = None ->
  v <> VUndefined -> (_mayBeNull x = true \/ v <> VNull) ->
  observed x = true -> drains x w -> cache_managed x w = false ->
  call (S (S (S fuel))) (CTrigger c v) w =
  Ok RVoid (put c (triggered v x) w)
    (calls [] (symbolValues (_notifies x)) ++
     calls [v] (symbolValues (_subscribers x)) ++ calls [v] (_thens x)).
Proof.
  intros Hc Ht Hv Hn Ho Hd Hm.
  rewrite (trigger_passive fuel w c x v Hc Ht Hv Hn Ho Hd), Hm.
  cbn [prefix]. now rewrite app_nil_r.
Qed.

(** Once untied, the function is not called again. *)
Lemma released_quiet fuel c tag vs : forall w x,
  cells w !! c = Some x -> _triggering x = None -> observed x = true ->
  _thens x = [] -> cache_managed x w = false ->
  untagged tag (symbolValues (_notifies x) ++ symbolValues (_subscribers x)) = true ->
  forallb (accepts x) vs = true ->
  exists w' tr,
    run (4 + fuel) (map (CTrigger c) vs) w = Ok RVoid w' tr /\ calls_of tag tr = [].
Proof.
  induction vs as [|v vs IH]; intros w x Hc Ht Ho Hth Hm Hu Hvs.
  - exists w, []. split; reflexivity.
  - simpl in Hvs. apply andb_prop in Hvs as [Hv Hvs].
    destruct (accepts_inv _ _ Hv) as [Hv1 Hv2].
    assert (Hd : drains x w).
    { split; rewrite Hth; [simpl; lia | intros _ H; now elim H]. }
    cbn [map]. rewrite run_cons. change (4 + fuel) with (S (S (S (S fuel)))).
    rewrite (bind_Ok _ _ _ _ _ _
               (trigger_unpublished (S fuel) w c x v Hc Ht Hv1 Hv2 Ho Hd Hm)).
    rewrite Hth. cbn [calls map]. rewrite !app_nil_r.
    destruct (IH (put c (triggered v x) w) (triggered v x)) as (w' & tr & Hrun & Htr).
    + apply cells_put_eq.
    + exact Ht.
    + unfold observed in *. rewrite Hth in Ho. exact Ho.
    + reflexivity.
    + exact Hm.
    + exact Hu.
    + exact Hvs.
    + exists w', ((calls [] (symbolValues (_notifies x)) ++
                   calls [v] (symbolValues (_subscribers x))) ++ tr).
      change (S (S (S (S fuel)))) with (4 + fuel). rewrite Hrun. split; [reflexivity|].
      rewrite !calls_of_app, Htr.
      unfold untagged in Hu. rewrite forallb_app in Hu. apply andb_prop in Hu as [Hu1 Hu2].
      now rewrite !calls_of_calls.
Qed.

(** The function given to [done] is called once, with the first final
    value, over any sequence of transitions. *)
Lemma done_fires_once fuel c slot tag id subs vs : forall w x,
  awaiting c slot tag id subs w x ->
  untagged tag (symbolValues (_notifies x) ++ symbolValues subs) = true ->
  forallb (accepts x) vs = true ->
  exists w' tr,
    run (4 + fuel) (map (CTrigger c) vs) w = Ok RVoid w' tr /\
    calls_of tag tr =
    match List.find (done_test (isDone x)) vs with
    | Some v0 => [EvCall tag [v0]]
    | None => []
    end.
Proof.
  induction vs as [|v vs IH]; intros w x Ha Hu Hvs.
  - exists w, []. split; reflexivity.
  - destruct Ha as (Hc & Ht & Hi & Hid & Hs & Hf & Hn & Hth & Hpn & Hps & Hm).
    simpl in Hvs. apply andb_prop in Hvs as [Hv Hvs].
    destruct (_users x) as [|[|n]] eqn:Hux; [lia | lia |].
    cbn [map List.find]. rewrite run_cons.
    pose proof (trigger_awaited fuel w c x v slot tag id subs n
                  Hc Ht Hv Hi Hid Hs Hf Hux Hth Hpn Hps Hm) as Hstep.
    assert (Hu' := Hu). unfold untagged in Hu'. rewrite forallb_app in Hu'.
    apply andb_prop in Hu' as [Hu1 Hu2].
    destruct (done_test (isDone x) v) eqn:Hd; rewrite (bind_Ok _ _ _ _ _ _ Hstep).
    + set (x' := set_users (S n) (set_subscribers subs (set_value v (set_ready true x)))).
      destruct (released_quiet fuel c tag vs (put c x' w) x') as (w' & tr & Hrun & Htr).
      * apply cells_put_eq.
      * exact Ht.
      * unfold observed.
        cbn [x' _notifies _subscribers _thens set_users set_subscribers set_value set_ready].
        rewrite Hpn, Hps, Hth. reflexivity.
      * exact Hth.
      * exact Hm.
      * exact Hu.
      * exact Hvs.
      * exists w', ((calls [] (symbolValues (_notifies x)) ++
                      calls [v] (symbolValues subs) ++ [EvCall tag [v]]) ++ tr).
        cbn [prefix]. rewrite Hrun. split; [reflexivity|].
        rewrite !calls_of_app, Htr, !calls_of_calls by assumption.
        cbn. now rewrite Nat.eqb_refl.
    + set (x' := set_value v (set_ready true x)).
      destruct (IH (put c x' w) x') as (w' & tr & Hrun & Htr).
      * repeat split; try assumption; try apply cells_put_eq.
        cbn. rewrite Hux. lia.
      * exact Hu.
      * exact Hvs.
      * exists w', ((calls [] (symbolValues (_notifies x)) ++
                      calls [v] (symbolValues subs)) ++ tr).
        cbn [prefix]. rewrite Hrun. split; [reflexivity|].
        rewrite !calls_of_app, Htr, !calls_of_calls by assumption. reflexivity.
Qed.

Lemma registered_awaiting c tag x w :
  cells w !! c = Some x -> 0 < _users x -> isDone x <> IsDoneUndefined ->
  _triggering x = None -> _thens x = [] -> observed x = true ->
  cache_managed x w = false -> fresh_id (symbols w) (_subscribers x) = true ->
  awaiting c (length (idVars w)) tag (symbols w) (_subscribers x)
    (done_registered c tag x w)
    (set_subscribers (_subscribers x ++ [(symbols w, done_wrapper c w tag)])
       (set_users (S (_users x)) x)).
Proof.
  intros Hc Hu Hi Ht Hth (Hpn & Hps & _)%observed_inv Hm Hf.
  unfold awaiting, done_registered. repeat split; try assumption.
  - apply cells_put_eq.
  - cbn [idVars put set_cells set_idVars].
    rewrite lookup_app_r by lia. now rewrite Nat.sub_diag.
  - cbn [_users set_subscribers set_users]. lia.
Qed.

Lemma done_then_triggers fuel w c x tag vs :
  cells w !! c = Some x -> 0 < _users x -> isDone x <> IsDoneUndefined ->
  _ready x && done_test (isDone x) (_value x) = false ->
  _triggering x = None -> _thens x = [] -> observed x = true ->
  cache_managed x w = false -> fresh_id (symbols w) (_subscribers x) = true ->
  untagged tag (symbolValues (_notifies x) ++ symbolValues (_subscribers x)) = true ->
  forallb (accepts x) vs = true ->
  exists w' tr,
    run (4 + fuel) (CDone c (CbObserve tag) :: map (CTrigger c) vs) w = Ok RVoid w' tr /\
    calls_of tag tr =
    match List.find (done_test (isDone x)) vs with
    | Some v0 => [EvCall tag [v0]]
    | None => []
    end.
Proof.
  intros Hc Hu Hi Hr Ht Hth Ho Hm Hf Hun Hvs.
  rewrite run_cons.
  rewrite (bind_Ok _ _ _ _ _ _
             (done_registers fuel w c x tag Hc (or_introl Hu) Hi Hr)).
  destruct (done_fires_once fuel c (length (idVars w)) tag (symbols w) (_subscribers x) vs
              _ _ (registered_awaiting c tag x w Hc Hu Hi Ht Hth Ho Hm Hf) Hun Hvs)
    as (w' & tr & Hrun & Htr).
  exists w', tr. rewrite Hrun. split; [reflexivity | exact Htr].
Qed.

Lemma lookup_symbol_mid before after id f :
  fresh_id id before = true ->
  lookup_symbol (before ++ (id, f) :: after) (Some id) = Some f.
Proof.
  unfold lookup_symbol, fresh_id. induction before as [|[i g] before IH]; simpl.
  - now rewrite Nat.eqb_refl.
  - intros [H1 H2]%andb_prop. destruct (Nat.eqb i id); [discriminate|]. now apply IH.
Qed.

Lemma delete_symbol_fresh l id :
  fresh_id id l = true -> delete_symbol l (Some id) = l.
Proof.
  unfold delete_symbol, fresh_id. induction l as [|[i g] l IH]; simpl; [reflexivity|].
  intros [H1 H2]%andb_prop. simpl in H1. rewrite H1. f_equal. now apply IH.
Qed.

Lemma delete_symbol_mid before after id f :
  fresh_id id before = true -> fresh_id id after = true ->
  delete_symbol (before ++ (id, f) :: after) (Some id) = before ++ after.
Proof.
  intros Hb Ha. pose proof (delete_symbol_fresh _ _ Ha) as H2.
  unfold delete_symbol, fresh_id in *.
  induction before as [|[i g] before IH]; simpl.
  - rewrite Nat.eqb_refl. exact H2.
  - simpl in Hb. apply andb_prop in Hb as [H1 Hb]. rewrite H1. f_equal. now apply IH.
Qed.

Lemma put_comm c d x y w : c <> d -> put c x (put d y w) = put d y (put c x w).
Proof.
  intros H. unfold put, set_cells. simpl. f_equal. now apply insert_insert_ne.
Qed.

Lemma put_cover c d x y z w :
  c <> d -> put c x (put d y (put c z w)) = put c x (put d y w).
Proof.
  intros H. rewrite (put_comm d c) by done. now rewrite put_put.
Qed.

Lemma bind_get_latch {B} c x l (f : Latch -> M B) w :
  cells w !! c = Some x -> kind x = KLatch l -> bind (get_latch c) f w = f l w.
Proof.
  intros Hc Hk. unfold get_latch. rewrite bind_bind.
  rewrite (bind_get_cell _ _ _ _ Hc), Hk. apply bind_ret.
Qed.

Lemma unnotify_mid fuel w c x before after id f :
  cells w !! c = Some x -> _notifies x = before ++ (id, f) :: after ->
  fresh_id id before = true -> fresh_id id after = true ->
  0 < _users x -> inert x w ->
  call (S (S (S fuel))) (CUnnotify c (Some id)) w
  = Ok RVoid (put c (released (before ++ after) x) w) [].
Proof.
  intros Hc Hs Hb Ha Hu Hi. rewrite call_S. unfold dispatch, unnotify. mstep.
  rewrite Hs, (lookup_symbol_mid _ _ _ _ Hb). repeat mstep.
  rewrite Hs, (delete_symbol_mid _ _ _ _ Hb Ha).
  destruct (_users x) as [|[|n]] eqn:E; [lia| |].
  - erewrite drop_last_inert; [ | apply cells_put_eq | exact E | exact Hi ].
    rewrite put_put. unfold released. rewrite E. reflexivity.
  - erewrite drop_more; [ | apply cells_put_eq | exact E ].
    rewrite put_put. unfold released. rewrite E. reflexivity.
Qed.

Lemma accepts_test x v :
  accepts x v = true -> is_undefined v = false /\ negb (_mayBeNull x) && is_null v = false.
Proof.
  unfold accepts. intros [H1 H2]%andb_prop. apply negb_true_iff in H1. split; [exact H1|].
  destruct (_mayBeNull x); [reflexivity|]. simpl in *. now apply negb_true_iff in H2.
Qed.

(** The latch adopts [v]: a transition of its own unless it already shows an
    equivalent value. *)
Lemma latch_changed fuel w l xl v :
  cells w !! l = Some xl -> accepts xl v = true ->
  _triggering xl = None -> observed xl = true -> drains xl w ->
  cache_managed xl w = false ->
  call (4 + fuel) (CChanged l v) w =
  Ok RVoid (put l (if fires v xl then triggered v xl else xl) w) (fired v xl).
Proof.
  intros Hl Hv Ht Ho Hd Hm. destruct (accepts_inv _ _ Hv) as [Hv1 Hv2].
  unfold fired, fires. change (4 + fuel) with (S (S (S (S fuel)))).
  destruct (_ready xl) eqn:Hr; cbn [negb orb].
  - destruct (equivalent v (_value xl)) eqn:He; cbn [negb].
    + rewrite (changed_equal _ _ _ _ _ Hl Hv1 Hv2 Hr He), put_id by done. reflexivity.
    + rewrite (changed_differs _ _ _ _ _ Hl Hv1 Hv2) by now right.
      now apply trigger_unpublished.
  - rewrite (changed_differs _ _ _ _ _ Hl Hv1 Hv2) by now left.
    now apply trigger_unpublished.
Qed.

Lemma poll_latches fuel w a l id before after ya xl :
  a <> l -> cells w !! a = Some ya -> cells w !! l = Some xl ->
  kind xl = KLatch (mkLatch a (Some a) true (Some id)) ->
  _notifies ya = before ++ (id, CbLatchPoll l) :: after ->
  fresh_id id before = true -> fresh_id id after = true ->
  _ready ya = true -> accepts xl (_value ya) = true ->
  _triggering xl = None -> observed xl = true ->
  length (_thens xl) < _users xl -> cache_managed xl w = false ->
  0 < _users ya -> inert ya w ->
  call (6 + fuel) (CInvoke (CbLatchPoll l) []) w =
  Ok RVoid
    (put l (latched a id (_value ya) xl) (put a (released (before ++ after) ya) w))
    (fired (_value ya) xl).
Proof.
  intros Hal Ha Hl Hk Hn Hb Haf Hr Hv Ht Ho Hu Hm Hua Hi.
  change (6 + fuel) with (S (S (4 + fuel))).
  rewrite call_S. unfold dispatch, apply_callback, latch_poll.
  rewrite (bind_get_latch _ _ _ _ _ Hl Hk). cbn [_targetSpook targetSpook].
  repeat mstep. rewrite Hr. repeat mstep.
  change (S (4 + fuel)) with (4 + S fuel).
  erewrite bind_Ok.
  2:{ apply latch_changed; try eassumption.
      split; [lia | intros H; lia]. }
  set (y := if fires (_value ya) xl then triggered (_value ya) xl else xl).
  assert (Hky : kind y = kind xl) by (unfold y; now destruct (fires _ _)).
  erewrite bind_get_latch; [ | apply cells_put_eq | rewrite Hky; exact Hk ].
  cbn [_notifyId _targetSpook]. repeat mstep.
  change (4 + S fuel) with (S (S (S (S (S fuel))))).
  erewrite bind_Ok.
  2:{ eapply unnotify_mid; [lookup_cell | eassumption..| exact Hi ]. }
  unfold update_latch. repeat mstep.
  rewrite (put_comm a l) by done. rewrite !put_put.
  erewrite update_cell_run by apply cells_put_eq.
  fold (put l (set_latch (set__poll false) (set_latch (set__targetSpook None) y))
          (put l (set_latch (set__targetSpook None) y)
            (put a (released (before ++ after) ya) w))).
  rewrite put_put. cbn [prefix]. rewrite app_nil_r. do 2 f_equal.
  unfold latched, set_latch. fold y. cbn [kind set_kind]. rewrite Hky, Hk.
  cbn [set__targetSpook set__poll kind set_kind targetSpook _targetSpook _poll _notifyId].
  now destruct y.
Qed.

Lemma bind_forEach_app {A B} (l1 l2 : list A) (f : A -> M Ret) (k : Ret -> M B) w :
  bind (forEach (l1 ++ l2) f) k w
  = bind (forEach l1 f) (fun _ => bind (forEach l2 f) k) w.
Proof.
  rewrite <- bind_bind. unfold bind at 1 3. now rewrite forEach_app.
Qed.

Lemma trigger_latches fuel w a l id before after xa xl v :
  attached a l id before after xa xl w ->
  accepts xa v = true -> accepts xl v = true ->
  call (9 + fuel) (CTrigger a v) w =
  Ok RVoid
    (put a (triggered v (released (before ++ after) xa)) (put l (latched a id v xl) w))
    (calls [] (symbolValues before) ++ fired v xl ++ calls [] (symbolValues after) ++
     calls [v] (symbolValues (_subscribers xa)) ++ calls [v] (_thens xa)).
Proof.
  intros (Hal & Ha & Hl & Hk & Hn & Hb & Haf & Hobs & Hsubs & Hthens & Hta & Hua & Hi
          & Htl & Hol & Hul & Hml) Hva Hvl.
  destruct (accepts_test _ _ Hva) as [Hv1 Hv2].
  change (9 + fuel) with (S (S (S (S (S (S (S (S (S fuel))))))))).
  rewrite call_S. unfold dispatch, trigger.
  mstep. rewrite Hv1. cbv iota. rewrite Hv1. cbv iota.
  rewrite Hta. rewrite bool_decide_false by (intros [? ?]; discriminate).
  rewrite Hv2. repeat mstep.
  cbn [_notifies set_value set_ready set_triggering].
  rewrite Hn. unfold symbolValues at 1. rewrite map_app. cbn [map snd].
  rewrite bind_forEach_app. unfold invoke.
  unfold symbolValues in Hobs. rewrite map_app, forallb_app in Hobs.
  apply andb_prop in Hobs as [Hob Hoa].
  erewrite bind_Ok by (apply forEach_observers; exact Hob).
  cbn [forEach]. repeat mstep. rewrite !put_put.
  set (ya := set_value v (set_ready true (set_triggering (Some v) xa))).
  assert (Hpoll := poll_latches (2 + fuel) (put a ya w) a l id before after ya xl
            Hal (cells_put_eq _ _ _)).
  rewrite cells_put_ne in Hpoll by done.
  specialize (Hpoll Hl Hk Hn Hb Haf eq_refl Hvl Htl Hol Hul Hml).
  rewrite (bind_Ok _ _ _ _ _ _ (Hpoll ltac:(cbn; lia) Hi)). clear Hpoll.
  rewrite put_put. cbn [_value ya set_value].
  repeat mstep.
  erewrite bind_Ok by (apply forEach_observers; exact Hoa).
  repeat mstep.
  cbn [_subscribers released set_users set_notifies set_value set_ready set_triggering].
  erewrite bind_Ok
    by (eapply (forEach_subscribers _); [lookup_cell | assumption]).
  repeat mstep.
  erewrite bind_Ok.
  2:{ eapply (drain_thens (6 + fuel)); [lookup_cell | exact Hthens | cbn; lia | ].
      intros _ _. exact Hi. }
  repeat mstep. rewrite !put_put, !put_cover by done.
  destruct Hi as [Hkind Hm].
  assert (Hm' : forall y w', _uuid y = _uuid xa -> _noCache y = _noCache xa ->
                  cache w' = cache w -> cache_managed y w' = false).
  { intros y w' E1 E2 E3. unfold cache_managed in *. now rewrite E1, E2, E3. }
  rewrite Hm' by reflexivity.
  match goal with |- context [match ?u with Some _ => ret RVoid | None => ret RVoid end] =>
    replace (match u with Some _ => ret RVoid | None => ret RVoid end) with (@ret Ret RVoid)
      by now destruct u end.
  unfold ret. cbn [prefix]. rewrite app_nil_r. f_equal.
  - f_equal. unfold triggered, released, ya. destruct xa; cbn in *. subst. reflexivity.
  - unfold symbolValues. cbn. rewrite <- !app_assoc. reflexivity.
Qed.

Lemma revalued_refl x : revalued x x.
Proof. exists (_ready x), (_value x). now destruct x. Qed.

Lemma revalued_trans x y z : revalued x y -> revalued y z -> revalued x z.
Proof. intros (r & v & ->) (r' & v' & ->). exists r', v'. now destruct x. Qed.

Lemma revalued_at_rest x y w : revalued x y -> at_rest x w -> at_rest y w.
Proof. intros (r & v & ->) H. exact H. Qed.

Lemma only_calls_nil x : only_calls x [].
Proof. intros tag _. reflexivity. Qed.

Lemma only_calls_app x t1 t2 : only_calls x t1 -> only_calls x t2 -> only_calls x (t1 ++ t2).
Proof. intros H1 H2 tag Hu. now rewrite calls_of_app, H1, H2. Qed.

Lemma only_calls_console x level msg : only_calls x [EvConsole level msg].
Proof. intros tag _. reflexivity. Qed.

Lemma only_calls_notifies x args : only_calls x (calls args (symbolValues (_notifies x))).
Proof.
  intros tag Hu. unfold untagged in Hu. rewrite forallb_app in Hu.
  apply andb_prop in Hu as [Hu _]. now apply calls_of_calls.
Qed.

Lemma only_calls_subscribers x args :
  only_calls x (calls args (symbolValues (_subscribers x))).
Proof.
  intros tag Hu. unfold untagged in Hu. rewrite forallb_app in Hu.
  apply andb_prop in Hu as [_ Hu]. now apply calls_of_calls.
Qed.

Lemma only_calls_revalued x y tr : revalued x y -> only_calls y tr -> only_calls x tr.
Proof. intros (r & v & ->) H. exact H. Qed.

Lemma trigger_busy fuel w c x b v :
  cells w !! c = Some x -> _triggering x = Some b -> is_undefined v = false ->
  call (S fuel) (CTrigger c v) w
  = Ok RVoid w [EvConsole LError "Trigger cannot be called while already triggering."].
Proof.
  intros Hc Ht Hv. rewrite call_S. unfold dispatch, trigger. mstep.
  rewrite Hv. cbv iota. rewrite Hv. cbv iota.
  rewrite Ht, bool_decide_true by eauto. reflexivity.
Qed.

(** [reset] reached from within a transition of the same cell. *)
Lemma reset_inside fuel w c y b :
  cells w !! c = Some y -> _triggering y = Some b ->
  forallb observer (symbolValues (_notifies y)) = true ->
  exists y' tr,
    call (3 + fuel) (CReset c) w = Ok RVoid (put c y' w) tr /\
    revalued y y' /\ only_calls y tr.
Proof.
  intros Hc Ht Ho. change (3 + fuel) with (S (S (S fuel))).
  rewrite call_S. unfold dispatch, reset. mstep.
  destruct (is_undefined (_defaultTo y)) eqn:Hd; cbn [negb].
  - destruct (_ready y) eqn:Hr.
    + repeat mstep. cbn [_notifies set_value set_ready]. unfold invoke.
      rewrite (forEach_observers (S fuel) _ _ _ Ho).
      eexists _, _. split; [reflexivity|]. split.
      * now exists false, VNull.
      * apply only_calls_notifies.
    + exists y, []. rewrite put_id by done. split; [reflexivity|].
      split; [apply revalued_refl | apply only_calls_nil].
  - erewrite bind_Ok by (eapply trigger_busy; eassumption).
    unfold ret. cbn [prefix].
    eexists y, _. rewrite put_id by done. split; [reflexivity|].
    split; [apply revalued_refl | apply only_calls_console].
Qed.

(** The default parameter of [trigger]. *)
Lemma trigger_default fuel w c x arg :
  cells w !! c = Some x -> is_undefined arg = true ->
  call (S fuel) (CTrigger c arg) w = call (S fuel) (CTrigger c (_value x)) w.
Proof.
  intros Hc Hu. rewrite !call_S. unfold dispatch, trigger.
  rewrite !(bind_get_cell _ _ _ _ Hc). rewrite Hu. cbv zeta iota.
  replace (if is_undefined (_value x) then _value x else _value x) with (_value x)
    by now destruct (is_undefined (_value x)).
  reflexivity.
Qed.

Lemma triggered_at_rest v x : _thens x = [] -> triggered v x = set_value v (set_ready true x).
Proof.
  intros H. unfold triggered. rewrite H. cbn [length]. rewrite Nat.sub_0_r.
  destruct x; cbn in *. now subst.
Qed.

Lemma trigger_given fuel w c x v :
  cells w !! c = Some x -> at_rest x w -> is_undefined v = false ->
  exists x' tr,
    call (4 + fuel) (CTrigger c v) w = Ok RVoid (put c x' w) tr /\
    revalued x x' /\ only_calls x tr.
Proof.
  intros Hc (Ht & Ho & Hth & Hm) Hv.
  destruct (negb (_mayBeNull x) && is_null v) eqn:Hn.
  - change (4 + fuel) with (S (3 + fuel)).
    rewrite call_S. unfold dispatch, trigger. mstep.
    rewrite Hv. cbv iota. rewrite Hv. cbv iota.
    rewrite Ht, bool_decide_false by (intros [? ?]; discriminate).
    rewrite Hn. repeat mstep.
    destruct (reset_inside fuel (put c (set_triggering (Some v) x) w) c
                (set_triggering (Some v) x) v (cells_put_eq _ _ _) eq_refl)
      as (y' & tr & Hrun & (r & u & ->) & Htr).
    { now apply observed_inv in Ho as (H1 & _). }
    rewrite (bind_Ok _ _ _ _ _ _ Hrun). rewrite put_put. repeat mstep.
    rewrite put_put.
    exists (set_value u (set_ready r x)), tr. split; [|split].
    + cbn [_uuid set_value set_ready set_triggering].
      assert (E : set_triggering None (set_value u (set_ready r (set_triggering (Some v) x)))
                  = set_value u (set_ready r x)).
      { destruct x; cbn in *. now subst. }
      rewrite E.
      change (cache_managed (set_value u (set_ready r x))
                (put c (set_value u (set_ready r x)) w)) with (cache_managed x w).
      rewrite Hm. destruct (_uuid x); unfold ret; cbn [prefix]; now rewrite app_nil_r.
    + now exists r, u.
    + exact Htr.
  - assert (Hv1 : v <> VUndefined) by (intros ->; discriminate).
    assert (Hv2 : _mayBeNull x = true \/ v <> VNull).
    { destruct (_mayBeNull x); [now left|]. right. intros ->. discriminate. }
    assert (Hd : drains x w).
    { split; rewrite Hth; [simpl; lia | intros _ H; now elim H]. }
    change (4 + fuel) with (S (S (S (S fuel)))).
    rewrite (trigger_unpublished (S fuel) w c x v Hc Ht Hv1 Hv2 Ho Hd Hm).
    eexists _, _. split; [reflexivity|]. split.
    + rewrite triggered_at_rest by done. now exists true, v.
    + rewrite Hth. cbn [calls map]. rewrite app_nil_r.
      apply only_calls_app; [apply only_calls_notifies | apply only_calls_subscribers].
Qed.

Lemma trigger_local fuel w c x arg :
  cells w !! c = Some x -> at_rest x w ->
  exists x' tr,
    call (4 + fuel) (CTrigger c arg) w = Ok RVoid (put c x' w) tr /\
    revalued x x' /\ only_calls x tr.
Proof.
  intros Hc Hr.
  assert (Hvoid : is_undefined (_value x) = true ->
            exists x' tr,
              call (4 + fuel) (CTrigger c (_value x)) w = Ok RVoid (put c x' w) tr /\
              revalued x x' /\ only_calls x tr).
  { intros Hv. exists x, [EvConsole LError "Trigger called with undefined value"].
    rewrite put_id by done. split; [|split].
    - change (4 + fuel) with (S (3 + fuel)).
      rewrite call_S. unfold dispatch, trigger. mstep.
      cbv zeta. rewrite Hv. cbv iota. rewrite Hv. reflexivity.
    - apply revalued_refl.
    - apply only_calls_console. }
  destruct (is_undefined arg) eqn:Ha; [|now apply trigger_given].
  change (4 + fuel) with (S (3 + fuel)).
  rewrite (trigger_default _ _ _ _ _ Hc Ha).
  destruct (is_undefined (_value x)) eqn:Hx; [now apply Hvoid | now apply trigger_given].
Qed.

Lemma reset_local fuel w c x :
  cells w !! c = Some x -> at_rest x w ->
  exists x' tr,
    call (5 + fuel) (CReset c) w = Ok RVoid (put c x' w) tr /\
    revalued x x' /\ only_calls x tr.
Proof.
  intros Hc Hr. change (5 + fuel) with (S (4 + fuel)).
  rewrite call_S. unfold dispatch, reset. mstep.
  destruct (is_undefined (_defaultTo x)) eqn:Hd; cbn [negb].
  - destruct (_ready x) eqn:Hy.
    + destruct Hr as (_ & (Ho & _)%observed_inv & _).
      repeat mstep. cbn [_notifies set_value set_ready]. unfold invoke.
      change (4 + fuel) with (S (3 + fuel)).
      rewrite (forEach_observers _ _ _ _ Ho).
      eexists _, _. split; [reflexivity|]. split.
      * now exists false, VNull.
      * apply only_calls_notifies.
    + exists x, []. rewrite put_id by done. split; [reflexivity|].
      split; [apply revalued_refl | apply only_calls_nil].
  - destruct (trigger_local fuel w c x (_defaultTo x) Hc Hr) as (x' & tr & Hrun & H1 & H2).
    rewrite (bind_Ok _ _ _ _ _ _ Hrun). unfold ret. cbn [prefix]. rewrite app_nil_r.
    eauto.
Qed.

Lemma changed_local fuel w c x v :
  cells w !! c = Some x -> at_rest x w ->
  exists x' tr,
    call (6 + fuel) (CChanged c v) w = Ok RVoid (put c x' w) tr /\
    revalued x x' /\ only_calls x tr.
Proof.
  intros Hc Hr. change (6 + fuel) with (S (5 + fuel)).
  rewrite call_S. unfold dispatch, changed.
  destruct (is_undefined v).
  { exists x, []. rewrite put_id by done. split; [reflexivity|].
    split; [apply revalued_refl | apply only_calls_nil]. }
  mstep. destruct (negb (_mayBeNull x) && is_null v).
  { now apply reset_local. }
  destruct (negb (_ready x) || negb (equivalent v (_value x))).
  - change (5 + fuel) with (4 + S fuel). now apply trigger_local.
  - exists x, []. rewrite put_id by done. split; [reflexivity|].
    split; [apply revalued_refl | apply only_calls_nil].
Qed.

(** A change of a cell at rest changes that cell only, by its readiness
    and value, and calls its own observers only. *)
Lemma change_local fuel w c x ch :
  cells w !! c = Some x -> at_rest x w ->
  exists x' tr,
    call (6 + fuel) (change c ch) w = Ok RVoid (put c x' w) tr /\
    revalued x x' /\ only_calls x tr.
Proof.
  intros Hc Hr. destruct ch as [v|v|]; cbn [change].
  - change (6 + fuel) with (4 + (2 + fuel)). now apply trigger_local.
  - now apply changed_local.
  - change (6 + fuel) with (5 + S fuel). now apply reset_local.
Qed.

Lemma changes_local fuel c chs : forall w x,
  cells w !! c = Some x -> at_rest x w ->
  exists x' tr,
    run (6 + fuel) (map (change c) chs) w = Ok RVoid (put c x' w) tr /\
    revalued x x' /\ only_calls x tr.
Proof.
  induction chs as [|ch chs IH]; intros w x Hc Hr.
  - exists x, []. rewrite put_id by done. split; [reflexivity|].
    split; [apply revalued_refl | apply only_calls_nil].
  - destruct (change_local fuel w c x ch Hc Hr) as (x1 & t1 & Hrun1 & Hx1 & Ht1).
    destruct (IH (put c x1 w) x1 (cells_put_eq _ _ _)) as (x2 & t2 & Hrun2 & Hx2 & Ht2).
    { eapply revalued_at_rest; eassumption. }
    exists x2, (t1 ++ t2). cbn [map]. rewrite run_cons.
    rewrite (bind_Ok _ _ _ _ _ _ Hrun1), Hrun2, put_put. split; [reflexivity|].
    split; [eapply revalued_trans; eassumption|].
    apply only_calls_app; [exact Ht1 | eapply only_calls_revalued; eassumption].
Qed.

Lemma latch_use fuel w a l xa xl n0 :
  a <> l -> cells w !! a = Some xa -> cells w !! l = Some xl ->
  kind xl = KLatch (mkLatch a (Some a) true n0) ->
  _users xl = 0 -> cache_managed xl w = false ->
  _ready xa = false -> settled xa w ->
  call (5 + fuel) (CUse l) w =
  Ok (RThis l)
     (put l (waiting a (symbols w) xl)
        (put a (polled l (symbols w) xa) (set_symbols (S (symbols w)) w))) [].
Proof.
  intros Hal Ha Hl Hk Hu Hm Hr Hs.
  change (5 + fuel) with (S (S (S (S (S fuel))))).
  rewrite call_S. unfold dispatch, use. repeat mstep.
  rewrite Hu. cbn [Nat.eqb]. rewrite Hm.
  assert (Hinit : call (S (S (S (S fuel)))) (CInitialise l) w =
                  Ok RVoid
                    (put l (set_kind (KLatch (mkLatch a (Some a) true (Some (symbols w)))) xl)
                       (put a (polled l (symbols w) xa) (set_symbols (S (symbols w)) w))) []).
  { rewrite call_S. unfold dispatch, initialise. mstep. rewrite Hk.
    unfold latch_initialise. rewrite (bind_get_latch _ _ _ _ _ Hl Hk).
    cbn [_poll _targetSpook].
    rewrite call_S. unfold dispatch, notify. repeat mstep.
    erewrite bind_Ok by (apply use_settled; eassumption).
    repeat mstep. rewrite put_symbols_put.
    change (symbols (put a (set_users (S (_users xa)) xa) w)) with (symbols w).
    cbn [_ready _notifies set_notifies set_users]. rewrite Hr. repeat mstep.
    fold (polled l (symbols w) xa).
    erewrite bind_get_latch; [ | lookup_cell | exact Hk ].
    cbn [_poll]. unfold update_latch. repeat mstep.
    unfold latch_poll.
    erewrite bind_get_latch; [ | lookup_cell | ].
    2:{ unfold set_latch. rewrite Hk. reflexivity. }
    cbn [_targetSpook set__notifyId]. repeat mstep.
    change (_ready (polled l (symbols w) xa)) with (_ready xa). rewrite Hr.
    unfold ret. cbn [prefix ret_id]. do 2 f_equal.
    unfold set_latch. rewrite Hk. reflexivity. }
  destruct (_uuid xl).
  all: rewrite (bind_Ok _ _ _ _ _ _ Hinit); repeat mstep; rewrite put_put.
  all: unfold ret; cbn [prefix]; do 2 f_equal.
  all: unfold waiting; cbn [_users set_kind]; rewrite Hu; now destruct xl.
Qed.

Lemma latch_tie fuel w a l xa xl n0 tag :
  a <> l -> cells w !! a = Some xa -> cells w !! l = Some xl ->
  kind xl = KLatch (mkLatch a (Some a) true n0) ->
  _users xl = 0 -> cache_managed xl w = false ->
  _ready xa = false -> settled xa w ->
  call (6 + fuel) (CTie l (CbObserve tag)) w =
  Ok (RId (S (symbols w)))
     (put l (tied a (symbols w) (CbObserve tag) xl)
        (put a (polled l (symbols w) xa) (set_symbols (S (S (symbols w))) w)))
     (if _ready xl then [EvCall tag [_value xl; VSymbol (S (symbols w))]] else []).
Proof.
  intros Hal Ha Hl Hk Hu Hm Hr Hs.
  change (6 + fuel) with (S (5 + fuel)).
  rewrite call_S. unfold dispatch, tie.
  erewrite bind_Ok by (eapply latch_use; eassumption).
  repeat mstep.
  change (symbols (put l (waiting a (symbols w) xl)
            (put a (polled l (symbols w) xa) (set_symbols (S (symbols w)) w))))
    with (S (symbols w)).
  change (_subscribers (waiting a (symbols w) xl)) with (_subscribers xl).
  change (set_subscribers (_subscribers xl ++ [(S (symbols w), CbObserve tag)])
            (waiting a (symbols w) xl)) with (tied a (symbols w) (CbObserve tag) xl).
  change (_ready (tied a (symbols w) (CbObserve tag) xl)) with (_ready xl).
  change (_value (tied a (symbols w) (CbObserve tag) xl)) with (_value xl).
  assert (Hw : put l (tied a (symbols w) (CbObserve tag) xl)
                 (set_symbols (S (S (symbols w)))
                    (put l (waiting a (symbols w) xl)
                       (put a (polled l (symbols w) xa) (set_symbols (S (symbols w)) w))))
               = put l (tied a (symbols w) (CbObserve tag) xl)
                   (put a (polled l (symbols w) xa) (set_symbols (S (S (symbols w))) w))).
  { rewrite put_symbols_put. reflexivity. }
  rewrite Hw. unfold invoke.
  destruct (_ready xl).
  - change (5 + fuel) with (S (4 + fuel)).
    erewrite bind_Ok by apply invoke_observe. reflexivity.
  - reflexivity.
Qed.

Lemma equivalent_refl v : equivalent v v = true.
Proof. unfold equivalent. now apply bool_decide_eq_true. Qed.

Lemma untagged_app tag l1 l2 :
  untagged tag (l1 ++ l2) = untagged tag l1 && untagged tag l2.
Proof. unfold untagged. apply forallb_app. Qed.

Lemma new_LatchSpook_unused a m d mb : unused_latch a d (new_LatchSpook a m d mb None).
Proof.
  unfold unused_latch, new_LatchSpook.
  destruct (is_undefined d); repeat split; try reflexivity; discriminate.
Qed.

Lemma promise_empty fuel w :
  call (S fuel) (CPromise []) w =
  Ok (RPromise (length (bridges w)))
     (set_bridges (bridges w ++ [mkBridge 0 [] Pending]) w) [].
Proof. reflexivity. Qed.

Lemma alter_last {A} (f : A -> A) (bs : list A) (b : A) :
  alter f (length bs) (bs ++ [b]) = bs ++ [f b].
Proof. induction bs as [|a bs IH]; [reflexivity|]. cbn. f_equal. exact IH. Qed.

Lemma lookup_last {A} (bs : list A) (b : A) : (bs ++ [b]) !! length bs = Some b.
Proof. induction bs as [|a bs IH]; [reflexivity|]. exact IH. Qed.

Lemma bind_get_bridge {B} p b (f : Bridge -> M B) w :
  bridges w !! p = Some b -> bind (get_bridge p) f w = f b w.
Proof. intros H. unfold bind, get_bridge. rewrite H. apply prefix_nil. Qed.

Lemma promise_done_plain (call0 : Call -> M Ret) rest : forall k seen bs w,
  k = length seen ->
  bridges w = bs ++ [mkBridge k (seen ++ replicate (length rest) VUndefined) Pending] ->
  forEach (plain_entries k rest) (fun entry =>
     match snd entry with
     | ISpook c => call0 (CThen c (CbPromiseDone (length bs) (fst entry)))
     | IPromise f =>
         future_then f (CbPromiseDone (length bs) (fst entry)) (CbPromiseReject (length bs))
     | IValue v => promise_done (length bs) (fst entry) v
     end) w =
  Ok RVoid
    (set_bridges
       (bs ++ [mkBridge (k + length rest) (seen ++ rest)
                 (match rest with [] => Pending | _ => Fulfilled end)]) w) [].
Proof.
  induction rest as [|v rest IH]; intros k seen bs w Hk Hb.
  - cbn. rewrite Nat.add_0_r, app_nil_r in *. rewrite <- Hb. now destruct w.
  - unfold plain_entries. cbn [map]. rewrite imap_cons. cbn [forEach snd fst].
    unfold promise_done at 1, update_bridge. repeat mstep.
    rewrite Hb, alter_last. cbn [finished resolved pstate].
    erewrite bind_get_bridge by (cbn [bridges set_bridges]; apply lookup_last).
    cbn [finished resolved].
    assert (Hins : <[k + 0 := v]> (seen ++ replicate (length (v :: rest)) VUndefined)
                   = (seen ++ [v]) ++ replicate (length rest) VUndefined).
    { rewrite Nat.add_0_r, Hk. cbn [length replicate].
      rewrite insert_app_r_alt by lia. rewrite Nat.sub_diag. cbn.
      now rewrite <- app_assoc. }
    rewrite Hins.
    rewrite !length_app, length_replicate. cbn [length].
    assert (Hshift : imap ((fun index item => (k + index, item)) ∘ S) (map IValue rest)
                     = plain_entries (S k) rest).
    { unfold plain_entries. apply imap_ext. intros i x _. cbn. f_equal. lia. }
    rewrite Hshift.
    destruct rest as [|v' rest].
    + assert (He : Nat.eqb (S k) (length seen + 1 + length (@nil Value)) = true).
      { apply Nat.eqb_eq. cbn [length]. lia. }
      rewrite He.
      unfold settle, update_bridge. repeat mstep. cbn [bridges set_bridges].
      rewrite alter_last. cbn [pstate finished resolved plain_entries map imap forEach].
      unfold ret. cbn [replicate]. rewrite app_nil_r.
      cbn [length]. replace (k + 1) with (S k) by lia. now destruct w.
    + assert (Hne : Nat.eqb (S k) (length seen + 1 + length (v' :: rest)) = false).
      { apply Nat.eqb_neq. cbn [length]. lia. }
      rewrite Hne. repeat mstep.
      rewrite (IH (S k) (seen ++ [v]) bs).
      * unfold set_bridges. cbn. rewrite <- app_assoc. cbn. replace (S (k + S (length rest))) with (k + S (S (length rest))) by lia. reflexivity.
      * rewrite length_app. cbn [length]. lia.
      * reflexivity.
Qed.

Lemma promise_plain fuel w v vs :
  call (S fuel) (CPromise (map IValue (v :: vs))) w =
  Ok (RPromise (length (bridges w)))
     (set_bridges (bridges w ++ [mkBridge (S (length vs)) (v :: vs) Fulfilled]) w) [].
Proof.
  rewrite call_S. unfold dispatch, promise. repeat mstep.
  unfold try_catch.
  pose proof (promise_done_plain (call fuel) (v :: vs) 0 [] (bridges w)
    (set_bridges (bridges w ++
       [mkBridge 0 (replicate (length (v :: vs)) VUndefined) Pending]) w)
    eq_refl eq_refl) as H.
  unfold plain_entries in H. cbn [Nat.add app] in H.
  rewrite length_map.
  unfold bind at 1. rewrite H. reflexivity.
Qed.

(** A latch put to use before its input is ready: what it shows, the
    adoption at the input's first transition, and what follows. *)
Lemma latch_in_use_adopts fuel w a l xa d mb tag v chs :
  let xl := new_LatchSpook a (_mayBeNull xa) d mb None in
  a <> l -> cells w !! a = Some xa -> cells w !! l = Some xl ->
  _ready xa = false -> _triggering xa = None -> observed xa = true -> inert xa w ->
  length (_thens xa) <= _users xa -> fresh_id (symbols w) (_notifies xa) = true ->
  accepts xa v = true -> accepts xl v = true ->
  untagged tag (symbolValues (_notifies xa) ++ symbolValues (_subscribers xa)) = true ->
  exists w1 w2 xl2 xa2,
    call (6 + fuel) (CTie l (CbObserve tag)) w
    = Ok (RId (S (symbols w))) w1
         (if is_undefined d then [] else [EvCall tag [d; VSymbol (S (symbols w))]]) /\
    call (9 + fuel) (CTrigger a v) w1
    = Ok RVoid w2
         (calls [] (symbolValues (_notifies xa)) ++
          (if fires v xl then [EvCall tag [v]] else []) ++
          calls [v] (symbolValues (_subscribers xa)) ++ calls [v] (_thens xa)) /\
    cells w2 !! l = Some xl2 /\ _ready xl2 = true /\
    _value xl2 = (if fires v xl then v else d) /\ equivalent v (_value xl2) = true /\
    kind xl2 = KLatch (mkLatch a None false (Some (symbols w))) /\
    cells w2 !! a = Some xa2 /\ _notifies xa2 = _notifies xa /\
    exists w3 tr,
      run (6 + fuel) (map (change a) chs) w2 = Ok RVoid w3 tr /\
      cells w3 !! l = Some xl2 /\ calls_of tag tr = [].
Proof.
  intros xl Hal Ha Hl Hr Hta Hoa Hi Hle Hfresh Hva Hvl Htag.
  pose proof (observed_inv _ Hoa) as (Hon & Hos & Hot).
  destruct (new_LatchSpook_unused a (_mayBeNull xa) d mb)
    as (Hkl & Hul & Hidl & Htl & E1 & E2 & E3 & Hrl & Hvld).
  fold xl in Hkl, Hul, Hidl, Htl, E1, E2, E3, Hrl, Hvld.
  assert (Hml : cache_managed xl w = false) by (unfold cache_managed; now rewrite Hidl).
  pose proof (latch_tie fuel w a l xa xl None tag Hal Ha Hl Hkl Hul Hml Hr
                (or_intror Hi)) as Htie.
  set (id := symbols w) in *.
  set (w1 := put l (tied a id (CbObserve tag) xl)
               (put a (polled l id xa) (set_symbols (S (S id)) w))) in *.
  assert (Hatt : attached a l id (_notifies xa) [] (polled l id xa)
                   (tied a id (CbObserve tag) xl) w1).
  { unfold attached, w1. repeat split; try reflexivity; try assumption.
    - lookup_cell.
    - lookup_cell.
    - rewrite app_nil_r. exact Hon.
    - cbn. lia.
    - apply Hi.
    - apply Hi.
    - unfold observed, tied, waiting.
      cbn [_notifies _subscribers _thens set_subscribers set_users set_kind].
      rewrite E1, E2, E3. reflexivity.
    - unfold tied, waiting.
      cbn [_thens _users set_subscribers set_users set_kind]. rewrite E3. cbn. lia. }
  pose proof (trigger_latches fuel w1 a l id _ _ _ _ v Hatt Hva Hvl) as Htrig.
  rewrite app_nil_r in Htrig.
  set (xl2 := latched a id v (tied a id (CbObserve tag) xl)) in *.
  set (xa2 := triggered v (released (_notifies xa) (polled l id xa))) in *.
  set (w2 := put a xa2 (put l xl2 w1)) in *.
  assert (Hfires : fires v (tied a id (CbObserve tag) xl) = fires v xl) by reflexivity.
  exists w1, w2, xl2, xa2.
  split; [|split; [|split; [|split; [|split; [|split; [|split; [|split; [|split]]]]]]]].
  - rewrite Htie, Hrl. destruct (is_undefined d) eqn:Hd; [reflexivity|].
    cbn [negb]. now rewrite (Hvld eq_refl).
  - rewrite Htrig. f_equal. f_equal. unfold fired. rewrite Hfires.
    destruct (fires v xl); [|reflexivity].
    cbn [tied waiting _notifies _subscribers _thens set_subscribers set_users set_kind].
    rewrite E1, E2, E3. reflexivity.
  - unfold w2. lookup_cell.
  - unfold xl2, latched. rewrite Hfires. unfold fires.
    destruct (_ready xl) eqn:E; cbn [negb orb]; [|reflexivity].
    now destruct (negb (equivalent v (_value xl))).
  - unfold xl2, latched. rewrite Hfires.
    destruct (fires v xl) eqn:E; [reflexivity|].
    unfold fires in E. apply orb_false_elim in E as [E _].
    apply negb_false_iff in E. rewrite Hrl in E. apply negb_true_iff in E.
    change (_value (set_kind (KLatch (mkLatch a None false (Some id)))
                      (tied a id (CbObserve tag) xl))) with (_value xl).
    exact (Hvld E).
  - unfold xl2, latched. rewrite Hfires.
    destruct (fires v xl) eqn:E; [apply equivalent_refl|].
    unfold fires in E. apply orb_false_elim in E as [_ E].
    now apply negb_false_iff in E.
  - unfold xl2, latched. now destruct (fires _ _).
  - unfold w2. apply cells_put_eq.
  - reflexivity.
  - destruct (changes_local fuel a chs w2 xa2 (cells_put_eq _ _ _)) as (x3 & tr & Hrun & Hx3 & Htr).
    { unfold at_rest, xa2. split; [exact Hta|]. split; [|split; [reflexivity | apply Hi]].
      unfold observed, triggered, released, polled.
      cbn [_notifies _subscribers _thens set_users set_thens set_value set_ready
           set_notifies].
      rewrite Hon, Hos. reflexivity. }
    exists (put a x3 w2), tr. split; [exact Hrun|]. split.
    + rewrite cells_put_ne by done. unfold w2. lookup_cell.
    + apply Htr. exact Htag.
Qed.

(** The poll called from within [notify], before the latch has its
    notifier's id. *)
Lemma poll_early fuel w a l ya xl :
  a <> l -> cells w !! a = Some ya -> cells w !! l = Some xl ->
  kind xl = KLatch (mkLatch a (Some a) true None) ->
  _ready ya = true -> accepts xl (_value ya) = true ->
  _triggering xl = None -> observed xl = true -> _thens xl = [] ->
  cache_managed xl w = false ->
  call (5 + fuel) (CInvoke (CbLatchPoll l) []) w =
  Ok RVoid
    (put l (set_kind (KLatch (mkLatch a (Some a) false None))
              (if fires (_value ya) xl then triggered (_value ya) xl else xl)) w)
    (fired (_value ya) xl).
Proof.
  intros Hal Ha Hl Hk Hr Hv Ht Ho Hth Hm.
  change (5 + fuel) with (S (4 + fuel)).
  rewrite call_S. unfold dispatch, apply_callback, latch_poll.
  rewrite (bind_get_latch _ _ _ _ _ Hl Hk). cbn [_targetSpook targetSpook].
  repeat mstep. rewrite Hr. repeat mstep.
  erewrite bind_Ok.
  2:{ apply latch_changed; try eassumption.
      split; rewrite Hth; [simpl; lia | intros _ H; now elim H]. }
  set (y := if fires (_value ya) xl then triggered (_value ya) xl else xl).
  assert (Hky : kind y = kind xl) by (unfold y; now destruct (fires _ _)).
  erewrite bind_get_latch; [ | apply cells_put_eq | rewrite Hky; exact Hk ].
  cbn [_notifyId]. unfold update_latch. repeat mstep.
  erewrite update_cell_run by apply cells_put_eq.
  rewrite put_put. cbn [prefix]. rewrite app_nil_r. do 2 f_equal.
  unfold set_latch. rewrite Hky, Hk. reflexivity.
Qed.

Lemma latch_use_ready fuel w a l xa xl :
  a <> l -> cells w !! a = Some xa -> cells w !! l = Some xl ->
  kind xl = KLatch (mkLatch a (Some a) true None) ->
  _users xl = 0 -> _thens xl = [] -> _triggering xl = None -> observed xl = true ->
  cache_managed xl w = false ->
  _ready xa = true -> accepts xl (_value xa) = true -> inert xa w ->
  fresh_id (symbols w) (_notifies xa) = true ->
  call (9 + fuel) (CUse l) w =
  Ok (RThis l)
     (put l (caught_up a (_value xa) xl) (set_symbols (S (symbols w)) w))
     (fired (_value xa) xl).
Proof.
  intros Hal Ha Hl Hk Hu Hth Ht Ho Hm Hr Hv Hi Hf.
  change (9 + fuel) with (S (S (S (S (5 + fuel))))).
  rewrite call_S. unfold dispatch, use. repeat mstep.
  rewrite Hu. cbn [Nat.eqb]. rewrite Hm.
  assert (Hinit : call (S (S (S (5 + fuel)))) (CInitialise l) w =
                  Ok RVoid
                    (put l (set_kind (KLatch (mkLatch a None false None))
                              (if fires (_value xa) xl then triggered (_value xa) xl else xl))
                       (set_symbols (S (symbols w)) w))
                    (fired (_value xa) xl)).
  { rewrite call_S. unfold dispatch, initialise. mstep. rewrite Hk.
    unfold latch_initialise. rewrite (bind_get_latch _ _ _ _ _ Hl Hk).
    cbn [_poll _targetSpook].
    rewrite call_S. unfold dispatch, notify. repeat mstep.
    erewrite bind_Ok by (apply use_settled; [eassumption | right; exact Hi]).
    repeat mstep. rewrite put_symbols_put.
    change (symbols (put a (set_users (S (_users xa)) xa) w)) with (symbols w).
    cbn [_ready _notifies set_notifies set_users]. rewrite Hr. repeat mstep.
    fold (polled l (symbols w) xa). unfold invoke.
    erewrite bind_Ok.
    2:{ change (S (5 + fuel)) with (5 + S fuel).
        eapply (poll_early _ _ a l (polled l (symbols w) xa) xl);
          try eassumption; try lookup_cell. }
    change (_value (polled l (symbols w) xa)) with (_value xa).
    set (y := if fires (_value xa) xl then triggered (_value xa) xl else xl).
    repeat mstep.
    erewrite bind_get_latch; [ | apply cells_put_eq | reflexivity ].
    cbn [_poll _targetSpook ret_id]. repeat mstep.
    erewrite bind_Ok.
    2:{ change (S (S (5 + fuel))) with (S (S (S (4 + fuel)))).
        eapply (unnotify_mid _ _ a (polled l (symbols w) xa) (_notifies xa) []);
          [lookup_cell | reflexivity | exact Hf | reflexivity | cbn; lia | exact Hi]. }
    unfold update_latch. repeat mstep.
    rewrite put_cover by done. rewrite (put_comm a l) by done.
    erewrite update_cell_run by apply cells_put_eq. rewrite put_put.
    cbn [prefix]. rewrite !app_nil_r.
    assert (Hback : released (_notifies xa) (polled l (symbols w) xa) = xa).
    { unfold released, polled. now destruct xa. }
    rewrite Hback, (put_id a xa) by exact Ha.
    reflexivity. }
  destruct (_uuid xl).
  all: rewrite (bind_Ok _ _ _ _ _ _ Hinit); repeat mstep; rewrite put_put.
  all: unfold ret; cbn [prefix]; rewrite app_nil_r; do 2 f_equal.
  all: unfold caught_up; destruct (fires (_value xa) xl).
  all: cbn [_users set_kind triggered set_users set_thens set_value set_ready].
  all: rewrite ?Hu, ?Hth; cbn [length Nat.sub]; reflexivity.
Qed.

Lemma fires_false v xl :
  fires v xl = false -> _ready xl = true /\ equivalent v (_value xl) = true.
Proof.
  unfold fires. intros [H1 H2]%orb_false_elim.
  split; now apply negb_false_iff.
Qed.

Lemma caught_up_ready a v xl : _ready (caught_up a v xl) = true.
Proof.
  unfold caught_up. destruct (fires v xl) eqn:E; [reflexivity|].
  now apply fires_false in E.
Qed.

Lemma caught_up_value a v xl :
  _value (caught_up a v xl) = if fires v xl then v else _value xl.
Proof. unfold caught_up. now destruct (fires v xl). Qed.

Lemma latch_tie_ready fuel w a l xa xl tag :
  a <> l -> cells w !! a = Some xa -> cells w !! l = Some xl ->
  kind xl = KLatch (mkLatch a (Some a) true None) ->
  _users xl = 0 -> _thens xl = [] -> _triggering xl = None -> observed xl = true ->
  cache_managed xl w = false ->
  _ready xa = true -> accepts xl (_value xa) = true -> inert xa w ->
  fresh_id (symbols w) (_notifies xa) = true ->
  let xl1 := caught_up a (_value xa) xl in
  call (10 + fuel) (CTie l (CbObserve tag)) w =
  Ok (RId (S (symbols w)))
     (put l (set_subscribers (_subscribers xl ++ [(S (symbols w), CbObserve tag)]) xl1)
        (set_symbols (S (S (symbols w))) w))
     (fired (_value xa) xl ++ [EvCall tag [_value xl1; VSymbol (S (symbols w))]]).
Proof.
  intros Hal Ha Hl Hk Hu Hth Ht Ho Hm Hr Hv Hi Hf xl1.
  change (10 + fuel) with (S (9 + fuel)).
  rewrite call_S. unfold dispatch, tie.
  erewrite bind_Ok by (eapply latch_use_ready; eassumption).
  fold xl1. repeat mstep.
  change (symbols (put l xl1 (set_symbols (S (symbols w)) w))) with (S (symbols w)).
  assert (Hs : _subscribers xl1 = _subscribers xl).
  { unfold xl1, caught_up. now destruct (fires _ _). }
  assert (Hrl : _ready xl1 = true) by apply caught_up_ready.
  rewrite Hs. cbn [_ready _value set_subscribers]. rewrite Hrl.
  unfold invoke. change (9 + fuel) with (S (8 + fuel)).
  erewrite bind_Ok by apply invoke_observe.
  unfold ret. cbn [prefix app]. rewrite put_symbols_put. reflexivity.
Qed.

Lemma revalued_inv x y :
  revalued x y ->
  kind y = kind x /\ _notifies y = _notifies x /\ _uuid y = _uuid x /\ _noCache y = _noCache x.
Proof. intros (r & v & ->). now destruct x. Qed.

(** A latch nobody uses while its input changes: it stays as constructed,
    and when a function is tied to it later it takes the value the input
    has then. *)
Lemma latch_unused_catches_up fuel w a l xa d mb tag chs :
  let xl := new_LatchSpook a (_mayBeNull xa) d mb None in
  a <> l -> cells w !! a = Some xa -> cells w !! l = Some xl ->
  at_rest xa w -> kind xa = KSpook -> fresh_id (symbols w) (_notifies xa) = true ->
  exists w1 tr1 xa1,
    run (6 + fuel) (map (change a) chs) w = Ok RVoid w1 tr1 /\
    cells w1 !! l = Some xl /\ cells w1 !! a = Some xa1 /\
    (_ready xa1 = true -> accepts xl (_value xa1) = true ->
     exists w2 xl2,
       call (10 + fuel) (CTie l (CbObserve tag)) w1
       = Ok (RId (S (symbols w))) w2 [EvCall tag [_value xl2; VSymbol (S (symbols w))]] /\
       cells w2 !! l = Some xl2 /\ _ready xl2 = true /\
       _value xl2 = (if fires (_value xa1) xl then _value xa1 else d) /\
       kind xl2 = KLatch (mkLatch a None false None) /\
       cells w2 !! a = Some xa1).
Proof.
  intros xl Hal Ha Hl Hrest Hka Hfresh.
  destruct (new_LatchSpook_unused a (_mayBeNull xa) d mb)
    as (Hkl & Hul & Hidl & Htl & E1 & E2 & E3 & Hrl & Hvld).
  fold xl in Hkl, Hul, Hidl, Htl, E1, E2, E3, Hrl, Hvld.
  destruct (changes_local fuel a chs w xa Ha Hrest) as (xa1 & tr1 & Hrun & Hrev & _).
  destruct (revalued_inv _ _ Hrev) as (K1 & K2 & K3 & K4).
  exists (put a xa1 w), tr1, xa1.
  split; [exact Hrun|]. split; [now rewrite cells_put_ne|]. split; [apply cells_put_eq|].
  intros Hr1 Hv1.
  assert (Hml : forall w', cache_managed xl w' = false)
    by (intros w'; unfold cache_managed; now rewrite Hidl).
  assert (Hol : observed xl = true) by (unfold observed; now rewrite E1, E2, E3).
  assert (Hi1 : inert xa1 (put a xa1 w)).
  { split; [congruence|]. destruct Hrest as (_ & _ & _ & Hm).
    unfold cache_managed in *. now rewrite K3, K4. }
  pose proof (latch_tie_ready fuel (put a xa1 w) a l xa1 xl tag Hal (cells_put_eq _ _ _)) as Htie.
  rewrite cells_put_ne in Htie by done.
  specialize (Htie Hl Hkl Hul E3 Htl Hol (Hml _) Hr1 Hv1 Hi1).
  rewrite K2 in Htie. specialize (Htie Hfresh). cbv zeta in Htie.
  assert (Hfired : fired (_value xa1) xl = []).
  { unfold fired. rewrite E1, E2, E3. now destruct (fires _ _). }
  rewrite Hfired in Htie. cbn [app] in Htie.
  set (xl2 := set_subscribers (_subscribers xl ++ [(S (symbols w), CbObserve tag)])
                (caught_up a (_value xa1) xl)).
  exists (put l xl2 (set_symbols (S (S (symbols w))) (put a xa1 w))), xl2.
  split; [exact Htie|].
  split; [apply cells_put_eq|]. split; [|split; [|split]].
  - apply caught_up_ready.
  - change (_value xl2) with (_value (caught_up a (_value xa1) xl)).
    rewrite caught_up_value.
    destruct (fires (_value xa1) xl) eqn:E; [reflexivity|].
    apply fires_false in E as [E _]. rewrite Hrl in E. apply negb_true_iff in E.
    exact (Hvld E).
  - unfold xl2, caught_up. now destruct (fires _ _).
  - rewrite cells_put_ne by done. apply cells_put_eq.
Qed.

Lemma then_ready fuel w c x tag :
  cells w !! c = Some x -> _ready x = true -> settled x w ->
  call (3 + fuel) (CThen c (CbObserve tag)) w = Ok (RThis c) w [EvCall tag [_value x]].
Proof.
  intros Hc Hr Hs. change (3 + fuel) with (S (S (S fuel))).
  rewrite call_S. unfold dispatch, then_.
  rewrite (bind_Ok _ _ _ _ _ _ (use_settled fuel w c x Hc Hs)).
  repeat mstep. cbn [_ready _value set_users]. rewrite Hr. unfold invoke.
  repeat mstep. erewrite bind_Ok by apply invoke_observe.
  assert (Hd : call (S (S fuel)) (CDrop c) (put c (set_users (S (_users x)) x) w)
               = Ok RVoid w []).
  { destruct (_users x) as [|n] eqn:Hu.
    - destruct Hs as [Hs|[Hk Hm]]; [lia|].
      erewrite drop_last_inert; [ | apply cells_put_eq | reflexivity | split; assumption ].
      rewrite put_put, set_users_twice, (set_users_same _ _ Hu), put_id by assumption.
      reflexivity.
    - erewrite drop_more; [ | apply cells_put_eq | reflexivity ].
      rewrite put_put, set_users_twice, (set_users_same _ _ Hu), put_id by assumption.
      reflexivity. }
  rewrite (bind_Ok _ _ _ _ _ _ Hd). reflexivity.
Qed.

Lemma then_unready fuel w c x callback :
  cells w !! c = Some x -> _ready x = false -> settled x w ->
  call (3 + fuel) (CThen c callback) w = Ok (RThis c) (put c (queued callback x) w) [].
Proof.
  intros Hc Hr Hs. change (3 + fuel) with (S (S (S fuel))).
  rewrite call_S. unfold dispatch, then_.
  rewrite (bind_Ok _ _ _ _ _ _ (use_settled fuel w c x Hc Hs)).
  repeat mstep. cbn [_ready _value set_users]. rewrite Hr.
  repeat mstep. rewrite put_put. reflexivity.
Qed.

Lemma calls_of_one tag args : calls_of tag [EvCall tag args] = [EvCall tag args].
Proof. unfold calls_of. cbn. now rewrite Nat.eqb_refl. Qed.

Lemma then_fires_once fuel w c x tag v vs :
  cells w !! c = Some x -> _ready x = false -> settled x w ->
  _triggering x = None -> observed x = true -> drains x w ->
  cache_managed x w = false ->
  untagged tag (symbolValues (_notifies x) ++ symbolValues (_subscribers x) ++ _thens x)
  = true ->
  forallb (accepts x) (v :: vs) = true ->
  exists w' tr,
    run (4 + fuel) (CThen c (CbObserve tag) :: map (CTrigger c) (v :: vs)) w
    = Ok RVoid w' tr /\
    calls_of tag tr = [EvCall tag [v]].
Proof.
  intros Hc Hr Hs Ht Ho [Hle Hin] Hm Hu Hvs.
  cbn [forallb] in Hvs. apply andb_prop in Hvs as [Hv Hvs].
  destruct (accepts_inv _ _ Hv) as [Hv1 Hv2].
  destruct (observed_inv _ Ho) as (Hon & Hos & Hot).
  rewrite !untagged_app in Hu. apply andb_prop in Hu as [Hun Hu].
  apply andb_prop in Hu as [Hus Hut].
  rewrite run_cons. change (4 + fuel) with (3 + S fuel).
  rewrite (bind_Ok _ _ _ _ _ _ (then_unready (S fuel) w c x (CbObserve tag) Hc Hr Hs)).
  cbn [map]. rewrite run_cons. change (3 + S fuel) with (S (S (S (S fuel)))).
  set (x1 := queued (CbObserve tag) x).
  assert (Ho1 : observed x1 = true).
  { unfold observed, x1, queued.
    cbn [_notifies _subscribers _thens set_thens set_users].
    rewrite Hon, Hos, forallb_app, Hot. reflexivity. }
  assert (Hd1 : drains x1 (put c x1 w)).
  { unfold drains, x1, queued. cbn [_thens _users set_thens set_users].
    rewrite length_app. cbn [length]. split; [lia|].
    intros E _. destruct (_thens x) as [|t0 l] eqn:El.
    - destruct Hs as [Hs|Hs]; [cbn in E; lia | exact Hs].
    - apply Hin; [cbn in *; lia | discriminate]. }
  rewrite (bind_Ok _ _ _ _ _ _
             (trigger_unpublished (S fuel) (put c x1 w) c x1 v (cells_put_eq _ _ _)
                Ht Hv1 Hv2 Ho1 Hd1 Hm)).
  rewrite put_put.
  destruct (released_quiet fuel c tag vs (put c (triggered v x1) w) (triggered v x1))
    as (w' & tr & Hrun & Htr).
  - apply cells_put_eq.
  - exact Ht.
  - unfold observed. cbn [triggered x1 queued _notifies _subscribers _thens set_thens
      set_users set_value set_ready]. now rewrite Hon, Hos.
  - reflexivity.
  - exact Hm.
  - rewrite untagged_app. cbn [triggered x1 queued _notifies _subscribers set_thens
      set_users set_value set_ready]. now rewrite Hun, Hus.
  - exact Hvs.
  - change (S (S (S (S fuel)))) with (4 + fuel). rewrite Hrun.
    eexists _, _. split; [reflexivity|].
    cbn [app]. rewrite !calls_of_app, Htr.
    cbn [x1 queued _notifies _subscribers _thens set_thens set_users].
    unfold calls at 3. rewrite map_app, calls_of_app. cbn [map tag_of].
    fold (calls [v] (_thens x)).
    rewrite !calls_of_calls by assumption. rewrite calls_of_one. reflexivity.
Qed.

(** *** Registering and releasing observers *)

Lemma drop_back fuel w c y n :
  cells w !! c = Some y -> _users y = S n -> (0 < n \/ inert y w) ->
  call (S (S fuel)) (CDrop c) w = Ok RVoid (put c (set_users n y) w) [].
Proof.
  intros Hc Hu Hs. destruct n as [|n].
  - destruct Hs as [Hs|Hs]; [lia|]. now apply drop_last_inert.
  - now apply drop_more.
Qed.

Lemma tie_run fuel w c x tag :
  cells w !! c = Some x -> settled x w ->
  call (3 + fuel) (CTie c (CbObserve tag)) w =
  Ok (RId (symbols w))
     (put c (set_subscribers (_subscribers x ++ [(symbols w, CbObserve tag)])
               (set_users (S (_users x)) x))
        (set_symbols (S (symbols w)) w))
     (if _ready x then [EvCall tag [_value x; VSymbol (symbols w)]] else []).
Proof.
  intros Hc Hs. change (3 + fuel) with (S (S (S fuel))).
  rewrite call_S. unfold dispatch, tie.
  rewrite (bind_Ok _ _ _ _ _ _ (use_settled fuel w c x Hc Hs)).
  repeat mstep. rewrite put_symbols_put.
  cbn [_ready _value _subscribers set_subscribers set_users symbols put set_cells].
  unfold invoke. destruct (_ready x).
  - erewrite bind_Ok by apply invoke_observe. reflexivity.
  - reflexivity.
Qed.

Lemma set_symbols_put c x n w : set_symbols n (put c x w) = put c x (set_symbols n w).
Proof. reflexivity. Qed.

Lemma untie_back fuel w c x id f :
  cells w !! c = Some x -> settled x w -> fresh_id id (_subscribers x) = true ->
  call (3 + fuel) (CUntie c (Some id))
    (put c (set_subscribers (_subscribers x ++ [(id, f)]) (set_users (S (_users x)) x)) w)
  = Ok RVoid w [].
Proof.
  intros Hc Hs Hf. change (3 + fuel) with (S (S (S fuel))).
  rewrite call_S. unfold dispatch, untie. repeat mstep.
  cbn [_subscribers set_subscribers]. rewrite (lookup_symbol_last _ _ _ Hf).
  repeat mstep. cbn [_subscribers set_subscribers]. rewrite (delete_symbol_last _ _ _ Hf).
  rewrite put_put.
  erewrite drop_back; [ | apply cells_put_eq | reflexivity | ].
  - rewrite put_put. f_equal. rewrite <- (put_id c x w Hc) at 2. f_equal.
    now destruct x.
  - destruct Hs as [Hs|Hs]; [left; exact Hs | right; exact Hs].
Qed.

Lemma untie_stale fuel w c x id :
  cells w !! c = Some x -> lookup_symbol (_subscribers x) id = None ->
  call (S fuel) (CUntie c id) w
  = Ok RVoid w [EvConsole LWarn "untie on from old or non-existent subscriber ID"].
Proof.
  intros Hc Hl. rewrite call_S. unfold dispatch, untie. mstep. now rewrite Hl.
Qed.

Lemma lookup_symbol_fresh o id : fresh_id id o = true -> lookup_symbol o (Some id) = None.
Proof.
  unfold lookup_symbol, fresh_id. induction o as [|[i g] o IH]; [reflexivity|].
  cbn [forallb List.find fst]. intros [H1 H2]%andb_prop.
  apply negb_true_iff in H1. rewrite H1. now apply IH.
Qed.

Lemma tie_untie_run fuel w c x tag :
  cells w !! c = Some x -> settled x w -> fresh_id (symbols w) (_subscribers x) = true ->
  run (3 + fuel) [CTie c (CbObserve tag); CUntie c (Some (symbols w));
                  CUntie c (Some (symbols w))] w
  = Ok RVoid (set_symbols (S (symbols w)) w)
      ((if _ready x then [EvCall tag [_value x; VSymbol (symbols w)]] else []) ++
       [EvConsole LWarn "untie on from old or non-existent subscriber ID"]).
Proof.
  intros Hc Hs Hf. rewrite run_cons.
  rewrite (bind_Ok _ _ _ _ _ _ (tie_run fuel w c x tag Hc Hs)).
  rewrite run_cons.
  erewrite bind_Ok by (apply (untie_back fuel (set_symbols (S (symbols w)) w) c x); assumption).
  rewrite run_cons. change (3 + fuel) with (S (2 + fuel)).
  erewrite bind_Ok
    by (apply (untie_stale _ _ c x); [exact Hc | now apply lookup_symbol_fresh]).
  cbn. rewrite ?app_nil_r. destruct (_ready x); reflexivity.
Qed.

Lemma unnotify_back fuel w c x id f :
  cells w !! c = Some x -> settled x w -> fresh_id id (_notifies x) = true ->
  call (3 + fuel) (CUnnotify c (Some id))
    (put c (set_notifies (_notifies x ++ [(id, f)]) (set_users (S (_users x)) x)) w)
  = Ok RVoid w [].
Proof.
  intros Hc Hs Hf. change (3 + fuel) with (S (S (S fuel))).
  rewrite call_S. unfold dispatch, unnotify. repeat mstep.
  cbn [_notifies set_notifies]. rewrite (lookup_symbol_last _ _ _ Hf).
  repeat mstep. cbn [_notifies set_notifies]. rewrite (delete_symbol_last _ _ _ Hf).
  rewrite put_put.
  erewrite drop_back; [ | apply cells_put_eq | reflexivity | ].
  - rewrite put_put. f_equal. rewrite <- (put_id c x w Hc) at 2. f_equal.
    now destruct x.
  - destruct Hs as [Hs|Hs]; [left; exact Hs | right; exact Hs].
Qed.

Lemma unnotify_stale fuel w c x id :
  cells w !! c = Some x -> lookup_symbol (_notifies x) id = None ->
  call (S fuel) (CUnnotify c id) w
  = Ok RVoid w [EvConsole LWarn "untie on from old or non-existent notifyee ID"].
Proof.
  intros Hc Hl. rewrite call_S. unfold dispatch, unnotify. mstep. now rewrite Hl.
Qed.

Lemma notify_unnotify_run fuel w c x tag :
  cells w !! c = Some x -> settled x w -> fresh_id (symbols w) (_notifies x) = true ->
  run (3 + fuel) [CNotify c (CbObserve tag); CUnnotify c (Some (symbols w));
                  CUnnotify c (Some (symbols w))] w
  = Ok RVoid (set_symbols (S (symbols w)) w)
      ((if _ready x then [EvCall tag []] else []) ++
       [EvConsole LWarn "untie on from old or non-existent notifyee ID"]).
Proof.
  intros Hc Hs Hf. rewrite run_cons. change (3 + fuel) with (S (2 + fuel)).
  rewrite (bind_Ok _ _ _ _ _ _
             (notify_run (2 + fuel) w c tag _ _ _ _ (use_settled fuel w c x Hc Hs)
                (cells_put_eq _ _ _))).
  cbn [_notifies _ready set_users symbols put set_cells app].
  rewrite put_symbols_put, run_cons. change (S (2 + fuel)) with (3 + fuel).
  erewrite bind_Ok
    by (apply (unnotify_back fuel (set_symbols (S (symbols w)) w) c x); assumption).
  rewrite run_cons. change (3 + fuel) with (S (2 + fuel)).
  erewrite bind_Ok
    by (apply (unnotify_stale _ _ c x); [exact Hc | now apply lookup_symbol_fresh]).
  cbn. rewrite ?app_nil_r. destruct (_ready x); reflexivity.
Qed.

Lemma accepts_defined x v : accepts x v = true -> is_undefined v = false.
Proof. intros H. now destruct (accepts_test _ _ H). Qed.

Lemma accepts_not_null x v :
  accepts x v = true -> negb (_mayBeNull x) && is_null v = false.
Proof. intros H. now destruct (accepts_test _ _ H). Qed.

Lemma accepts_intro x v :
  is_undefined v = false -> negb (_mayBeNull x) && is_null v = false -> accepts x v = true.
Proof.
  unfold accepts. intros -> H. cbn. destruct (_mayBeNull x); [reflexivity|].
  cbn in *. now rewrite H.
Qed.

Lemma at_rest_drains x w : at_rest x w -> drains x w.
Proof.
  intros (_ & _ & Hth & _). split; rewrite Hth; [cbn; lia | intros _ H; now elim H].
Qed.

(** A transition of a cell at rest to a value it accepts. *)
Lemma trigger_at_rest fuel w c x v :
  cells w !! c = Some x -> at_rest x w -> accepts x v = true ->
  call (3 + fuel) (CTrigger c v) w =
  Ok RVoid (put c (set_value v (set_ready true x)) w)
    (calls [] (symbolValues (_notifies x)) ++ calls [v] (symbolValues (_subscribers x))).
Proof.
  intros Hc Hr Hv. destruct (accepts_inv _ _ Hv) as [Hv1 Hv2].
  pose proof (at_rest_drains _ _ Hr) as Hd.
  destruct Hr as (Ht & Ho & Hth & Hm).
  change (3 + fuel) with (S (S (S fuel))).
  rewrite (trigger_unpublished fuel w c x v Hc Ht Hv1 Hv2 Ho Hd Hm).
  rewrite (triggered_at_rest v x Hth), Hth. cbn [calls map]. now rewrite app_nil_r.
Qed.

Lemma set_value_ready_id x : _ready x = true -> set_ready true x = x.
Proof. intros H. destruct x; cbn in *. now subst. Qed.

Lemma set_value_id x : set_value (_value x) x = x.
Proof. now destruct x. Qed.

Lemma only_calls_observers x v :
  only_calls x
    (calls [] (symbolValues (_notifies x)) ++ calls [v] (symbolValues (_subscribers x))).
Proof. apply only_calls_app; [apply only_calls_notifies | apply only_calls_subscribers]. Qed.

Lemma reset_defaulted fuel w c x d :
  cells w !! c = Some x -> defaulted d x w ->
  call (4 + fuel) (CReset c) w =
  Ok RVoid (put c (set_value d x) w)
    (calls [] (symbolValues (_notifies x)) ++ calls [d] (symbolValues (_subscribers x))).
Proof.
  intros Hc (Hr & Hd & Had & Hy & Hav). change (4 + fuel) with (S (3 + fuel)).
  rewrite call_S. unfold dispatch, reset. mstep.
  rewrite Hd, (accepts_defined _ _ Had). cbn [negb].
  erewrite bind_Ok by (apply trigger_at_rest; eassumption).
  unfold ret. cbn [prefix]. rewrite app_nil_r, (set_value_ready_id x Hy). reflexivity.
Qed.

Lemma change_defaulted fuel w c x d ch :
  cells w !! c = Some x -> defaulted d x w ->
  exists tr,
    call (6 + fuel) (change c ch) w
    = Ok RVoid (put c (set_value (after_change d x ch) x) w) tr /\
    accepts x (after_change d x ch) = true /\ only_calls x tr.
Proof.
  intros Hc Hdef. pose proof Hdef as (Hr & Hd & Had & Hy & Hav).
  pose proof Hr as (Ht & Ho & Hth & Hm).
  destruct ch as [a|a|]; cbn [change after_change].
  - (* trigger *)
    assert (Harg : call (6 + fuel) (CTrigger c a) w
                   = call (6 + fuel) (CTrigger c (if is_undefined a then _value x else a)) w).
    { destruct (is_undefined a) eqn:E; [|reflexivity].
      change (6 + fuel) with (S (5 + fuel)). now apply trigger_default. }
    rewrite Harg. cbv zeta.
    set (nv := if is_undefined a then _value x else a).
    assert (Hnv : is_undefined nv = false).
    { unfold nv. destruct (is_undefined a) eqn:E; [|exact E].
      now apply accepts_defined in Hav. }
    destruct (negb (_mayBeNull x) && is_null nv) eqn:Hn.
    + change (6 + fuel) with (S (S (4 + fuel))).
      rewrite call_S. unfold dispatch, trigger. mstep.
      rewrite Hnv. cbv iota. rewrite Hnv. cbv iota.
      rewrite Ht, bool_decide_false by (intros [? ?]; discriminate).
      rewrite Hn. repeat mstep.
      rewrite call_S. unfold dispatch, reset. repeat mstep.
      cbn [_defaultTo set_triggering]. rewrite Hd, (accepts_defined _ _ Had). cbn [negb].
      repeat mstep.
      erewrite bind_Ok.
      2:{ eapply (trigger_busy _ _ c); [apply cells_put_eq | reflexivity |].
          now apply accepts_defined in Had. }
      repeat mstep. rewrite put_put.
      cbn [_uuid set_triggering].
      change (cache_managed (set_triggering None (set_triggering (Some nv) x)) _)
        with (cache_managed x w).
      rewrite Hm.
      assert (Hx : set_triggering None (set_triggering (Some nv) x) = x).
      { destruct x; cbn in *. now subst. }
      rewrite Hx, set_value_id.
      eexists. split; [|split; [exact Hav | apply only_calls_console]].
      destruct (_uuid x); unfold ret; cbn [prefix]; reflexivity.
    + assert (Hacc : accepts x nv = true) by now apply accepts_intro.
      change (6 + fuel) with (3 + (3 + fuel)).
      rewrite (trigger_at_rest _ w c x nv Hc Hr Hacc), (set_value_ready_id x Hy).
      eexists. split; [reflexivity|]. split; [exact Hacc | apply only_calls_observers].
  - (* changed *)
    change (6 + fuel) with (S (5 + fuel)).
    rewrite call_S. unfold dispatch, changed.
    destruct (is_undefined a) eqn:Ea.
    { rewrite set_value_id, put_id by done. exists []. split; [reflexivity|].
      split; [exact Hav | apply only_calls_nil]. }
    mstep. destruct (negb (_mayBeNull x) && is_null a) eqn:Hn.
    { change (5 + fuel) with (4 + S fuel).
      rewrite (reset_defaulted _ w c x d Hc Hdef).
      eexists. split; [reflexivity|]. split; [exact Had | apply only_calls_observers]. }
    rewrite Hy. cbn [negb orb].
    destruct (equivalent a (_value x)) eqn:He; cbn [negb].
    + rewrite set_value_id, put_id by done. exists []. split; [reflexivity|].
      split; [exact Hav | apply only_calls_nil].
    + assert (Hacc : accepts x a = true) by now apply accepts_intro.
      change (5 + fuel) with (3 + (2 + fuel)).
      rewrite (trigger_at_rest _ w c x a Hc Hr Hacc), (set_value_ready_id x Hy).
      eexists. split; [reflexivity|]. split; [exact Hacc | apply only_calls_observers].
  - change (6 + fuel) with (4 + (2 + fuel)).
    rewrite (reset_defaulted _ w c x d Hc Hdef).
    eexists. split; [reflexivity|]. split; [exact Had | apply only_calls_observers].
Qed.

Lemma defaultTo_run fuel w c x d :
  cells w !! c = Some x -> at_rest x w -> accepts x d = true ->
  call (4 + fuel) (CDefaultTo c d) w =
  Ok (RThis c)
    (put c (if _ready x then set_defaultTo d x
            else set_value d (set_ready true (set_defaultTo d x))) w)
    (if _ready x then []
     else calls [] (symbolValues (_notifies x)) ++ calls [d] (symbolValues (_subscribers x))).
Proof.
  intros Hc Hr Hd. change (4 + fuel) with (S (3 + fuel)).
  rewrite call_S. unfold dispatch, defaultTo. repeat mstep.
  cbn [_ready set_defaultTo]. destruct (_ready x) eqn:Hy; cbn [negb].
  - repeat mstep. reflexivity.
  - erewrite bind_Ok.
    2:{ apply trigger_at_rest; [apply cells_put_eq | exact Hr | exact Hd]. }
    repeat mstep. rewrite put_put. unfold ret. cbn [prefix]. now rewrite app_nil_r.
Qed.

Lemma defaulted_set_value d x w v :
  defaulted d x w -> accepts x v = true -> defaulted d (set_value v x) w.
Proof. intros (Hr & Hd & Had & Hy & _) Hv. repeat split; try assumption; apply Hr. Qed.

Lemma changes_defaulted fuel c d chs : forall w x,
  cells w !! c = Some x -> defaulted d x w ->
  exists x' tr,
    run (6 + fuel) (map (change c) chs) w = Ok RVoid (put c x' w) tr /\
    defaulted d x' w /\ only_calls x tr.
Proof.
  induction chs as [|ch chs IH]; intros w x Hc Hdef.
  - exists x, []. rewrite put_id by done. split; [reflexivity|].
    split; [exact Hdef | apply only_calls_nil].
  - destruct (change_defaulted fuel w c x d ch Hc Hdef) as (t1 & Hrun1 & Hv1 & Ht1).
    set (x1 := set_value (after_change d x ch) x) in *.
    assert (Hdef1 : defaulted d x1 w) by now apply defaulted_set_value.
    destruct (IH (put c x1 w) x1 (cells_put_eq _ _ _) Hdef1) as (x2 & t2 & Hrun2 & Hx2 & Ht2).
    exists x2, (t1 ++ t2). cbn [map]. rewrite run_cons.
    rewrite (bind_Ok _ _ _ _ _ _ Hrun1), Hrun2, put_put. split; [reflexivity|].
    split; [exact Hx2|]. apply only_calls_app; [exact Ht1 | exact Ht2].
Qed.

Lemma reset_plain fuel w c x :
  cells w !! c = Some x -> at_rest x w -> _defaultTo x = VUndefined ->
  call (2 + fuel) (CReset c) w =
  if _ready x
  then Ok RVoid (put c (set_value VNull (set_ready false x)) w)
         (calls [] (symbolValues (_notifies x)))
  else Ok RVoid w [].
Proof.
  intros Hc (_ & (Ho & _)%observed_inv & _) Hd. change (2 + fuel) with (S (S fuel)).
  rewrite call_S. unfold dispatch, reset. mstep. rewrite Hd. cbn [is_undefined negb].
  destruct (_ready x); [|reflexivity].
  repeat mstep. cbn [_notifies set_value set_ready]. unfold invoke.
  now rewrite (forEach_observers fuel _ _ _ Ho).
Qed.

(** *** Counting users *)

Lemma run_app fuel l1 l2 w :
  run fuel (l1 ++ l2) w = bind (run fuel l1) (fun _ => run fuel l2) w.
Proof. unfold run. apply forEach_app. Qed.

Lemma uses_more fuel c n : forall w x,
  cells w !! c = Some x -> 0 < _users x ->
  run (S fuel) (replicate n (CUse c)) w = Ok RVoid (put c (set_users (n + _users x) x) w) [].
Proof.
  induction n as [|n IH]; intros w x Hc Hu.
  - cbn. now rewrite set_users_id, put_id.
  - cbn [replicate]. rewrite run_cons.
    rewrite (bind_Ok _ _ _ _ _ _ (use_more fuel w c x Hc Hu)).
    rewrite (IH _ _ (cells_put_eq _ _ _)) by (cbn; lia).
    rewrite put_put. cbn [_users set_users prefix]. do 2 f_equal.
    rewrite set_users_twice. f_equal. lia.
Qed.

Lemma drops_more fuel c n : forall w x,
  cells w !! c = Some x -> n < _users x ->
  run (S fuel) (replicate n (CDrop c)) w = Ok RVoid (put c (set_users (_users x - n) x) w) [].
Proof.
  induction n as [|n IH]; intros w x Hc Hu.
  - cbn. now rewrite Nat.sub_0_r, set_users_id, put_id.
  - cbn [replicate]. rewrite run_cons.
    destruct (_users x) as [|[|m]] eqn:E; [lia|lia|].
    rewrite (bind_Ok _ _ _ _ _ _ (drop_more fuel w c x m Hc E)).
    rewrite (IH _ _ (cells_put_eq _ _ _)) by (cbn; lia).
    rewrite put_put. cbn [_users set_users prefix]. now rewrite set_users_twice.
Qed.

Lemma use_first_hooked fuel w c x i f :
  cells w !! c = Some x -> _users x = 0 -> cache_managed x w = false ->
  kind x = KCustom (CbObserve i) f ->
  call (3 + fuel) (CUse c) w = Ok (RThis c) (put c (set_users 1 x) w) [EvCall i []].
Proof.
  intros Hc Hu Hm Hk. change (3 + fuel) with (S (S (S fuel))).
  rewrite call_S. unfold dispatch, use. repeat mstep. rewrite Hu, Hm. cbn [Nat.eqb].
  assert (Hi : call (S (S fuel)) (CInitialise c) w = Ok RVoid w [EvCall i []]).
  { rewrite call_S. unfold dispatch, initialise. mstep. rewrite Hk. reflexivity. }
  destruct (_uuid x).
  all: rewrite (bind_Ok _ _ _ _ _ _ Hi); repeat mstep; rewrite Hu; reflexivity.
Qed.

Lemma drop_last_hooked fuel w c x i f :
  cells w !! c = Some x -> _users x = 1 -> cache_managed x w = false ->
  kind x = KCustom i (CbObserve f) ->
  call (3 + fuel) (CDrop c) w = Ok RVoid (put c (set_users 0 x) w) [EvCall f []].
Proof.
  intros Hc Hu Hm Hk. change (3 + fuel) with (S (S (S fuel))).
  rewrite (drop_last _ _ _ _ Hc Hu), Hm.
  rewrite call_S. unfold dispatch, finalise.
  erewrite bind_get_cell by apply cells_put_eq.
  cbn [kind set_users]. rewrite Hk. reflexivity.
Qed.

Lemma uses_then_drops fuel w c x i f n :
  cells w !! c = Some x -> _users x = 0 -> cache_managed x w = false ->
  kind x = KCustom (CbObserve i) (CbObserve f) ->
  run (3 + fuel) (replicate (S n) (CUse c)) w
  = Ok RVoid (put c (set_users (S n) x) w) [EvCall i []] /\
  run (3 + fuel) (replicate (S n) (CUse c) ++ replicate (S n) (CDrop c)) w
  = Ok RVoid w [EvCall i []; EvCall f []].
Proof.
  intros Hc Hu Hm Hk.
  assert (Huses : run (3 + fuel) (replicate (S n) (CUse c)) w
                  = Ok RVoid (put c (set_users (S n) x) w) [EvCall i []]).
  { cbn [replicate]. rewrite run_cons.
    rewrite (bind_Ok _ _ _ _ _ _ (use_first_hooked fuel w c x i _ Hc Hu Hm Hk)).
    change (3 + fuel) with (S (2 + fuel)).
    rewrite (uses_more _ c n _ _ (cells_put_eq _ _ _)) by (cbn; lia).
    rewrite put_put. cbn [_users set_users prefix app]. rewrite set_users_twice.
    replace (n + 1) with (S n) by lia. reflexivity. }
  split; [exact Huses|].
  rewrite run_app, (bind_Ok _ _ _ _ _ _ Huses).
  replace (replicate (S n) (CDrop c)) with (replicate n (CDrop c) ++ [CDrop c])
    by (rewrite <- replicate_S_end; reflexivity).
  rewrite run_app. change (3 + fuel) with (S (2 + fuel)).
  erewrite bind_Ok by (apply (drops_more _ c n); [apply cells_put_eq | cbn; lia]).
  rewrite put_put. cbn [_users set_users]. rewrite set_users_twice.
  replace (S n - n) with 1 by lia.
  rewrite run_cons. change (S (2 + fuel)) with (3 + fuel).
  erewrite bind_Ok
    by (eapply (drop_last_hooked fuel _ c _ _ f); [apply cells_put_eq | reflexivity | exact Hm | exact Hk]).
  rewrite put_put, set_users_twice, (set_users_same _ _ Hu), put_id by assumption.
  reflexivity.
Qed.

Lemma stays_sound_refl w : stays_sound w w.
Proof. intros H. exact H. Qed.

Lemma stays_sound_trans a b c : stays_sound a b -> stays_sound b c -> stays_sound a c.
Proof. intros H1 H2 H. apply H2, H1, H. Qed.

Lemma sound_alter c f w :
  (forall x, sound x -> sound (f x)) ->
  stays_sound w (set_cells (alter f c (cells w)) w).
Proof.
  intros Hf H i y. cbn [cells set_cells].
  destruct (decide (i = c)) as [->|Hne].
  - rewrite lookup_alter_eq. destruct (cells w !! c) as [x|] eqn:E; [|discriminate].
    intros [= <-]. apply Hf, (H c x E).
  - rewrite lookup_alter_ne by congruence. apply H.
Qed.

Lemma sound_same x y :
  _ready y = _ready x -> _value y = _value x -> _mayBeNull y = _mayBeNull x ->
  sound x -> sound y.
Proof.
  unfold sound, accepts. intros -> -> ->. tauto.
Qed.

Ltac upd_sound :=
  first
    [ apply keeps_fresh_symbol; intros ? ? H; exact H
    | unfold update_cell; apply keeps_modify; intros ?; apply sound_alter;
      let y := fresh "y" in
      intros y; first [ intros _ Hy; discriminate Hy
                      | try (unfold set_latch; destruct (kind y));
                        apply sound_same; reflexivity ]
    | apply keeps_modify; intros ? H; exact H ].

Lemma post_trans {A} (R : World -> World -> Prop) w w2 (o : Outcome A) :
  (forall a b c, R a b -> R b c -> R a c) -> R w w2 -> post R w2 o -> post R w o.
Proof. intros Ht H. destruct o; cbn; eauto. Qed.

Lemma keeps_reset_sound rec c :
  (forall k, keeps stays_sound (rec k)) -> keeps stays_sound (reset rec c).
Proof.
  intros Hrec.
  pose proof stays_sound_refl as Hr. pose proof stays_sound_trans as Ht.
  unfold reset, invoke.
  repeat keeps_step upd_sound.
Qed.

Lemma keeps_trigger_sound rec c v :
  (forall k, keeps stays_sound (rec k)) -> keeps stays_sound (trigger rec c v).
Proof.
  intros Hrec.
  pose proof stays_sound_refl as Hr. pose proof stays_sound_trans as Ht.
  unfold trigger. apply keeps_get_cell_bind; [exact Hr|].
  intros w x Hx. cbv zeta.
  set (nv := if is_undefined v then _value x else v).
  destruct (is_undefined nv) eqn:Hu; [apply Hr|].
  destruct (bool_decide (is_Some (_triggering x))); [apply Hr|].
  rewrite (bind_update_cell _ _ _ _ _ Hx).
  assert (H1 : stays_sound w (put c (set_triggering (Some nv) x) w)).
  { intros H i y. unfold put. cbn [cells set_cells].
    destruct (decide (i = c)) as [->|Hne].
    - rewrite lookup_insert_eq. intros [= <-]. apply (sound_same x); try reflexivity.
      apply (H c x Hx).
    - rewrite lookup_insert_ne by congruence. apply H. }
  apply (post_trans _ _ _ _ Ht H1).
  destruct (negb (_mayBeNull x) && is_null nv) eqn:Hn.
  - match goal with |- post _ ?w0 (?m ?w0) => assert (Hk : keeps stays_sound m) end.
    { repeat keeps_step upd_sound. }
    apply Hk.
  - rewrite !bind_bind. erewrite bind_update_cell by apply cells_put_eq. rewrite put_put.
    set (x2 := set_value nv (set_ready true (set_triggering (Some nv) x))).
    assert (H2 : stays_sound (put c (set_triggering (Some nv) x) w) (put c x2 w)).
    { intros H i y. unfold put. cbn [cells set_cells].
      destruct (decide (i = c)) as [->|Hne].
      - rewrite lookup_insert_eq. intros [= <-] _. unfold x2, accepts.
        cbn [_value _mayBeNull set_value set_ready set_triggering]. rewrite Hu. cbn [negb andb].
        destruct (_mayBeNull x); [reflexivity|]. cbn in *. now rewrite Hn.
      - rewrite lookup_insert_ne by congruence.
        specialize (H i y). unfold put in H. cbn [cells set_cells] in H.
        rewrite lookup_insert_ne in H by congruence. exact H. }
    apply (post_trans _ _ _ _ Ht H2).
    match goal with |- post _ ?w0 (?m ?w0) => assert (Hk : keeps stays_sound m) end.
    { unfold invoke. repeat keeps_step upd_sound. }
    apply Hk.
Qed.

Lemma keeps_dispatch_sound rec k :
  (forall k, keeps stays_sound (rec k)) -> keeps stays_sound (dispatch rec k).
Proof.
  intros Hrec.
  pose proof stays_sound_refl as Hr. pose proof stays_sound_trans as Ht.
  destruct k; unfold dispatch.
  all: try (apply keeps_trigger_sound; assumption).
  all: try (apply keeps_reset_sound; assumption).
  all: unfold_bodies.
  all: repeat keeps_step upd_sound.
Qed.

Lemma call_stays_sound fuel k : keeps stays_sound (call fuel k).
Proof.
  revert k. induction fuel as [|fuel IH]; intros k.
  - intros w. exact I.
  - change (call (S fuel) k) with (dispatch (call fuel) k).
    apply keeps_dispatch_sound, IH.
Qed.

Lemma initialise_plain fuel w c x :
  cells w !! c = Some x -> plain_hooks x = true ->
  call (S (S fuel)) (CInitialise c) w = Ok RVoid w (init_calls x).
Proof.
  intros Hc Hk. rewrite call_S. unfold dispatch, initialise. mstep.
  unfold plain_hooks, init_calls in *.
  destruct (kind x) as [|i f|]; [reflexivity| |discriminate].
  destruct i; try discriminate. reflexivity.
Qed.

(** A transition of a cell at rest that is handled through the cache, in an
    instance that does not own the uuid. *)
Lemma trigger_not_owner fuel w c x v k u :
  cells w !! c = Some x -> _triggering x = None -> observed x = true -> _thens x = [] ->
  accepts x v = true -> cache w = Some k -> _uuid x = Some u ->
  storage k !! owner_key u <> Some (sessionId k) ->
  call (4 + fuel) (CTrigger c v) w =
  Ok RVoid (put c (set_value v (set_ready true x)) w)
    (calls [] (symbolValues (_notifies x)) ++ calls [v] (symbolValues (_subscribers x))).
Proof.
  intros Hc Ht Ho Hth Hv Hk Hu Hown. destruct (accepts_inv _ _ Hv) as [Hv1 Hv2].
  assert (Hd : drains x w).
  { split; rewrite Hth; [cbn; lia | intros _ H; now elim H]. }
  change (4 + fuel) with (S (S (S (S fuel)))).
  rewrite (trigger_passive (S fuel) w c x v Hc Ht Hv1 Hv2 Ho Hd).
  rewrite (triggered_at_rest v x Hth), Hth, Hu. cbn [default calls map].
  rewrite app_nil_r.
  assert (Hpub : call (S (S (S fuel))) (CCacheChanged u v)
                   (put c (set_value v (set_ready true x)) w)
                 = Ok RVoid (put c (set_value v (set_ready true x)) w) []).
  { eapply cache_changed_other; [exact Hk | right; exact Hown]. }
  change (Datatypes.id u) with u. rewrite Hpub. destruct (cache_managed x w); cbn [prefix]; now rewrite app_nil_r.
Qed.

(** [ensureActive] where another session owns the uuid. *)
Lemma ensureActive_foreign fuel w k uuid item s :
  cache w = Some k -> regs k !! uuid = Some item ->
  primary item = None -> owned item = false ->
  storage k !! owner_key uuid = Some s -> truthy (Some s) = true -> s <> sessionId k ->
  no_deferral k uuid ->
  call (S fuel) (CCacheEnsureActive uuid None) w = Ok RVoid w [].
Proof.
  intros Hk Hr Hp Ho Hs Ht Hne Hpre. rewrite call_S. unfold dispatch, cache_ensureActive.
  cbv zeta. cbn [default].
  rewrite (bind_get_reg _ _ _ _ Hk), Hr, Hp. repeat cstep.
  rewrite Hr, Hp, Ho.
  destruct (bool_decide (0 < length (users item)) && bool_decide (None = None)
            && negb (deferred item)); [|reflexivity].
  repeat cstep. rewrite Hpre, Hs, Ht. cbn [negb]. repeat cstep.
  rewrite Hs. rewrite bool_decide_false by congruence. reflexivity.
Qed.

Lemma use_restores_adopting fuel w c x k u text p :
  cells w !! c = Some x -> _users x = 0 -> _ready x = false ->
  _triggering x = None -> observed x = true -> _thens x = [] -> plain_hooks x = true ->
  _uuid x = Some u -> cache_managed x w = true -> cache w = Some k ->
  regs k !! u = None -> storage k !! value_key u = Some text ->
  _parse x = Some p -> accepts x (p text) = true ->
  truthy (storage k !! owner_key u) = false -> sessionId k <> ""%string ->
  no_deferral k u ->
  call (7 + fuel) (CUse c) w =
  Ok (RThis c)
    (put c (restored (p text) x)
       (set_cache (Some
          (set_regs (<[u := mkReg true false [] (Some c) (_stringify x) (_parse x)]> (regs k))
             (set_storage (<[owner_key u := sessionId k]> (storage k)) k))) w))
    (calls [] (symbolValues (_notifies x)) ++
     calls [p text] (symbolValues (_subscribers x)) ++ init_calls x).
Proof.
  intros Hc Hu Hy Ht Ho Hth Hh Hid Hm Hk Hr Hs Hp Hv Hown Hsid Hd.
  destruct (accepts_inv _ _ Hv) as [Hv1 Hv2].
  change (7 + fuel) with (S (S (5 + fuel))).
  rewrite call_S. unfold dispatch, use. repeat mstep. rewrite Hu, Hid, Hm, Hp. cbn [Nat.eqb].
  set (k1 := set_regs (<[u := mkReg false false [c] None (_stringify x) (Some p)]> (regs k)) k).
  set (x1 := set_value (p text) (set_ready true x)).
  assert (Hinit : call (S (5 + fuel)) (CCacheInitialise u c (_stringify x) (Some p)) w =
    Ok RVoid
      (put c x1
         (set_cache (Some
            (set_regs (<[u := mkReg true false [] (Some c) (_stringify x) (Some p)]> (regs k))
               (set_storage (<[owner_key u := sessionId k]> (storage k)) k))) w))
      (calls [] (symbolValues (_notifies x)) ++
       calls [p text] (symbolValues (_subscribers x)) ++ init_calls x)).
  { rewrite call_S. unfold dispatch, cache_initialise.
    repeat cstep. rewrite Hr. repeat cstep.
    cbn [storage set_regs]. rewrite Hs.
    fold k1.
    erewrite bind_Ok.
    2:{ change (5 + fuel) with (S (4 + fuel)).
        etransitivity;
          [ apply (changed_differs _ (set_cache (Some k1) w) c x _ Hc Hv1 Hv2); now left |].
        eapply (trigger_not_owner fuel _ c x _ k1 u); try eassumption; try reflexivity.
        cbn [storage k1 set_regs sessionId]. intros E. rewrite E in Hown.
        unfold truthy in Hown. destruct (sessionId k); [now elim Hsid | discriminate]. }
    fold x1. change (5 + fuel) with (S (S (3 + fuel))).
    erewrite ensureActive_adopts;
      [ | reflexivity | apply lookup_insert_eq | reflexivity | reflexivity
        | reflexivity | reflexivity | exact Hd | exact Hown ].
    change (3 + fuel) with (S (2 + fuel)).
    erewrite initialise_plain; [ | lookup_cell | exact Hh ].
    cbn [prefix users removelast set_reg_users set_primary set_owned regs set_regs k1
      storage set_storage sessionId deferParentPrefix owned deferred primary stringify parse].
    rewrite insert_insert_eq. rewrite <- app_assoc. reflexivity. }
  rewrite (bind_Ok _ _ _ _ _ _ Hinit). repeat mstep. rewrite put_put.
  unfold ret. cbn [prefix]. rewrite app_nil_r.
  change (_users x1) with (_users x). rewrite Hu. reflexivity.
Qed.

Lemma use_restores_passive fuel w c x k u text p s :
  cells w !! c = Some x -> _users x = 0 -> _ready x = false ->
  _triggering x = None -> observed x = true -> _thens x = [] ->
  _uuid x = Some u -> cache_managed x w = true -> cache w = Some k ->
  regs k !! u = None -> storage k !! value_key u = Some text ->
  _parse x = Some p -> accepts x (p text) = true ->
  storage k !! owner_key u = Some s -> truthy (Some s) = true -> s <> sessionId k ->
  no_deferral k u ->
  call (7 + fuel) (CUse c) w =
  Ok (RThis c)
    (put c (restored (p text) x)
       (set_cache (Some
          (set_regs (<[u := mkReg false false [c] None (_stringify x) (_parse x)]> (regs k)) k))
          w))
    (calls [] (symbolValues (_notifies x)) ++ calls [p text] (symbolValues (_subscribers x))).
Proof.
  intros Hc Hu Hy Ht Ho Hth Hid Hm Hk Hr Hs Hp Hv Hown Hts Hne Hd.
  destruct (accepts_inv _ _ Hv) as [Hv1 Hv2].
  change (7 + fuel) with (S (S (5 + fuel))).
  rewrite call_S. unfold dispatch, use. repeat mstep. rewrite Hu, Hid, Hm, Hp. cbn [Nat.eqb].
  set (k1 := set_regs (<[u := mkReg false false [c] None (_stringify x) (Some p)]> (regs k)) k).
  set (x1 := set_value (p text) (set_ready true x)).
  assert (Hinit : call (S (5 + fuel)) (CCacheInitialise u c (_stringify x) (Some p)) w =
    Ok RVoid (put c x1 (set_cache (Some k1) w))
      (calls [] (symbolValues (_notifies x)) ++ calls [p text] (symbolValues (_subscribers x)))).
  { rewrite call_S. unfold dispatch, cache_initialise.
    repeat cstep. rewrite Hr. repeat cstep.
    cbn [storage set_regs]. rewrite Hs.
    fold k1.
    erewrite bind_Ok.
    2:{ change (5 + fuel) with (S (4 + fuel)).
        etransitivity;
          [ apply (changed_differs _ (set_cache (Some k1) w) c x _ Hc Hv1 Hv2); now left |].
        eapply (trigger_not_owner fuel _ c x _ k1 u); try eassumption; try reflexivity.
        cbn [storage k1 set_regs sessionId]. rewrite Hown. congruence. }
    fold x1. change (5 + fuel) with (S (4 + fuel)).
    erewrite ensureActive_foreign;
      [ | reflexivity | apply lookup_insert_eq | reflexivity | reflexivity
        | exact Hown | exact Hts | exact Hne | exact Hd ].
    cbn [prefix]. now rewrite app_nil_r. }
  rewrite (bind_Ok _ _ _ _ _ _ Hinit). repeat mstep. rewrite put_put.
  unfold ret. cbn [prefix]. rewrite app_nil_r.
  change (_users x1) with (_users x). rewrite Hu. reflexivity.
Qed.

Lemma equivalent_refl' v : equivalent v v = true.
Proof. unfold equivalent. now apply bool_decide_eq_true. Qed.

Lemma shows_adopt v x : shows v (adopt v x) = true.
Proof.
  unfold adopt. destruct (shows v x) eqn:E; [exact E|].
  unfold shows. cbn. apply equivalent_refl'.
Qed.

Lemma adopt_shows v x : shows v x = true -> adopt v x = x.
Proof. unfold adopt. now intros ->. Qed.

Lemma adopt_adopt v x : adopt v (adopt v x) = adopt v x.
Proof. apply adopt_shows, shows_adopt. Qed.

Lemma mirrors_adopt u v x : mirrors u v x -> mirrors u v (adopt v x).
Proof. unfold adopt. destruct (shows v x); [tauto|]. intros H. exact H. Qed.

Lemma lookup_sync_cells v us m c :
  sync_cells v us m !! c = (fun x => if bool_decide (c ∈ us) then adopt v x else x) <$> m !! c.
Proof.
  unfold sync_cells. rewrite map_lookup_imap. now destruct (m !! c).
Qed.

Lemma sync_cells_insert v us m c x :
  c ∈ us -> m !! c = Some x ->
  sync_cells v us (<[c := adopt v x]> m) = sync_cells v us m.
Proof.
  intros Hin Hc. apply map_eq. intros i. rewrite !lookup_sync_cells.
  destruct (decide (i = c)) as [->|Hne].
  - rewrite lookup_insert_eq, Hc. cbn. rewrite bool_decide_true by done.
    now rewrite adopt_adopt.
  - now rewrite lookup_insert_ne by congruence.
Qed.

Lemma sync_cells_id v us m :
  (forall c x, c ∈ us -> m !! c = Some x -> shows v x = true) ->
  sync_cells v us m = m.
Proof.
  intros H. apply map_eq. intros i. rewrite lookup_sync_cells.
  destruct (m !! i) as [x|] eqn:E; [|reflexivity]. cbn.
  destruct (bool_decide (i ∈ us)) eqn:Hin; [|reflexivity].
  apply bool_decide_eq_true in Hin. now rewrite (adopt_shows v x (H i x Hin E)).
Qed.

Lemma synced_shows v us w c x :
  c ∈ us -> cells (synced v us w) !! c = Some x -> shows v x = true.
Proof.
  intros Hin. unfold synced. cbn [cells set_cells]. rewrite lookup_sync_cells.
  destruct (cells w !! c) as [y|]; [|discriminate]. cbn.
  rewrite bool_decide_true by done. intros [= <-]. apply shows_adopt.
Qed.

Lemma store_same k key text w :
  cache w = Some k -> storage k !! key = Some text ->
  set_cache (Some (set_storage (<[key := text]> (storage k)) k)) w = w.
Proof.
  intros Hk Hs. rewrite (insert_id _ _ _ Hs).
  destruct w, k; cbn in *. now subst.
Qed.

Lemma mirrors_managed u v x w k :
  mirrors u v x -> truthy (Some u) = true -> cache w = Some k -> cache_managed x w = true.
Proof.
  intros (_ & _ & _ & Hu & Hn & _) Ht Hk. unfold cache_managed.
  rewrite Hu, Ht, Hn, Hk. reflexivity.
Qed.

Lemma mirrors_drains u v x w : mirrors u v x -> drains x w.
Proof.
  intros (_ & _ & Hth & _). split; rewrite Hth; [cbn; lia | intros _ H; now elim H].
Qed.

(** [changed v] on cells that all show [v] does nothing. *)
Lemma sync_fresh fuel v l w :
  (forall c, c ∈ l -> exists x, cells w !! c = Some x /\ accepts x v = true /\ shows v x = true) ->
  forEach l (fun s => call (S fuel) (CChanged s v)) w = Ok RVoid w [].
Proof.
  induction l as [|c l IH]; intros H; [reflexivity|].
  cbn [forEach]. destruct (H c) as (x & Hc & Ha & Hs); [left|].
  destruct (accepts_inv _ _ Ha) as [Hv Hn].
  apply andb_prop in Hs as [Hr He].
  unfold bind. rewrite (changed_equal fuel w c x v Hc Hv Hn Hr He).
  rewrite IH; [reflexivity|]. intros c' Hc'. apply H. now right.
Qed.

(** One stale mirror: its observers are told, then the cache goes through
    all the users again. *)
Lemma sync_step fuel u v f us w c x :
  publishing u v f us w -> cells w !! c = Some x -> mirrors u v x ->
  shows v x = false ->
  call (S (S (S (S fuel)))) (CChanged c v) w =
  prefix (told v x)
    (forEach us (fun s => call (S fuel) (CChanged s v)) (put c (adopt v x) w)).
Proof.
  intros (k & item & Hk & Hr & Hus & Hf & Ht & Ho & Hs & Hall) Hc Hm Hsh.
  pose proof (mirrors_managed _ _ _ _ _ Hm Ht Hk) as Hcm.
  pose proof (mirrors_drains _ _ _ w Hm) as Hd.
  destruct Hm as (Htr & Hob & Hth & Hu & Hnc & Ha).
  destruct (accepts_inv _ _ Ha) as [Hv Hn].
  rewrite (changed_differs _ w c x v Hc Hv Hn).
  2:{ unfold shows in Hsh. apply andb_false_iff in Hsh. exact Hsh. }
  rewrite (trigger_passive fuel w c x v Hc Htr Hv Hn Hob Hd).
  rewrite Hcm, Hu. cbn [default]. change (Datatypes.id u) with u.
  rewrite (triggered_at_rest v x Hth), Hth. cbn [calls map]. rewrite app_nil_r.
  unfold told, adopt. rewrite Hsh. f_equal.
  rewrite (cache_changed_owner (S fuel) _ k u item f v); try assumption.
  rewrite Hus. f_equal. now apply store_same.
Qed.

Lemma publishing_put u v f us w c x :
  publishing u v f us w -> cells w !! c = Some x -> mirrors u v x ->
  publishing u v f us (put c (adopt v x) w).
Proof.
  intros (k & item & Hk & Hr & Hus & Hf & Ht & Ho & Hs & Hall) Hc Hm.
  exists k, item. repeat (split; [assumption|]).
  intros c' Hin. cbn [cells put set_cells].
  destruct (decide (c' = c)) as [->|Hne].
  - rewrite lookup_insert_eq. eexists. split; [reflexivity|]. now apply mirrors_adopt.
  - rewrite lookup_insert_ne by congruence. now apply Hall.
Qed.

Lemma stale_put_eq v w c x : stale v (put c (adopt v x) w) c = false.
Proof.
  unfold stale. cbn [cells put set_cells]. rewrite lookup_insert_eq.
  now rewrite shows_adopt.
Qed.

Lemma stale_put_ne v w c c' x : c' <> c -> stale v (put c x w) c' = stale v w c'.
Proof.
  intros H. unfold stale. cbn [cells put set_cells].
  now rewrite lookup_insert_ne by congruence.
Qed.

(** The first stale user, if there is one. *)
Lemma first_stale (P : CellId -> bool) l :
  List.filter P l <> [] ->
  exists l1 c l2, l = l1 ++ c :: l2 /\ List.filter P l1 = [] /\ P c = true.
Proof.
  induction l as [|a l IH]; [now intros H|]. cbn [List.filter].
  destruct (P a) eqn:E.
  - intros _. now exists [], a, l.
  - intros H. destruct (IH H) as (l1 & c & l2 & -> & H1 & H2).
    exists (a :: l1), c, l2. cbn [List.filter]. now rewrite E.
Qed.

Lemma filter_nil_inv (P : CellId -> bool) l c :
  List.filter P l = [] -> c ∈ l -> P c = false.
Proof.
  induction l as [|a l IH]; [now intros _ ?%elem_of_nil|]. cbn [List.filter].
  destruct (P a) eqn:E; [discriminate|].
  intros H [->|Hin]%elem_of_cons; [exact E | now apply IH].
Qed.

Lemma filter_same (P Q : CellId -> bool) l :
  (forall c, c ∈ l -> P c = Q c) -> List.filter P l = List.filter Q l.
Proof.
  intros H. apply filter_ext_in. intros a Ha. apply H. now apply list_elem_of_In.
Qed.

Lemma all_told_app v l1 l2 w : all_told v (l1 ++ l2) w = all_told v l1 w ++ all_told v l2 w.
Proof. unfold all_told. apply flat_map_app. Qed.

Lemma all_told_same v l w w' :
  (forall c, c ∈ l -> cells w' !! c = cells w !! c) -> all_told v l w' = all_told v l w.
Proof.
  intros H. unfold all_told. induction l as [|a l IH]; [reflexivity|]. cbn [flat_map]. rewrite (H a) by left. f_equal. apply IH. intros c Hc. apply H. now right.
Qed.

Lemma all_told_fresh v l w :
  List.filter (stale v w) l = [] -> all_told v l w = [].
Proof.
  intros H. unfold all_told. induction l as [|a l IH]; [reflexivity|].
  cbn [flat_map]. cbn [List.filter] in H.
  destruct (stale v w a) eqn:E; [discriminate|]. rewrite (IH H), app_nil_r.
  unfold stale in E. destruct (cells w !! a) as [x|]; [|reflexivity]. cbn.
  unfold told. apply negb_false_iff in E. now rewrite E.
Qed.

Lemma publishing_fresh u v f us w l :
  publishing u v f us w -> (forall c, c ∈ l -> c ∈ us) ->
  List.filter (stale v w) l = [] ->
  forall c, c ∈ l -> exists x, cells w !! c = Some x /\ accepts x v = true /\ shows v x = true.
Proof.
  intros (k & item & _ & _ & _ & _ & _ & _ & _ & Hall) Hsub Hf c Hc.
  destruct (Hall c (Hsub c Hc)) as (x & Hx & Hm). exists x. split; [exact Hx|].
  split; [apply Hm|]. pose proof (filter_nil_inv _ _ _ Hf Hc) as E.
  unfold stale in E. rewrite Hx in E. now apply negb_false_iff in E.
Qed.

Lemma set_cells_same w : set_cells (cells w) w = w.
Proof. now destruct w. Qed.

(** Going through the users reaches every stale one, once. *)
Lemma sync_users fuel u v f us n : forall w,
  publishing u v f us w -> NoDup us ->
  length (List.filter (stale v w) us) = n ->
  forEach us (fun s => call (3 * n + 1 + fuel) (CChanged s v)) w =
  Ok RVoid (synced v us w) (all_told v us w).
Proof.
  induction n as [|n IH]; intros w Hp Hnd Hn.
  - apply length_zero_iff_nil in Hn.
    change (3 * 0 + 1 + fuel) with (S fuel).
    rewrite sync_fresh by (eapply publishing_fresh; eauto).
    rewrite (all_told_fresh _ _ _ Hn). f_equal.
    unfold synced. rewrite sync_cells_id; [now rewrite set_cells_same|].
    intros c x Hc Hx. pose proof (filter_nil_inv _ _ _ Hn Hc) as E.
    unfold stale in E. rewrite Hx in E. now apply negb_false_iff in E.
  - destruct (first_stale (stale v w) us) as (l1 & c & l2 & Hus & Hl1 & Hst).
    { intros E. now rewrite E in Hn. }
    assert (Hcin : c ∈ us) by (rewrite Hus; apply elem_of_app; right; left).
    assert (Hsub1 : forall a, a ∈ l1 -> a ∈ us)
      by (intros a Ha; rewrite Hus; apply elem_of_app; now left).
    assert (Hsub2 : forall a, a ∈ l2 -> a ∈ us)
      by (intros a Ha; rewrite Hus; apply elem_of_app; right; now right).
    pose proof Hp as (k & item & _ & _ & _ & _ & _ & _ & _ & Hall).
    destruct (Hall c Hcin) as (x & Hx & Hm).
    assert (Hsh : shows v x = false).
    { unfold stale in Hst. rewrite Hx in Hst. now apply negb_true_iff in Hst. }
    assert (Hnd' : (c ∉ l1) /\ (c ∉ l2) /\ NoDup l1 /\ NoDup l2).
    { rewrite Hus in Hnd. apply NoDup_app in Hnd as (H1 & H2 & H3).
      apply NoDup_cons in H3 as [H3 H4]. repeat split; try assumption.
      intros Hc. apply (H2 c Hc). now left. }
    destruct Hnd' as (Hc1 & Hc2 & _ & _).
    set (w1 := put c (adopt v x) w).
    assert (Hp1 : publishing u v f us w1) by now apply publishing_put.
    assert (Hn1 : length (List.filter (stale v w1) us) = n).
    { rewrite Hus in Hn |- *. rewrite !List.filter_app, !length_app in *.
      cbn [List.filter] in *. rewrite Hst in Hn. unfold w1.
      rewrite stale_put_eq.
      rewrite (filter_same (stale v (put c (adopt v x) w)) (stale v w) l1)
        by (intros a Ha; apply stale_put_ne; intros ->; contradiction).
      rewrite (filter_same (stale v (put c (adopt v x) w)) (stale v w) l2)
        by (intros a Ha; apply stale_put_ne; intros ->; contradiction).
      cbn [length] in Hn. lia. }
    specialize (IH w1 Hp1 Hnd Hn1).
    rewrite Hus at 1. rewrite forEach_app. unfold bind at 1.
    replace (3 * S n + 1 + fuel) with (S (S (S (S (3 * n + fuel))))) by lia.
    rewrite sync_fresh.
    2:{ eapply publishing_fresh; eauto. }
    rewrite prefix_nil. cbn [forEach]. unfold bind at 1.
    rewrite (sync_step _ u v f us w c x Hp Hx Hm Hsh).
    replace (S (3 * n + fuel)) with (3 * n + 1 + fuel) by lia.
    fold w1. rewrite IH. cbn [prefix].
    rewrite sync_fresh.
    2:{ intros a Ha. pose proof (Hsub2 a Ha) as Ha'.
        pose proof Hp1 as (k1 & item1 & _ & _ & _ & _ & _ & _ & _ & Hall1).
        destruct (Hall1 a Ha') as (y & Hy & Hmy).
        exists (adopt v y). split.
        - unfold synced. cbn [cells set_cells]. rewrite lookup_sync_cells, Hy. cbn.
          now rewrite bool_decide_true.
        - split; [apply (mirrors_adopt _ _ _ Hmy) | apply shows_adopt]. }
    cbn [prefix]. rewrite !app_nil_r. f_equal.
    + unfold synced, w1. cbn [cells put set_cells].
      rewrite (sync_cells_insert v us (cells w) c x Hcin Hx).
      now destruct w.
    + rewrite Hus. rewrite !all_told_app.
      change (c :: l2) with ([c] ++ l2). rewrite !all_told_app.
      rewrite (all_told_same v l1 w w1)
        by (intros a Ha; unfold w1; cbn [cells put set_cells];
            apply lookup_insert_ne; intros ->; contradiction).
      rewrite (all_told_same v l2 w w1)
        by (intros a Ha; unfold w1; cbn [cells put set_cells];
            apply lookup_insert_ne; intros ->; contradiction).
      rewrite (all_told_fresh v l1 w Hl1). cbn [app].
      unfold all_told at 1 3. cbn [flat_map]. rewrite Hx. unfold w1.
      cbn [cells put set_cells]. rewrite lookup_insert_eq. cbn [from_option].
      rewrite !app_nil_r. unfold told at 2. rewrite shows_adopt. reflexivity.
Qed.

Lemma prefix_cons a s1 b s2 :
  String.prefix (String a s1) (String b s2) = true -> a = b /\ String.prefix s1 s2 = true.
Proof.
  change (String.prefix (String a s1) (String b s2))
    with (if ascii_dec a b then String.prefix s1 s2 else false).
  destruct (ascii_dec a b); [auto | discriminate].
Qed.

Lemma prefix_Spooks key :
  String.prefix "$_Spooks" key = true -> String.get 7 key = Some "s"%char.
Proof.
  intros H.
  do 8 (destruct key as [|? key]; [discriminate H|];
        apply prefix_cons in H as [<- H]).
  reflexivity.
Qed.

Lemma sync_cells_cons v c l m x :
  m !! c = Some x ->
  sync_cells v l (<[c := adopt v x]> m) = sync_cells v (c :: l) m.
Proof.
  intros Hc. apply map_eq. intros i. rewrite !lookup_sync_cells.
  destruct (decide (i = c)) as [->|Hne].
  - rewrite lookup_insert_eq, Hc. cbn.
    rewrite (bool_decide_true (c ∈ c :: l)) by left.
    destruct (bool_decide (c ∈ l)); [now rewrite adopt_adopt | reflexivity].
  - rewrite lookup_insert_ne by congruence.
    destruct (m !! i); cbn; [|reflexivity].
    f_equal. destruct (decide (i ∈ l)).
    + rewrite !bool_decide_true; [reflexivity | now right | assumption].
    + rewrite !bool_decide_false; [reflexivity | | assumption].
      intros [?|?]%elem_of_cons; contradiction.
Qed.

(** A stale mirror of an identity owned elsewhere: [changed v] tells its
    observers and writes nothing. *)
Lemma mirror_step fuel u v w c x :
  following u w -> cells w !! c = Some x -> mirrors u v x ->
  call (4 + fuel) (CChanged c v) w = Ok RVoid (put c (adopt v x) w) (told v x).
Proof.
  intros (k & Hk & Ht & Ho) Hc Hm.
  pose proof (mirrors_managed _ _ _ _ _ Hm Ht Hk) as Hcm.
  pose proof (mirrors_drains _ _ _ w Hm) as Hd.
  destruct Hm as (Htr & Hob & Hth & Hu & Hnc & Ha).
  destruct (accepts_inv _ _ Ha) as [Hv Hn].
  unfold adopt, told. destruct (shows v x) eqn:Hsh.
  - apply andb_prop in Hsh as [Hr He].
    change (4 + fuel) with (S (3 + fuel)).
    rewrite (changed_equal _ w c x v Hc Hv Hn Hr He). f_equal.
    unfold put. rewrite (insert_id _ _ _ Hc). now destruct w.
  - change (4 + fuel) with (S (S (S (S fuel)))).
    rewrite (changed_differs _ w c x v Hc Hv Hn).
    2:{ unfold shows in Hsh. apply andb_false_iff in Hsh. exact Hsh. }
    rewrite (trigger_passive fuel w c x v Hc Htr Hv Hn Hob Hd).
    rewrite Hcm, Hu. cbn [default]. change (Datatypes.id u) with u.
    rewrite (triggered_at_rest v x Hth), Hth. cbn [calls map]. rewrite app_nil_r.
    rewrite (cache_changed_other _ _ k u v); [|exact Hk|now right].
    cbn [prefix]. now rewrite app_nil_r.
Qed.

(** Each user of an identity owned elsewhere adopts [v], once. *)
Lemma mirror_users fuel u v l : forall w,
  following u w -> NoDup l ->
  (forall c, c ∈ l -> exists x, cells w !! c = Some x /\ mirrors u v x) ->
  forEach l (fun s => call (4 + fuel) (CChanged s v)) w =
  Ok RVoid (synced v l w) (all_told v l w).
Proof.
  induction l as [|c l IH]; intros w Hf Hnd Hall.
  - cbn. f_equal. unfold synced. rewrite sync_cells_id; [now destruct w|].
    intros c x H. now apply elem_of_nil in H.
  - apply NoDup_cons in Hnd as [Hc Hnd].
    destruct (Hall c) as (x & Hx & Hm); [left|].
    cbn [forEach]. unfold bind. rewrite (mirror_step fuel u v w c x Hf Hx Hm).
    rewrite IH; [| exact Hf | exact Hnd |].
    + cbn [prefix]. f_equal.
      * unfold synced. cbn [cells put set_cells]. now rewrite (sync_cells_cons v c l _ x Hx).
      * unfold all_told at 2. cbn [flat_map]. rewrite Hx. cbn [from_option]. f_equal.
        apply all_told_same. intros a Ha. cbn [cells put set_cells].
        apply lookup_insert_ne. intros ->. contradiction.
    + intros a Ha. cbn [cells put set_cells].
      rewrite lookup_insert_ne by (intros ->; contradiction).
      apply Hall. now right.
Qed.

(** What the receiver reads from the message that [prepUpdate] built. *)
Lemma reconstruct_prepUpdate u s y v w :
  _ready s = true -> _value s = v ->
  (is_object v = true -> forall f, _stringify s = Some f ->
     f v <> ""%string /\ exists p, _parse y = Some p /\ p (f v) = v) ->
  reconstruct (prepUpdate u s) y w = Ok v w [].
Proof.
  intros Hr Hv Hobj. unfold prepUpdate. rewrite Hr, Hv.
  destruct (is_object v) eqn:E; [|reflexivity].
  destruct (_stringify s) as [f|] eqn:Hf; [|reflexivity].
  destruct (Hobj eq_refl f eq_refl) as (Hne & p & Hp & Hpf).
  unfold reconstruct. cbn [up_valueString].
  assert (truthy (Some (f v)) = true) as -> by (destruct (f v); [now elim Hne | reflexivity]).
  now rewrite Hp, Hpf.
Qed.

Lemma alter_reg (f : Reg -> Reg) u item (m : gmap string Reg) :
  m !! u = Some item -> alter f u m = <[u := f item]> m.
Proof.
  intros H. apply map_eq. intros i. destruct (decide (i = u)) as [->|Hne].
  - now rewrite lookup_alter_eq, lookup_insert_eq, H.
  - now rewrite lookup_alter_ne, lookup_insert_ne by congruence.
Qed.

(** [SpookCache.initialise] of a cell that is not the primary of a
    registration whose primary is ready. *)
Lemma cache_initialise_join fuel w c k u item p xp s pr :
  cache w = Some k -> regs k !! u = Some item -> primary item = Some p -> p <> c ->
  cells w !! p = Some xp -> _ready xp = true ->
  call (S fuel) (CCacheInitialise u c s pr) w =
  call fuel (CChanged c (_value xp))
    (set_cache (Some (set_regs (<[u := joined c item]> (regs k)) k)) w).
Proof.
  intros Hk Hr Hp Hne Hxp Hrp. rewrite call_S. unfold dispatch, cache_initialise.
  repeat cstep. rewrite Hr, Hp.
  rewrite bool_decide_false by congruence.
  rewrite (bool_decide_false (Some p = None)) by discriminate. cbn [andb].
  unfold update_reg. repeat cstep. cbn [default].
  rewrite (alter_reg _ _ _ _ Hr).
  rewrite Hrp. reflexivity.
Qed.

(** [SpookCache.finalise] of a user that is not the primary. *)
Lemma cache_finalise_user fuel w c k u item p :
  cache w = Some k -> regs k !! u = Some item -> primary item = Some p -> p <> c ->
  deferred item = false ->
  call (S fuel) (CCacheFinalise u c) w =
  Ok RVoid
    (set_cache (Some (set_regs
       (<[u := set_reg_users (List.filter (fun b => negb (Nat.eqb b c)) (users item)) item]>
          (regs k)) k)) w) [].
Proof.
  intros Hk Hr Hp Hne Hd. rewrite call_S. unfold dispatch, cache_finalise.
  repeat cstep. rewrite Hr, Hp. rewrite bool_decide_false by congruence.
  unfold update_reg. repeat cstep. cbn [regs set_regs].
  rewrite (alter_reg _ _ _ _ Hr), lookup_insert_eq.
  cbn [deferred set_reg_users primary]. rewrite Hd, andb_false_r.
  repeat cstep. cbn [regs set_regs]. rewrite lookup_insert_eq.
  cbn [deferred set_reg_users primary]. rewrite Hp.
  rewrite (bool_decide_false (Some p = None)) by discriminate. reflexivity.
Qed.

Lemma filter_joined (c : CellId) (l : list CellId) :
  c ∉ l -> List.filter (fun b => negb (Nat.eqb b c)) (l ++ [c]) = l.
Proof.
  intros H. rewrite List.filter_app. cbn. rewrite Nat.eqb_refl. cbn. rewrite app_nil_r.
  induction l as [|a l IH]; [reflexivity|]. cbn.
  apply not_elem_of_cons in H as [H1 H2].
  destruct (Nat.eqb_spec a c); [congruence|]. cbn. now rewrite IH.
Qed.

Lemma shows_unready v x : _ready x = false -> shows v x = false.
Proof. unfold shows. now intros ->. Qed.

(** A stale mirror in the instance that owns the identity, all the
    registered users showing the value already: the text is stored. *)
Lemma owner_step fuel u v w c x k item f :
  cache w = Some k -> truthy (Some u) = true -> regs k !! u = Some item ->
  storage k !! owner_key u = Some (sessionId k) -> stringify item = Some f ->
  cells w !! c = Some x -> mirrors u v x -> shows v x = false ->
  (forall c', c' ∈ users item -> c' <> c ->
     exists y, cells w !! c' = Some y /\ accepts y v = true /\ shows v y = true) ->
  call (4 + fuel) (CChanged c v) w =
  Ok RVoid (stored u (f v) k (put c (adopt v x) w)) (told v x).
Proof.
  intros Hk Ht Hr Ho Hf Hc Hm Hsh Hall.
  pose proof (mirrors_managed _ _ _ _ _ Hm Ht Hk) as Hcm.
  pose proof (mirrors_drains _ _ _ w Hm) as Hd.
  pose proof (mirrors_adopt _ _ _ Hm) as Hm'.
  destruct Hm as (Htr & Hob & Hth & Hu & Hnc & Ha).
  destruct (accepts_inv _ _ Ha) as [Hv Hn].
  change (4 + fuel) with (S (S (S (S fuel)))).
  rewrite (changed_differs _ w c x v Hc Hv Hn).
  2:{ unfold shows in Hsh. apply andb_false_iff in Hsh. exact Hsh. }
  rewrite (trigger_passive fuel w c x v Hc Htr Hv Hn Hob Hd).
  rewrite Hcm, Hu. cbn [default]. change (Datatypes.id u) with u.
  rewrite (triggered_at_rest v x Hth), Hth. cbn [calls map]. rewrite app_nil_r.
  rewrite (cache_changed_owner (S fuel) _ k u item f v); try assumption.
  unfold told, adopt. rewrite Hsh.
  rewrite sync_fresh; [cbn [prefix]; now rewrite app_nil_r|].
  intros c' Hin. cbn [cells set_cache put set_cells].
  destruct (decide (c' = c)) as [->|Hne].
  - rewrite lookup_insert_eq. eexists. split; [reflexivity|]. split; [exact Ha|].
    unfold shows. cbn. apply equivalent_refl'.
  - rewrite lookup_insert_ne by congruence. now apply Hall.
Qed.

Lemma set_regs_same k : set_regs (regs k) k = k.
Proof. now destruct k. Qed.

Lemma set_cache_same k w : cache w = Some k -> set_cache (Some k) w = w.
Proof. intros H. destruct w. cbn in *. now subst. Qed.

Lemma unjoin (c : CellId) item :
  c ∉ users item ->
  set_reg_users (List.filter (fun b => negb (Nat.eqb b c)) (users (joined c item)))
    (joined c item) = item.
Proof.
  intros H. unfold joined. cbn [users set_reg_users]. rewrite (filter_joined c _ H).
  now destruct item.
Qed.

(** [use] of an unused cell whose identity has a ready primary, given what
    [changed] to the value of the primary does. *)
Lemma use_joins fuel w c x k u item p xp x' st tr :
  cells w !! c = Some x -> _users x = 0 -> _uuid x = Some u ->
  cache_managed x w = true -> cache w = Some k -> regs k !! u = Some item ->
  primary item = Some p -> p <> c -> cells w !! p = Some xp -> _ready xp = true ->
  _users x' = 0 ->
  call (4 + fuel) (CChanged c (_value xp))
    (set_cache (Some (set_regs (<[u := joined c item]> (regs k)) k)) w) =
  Ok RVoid
    (put c x' (set_cache (Some (set_storage st (set_regs (<[u := joined c item]> (regs k)) k))) w))
    tr ->
  call (6 + fuel) (CUse c) w =
  Ok (RThis c)
    (put c (set_users 1 x')
       (set_cache (Some (set_storage st (set_regs (<[u := joined c item]> (regs k)) k))) w))
    tr.
Proof.
  intros Hc Hu Hid Hm Hk Hr Hp Hne Hxp Hrp Hu' Hch.
  change (6 + fuel) with (S (S (4 + fuel))).
  rewrite call_S. unfold dispatch, use. repeat mstep. rewrite Hu, Hid, Hm. cbn [Nat.eqb].
  rewrite <- (cache_initialise_join _ w c k u item p xp (_stringify x) (_parse x)
                Hk Hr Hp Hne Hxp Hrp) in Hch.
  rewrite (bind_Ok _ _ _ _ _ _ Hch). repeat mstep. rewrite put_put, Hu'.
  unfold ret. cbn [prefix]. now rewrite app_nil_r.
Qed.

(** [drop] by the only user of a cell that is a user of its identity. *)
Lemma drop_leaves fuel w c x k u item p :
  cells w !! c = Some x -> _users x = 1 -> _uuid x = Some u ->
  cache_managed x w = true -> cache w = Some k -> regs k !! u = Some item ->
  primary item = Some p -> p <> c -> deferred item = false ->
  call (2 + fuel) (CDrop c) w =
  Ok RVoid
    (set_cache (Some (set_regs
       (<[u := set_reg_users (List.filter (fun b => negb (Nat.eqb b c)) (users item)) item]>
          (regs k)) k))
       (put c (set_users 0 x) w)) [].
Proof.
  intros Hc Hu Hid Hm Hk Hr Hp Hne Hd.
  change (2 + fuel) with (S (S fuel)).
  rewrite call_S. unfold dispatch, drop. repeat mstep. rewrite Hu. cbn [Nat.eqb Nat.pred].
  repeat mstep. cbn [_users set_users Nat.eqb _uuid]. rewrite Hid, Hu.
  cbn [Nat.pred Nat.eqb].
  change (cache_managed (set_users 0 x) (put c (set_users 0 x) w)) with (cache_managed x w).
  rewrite Hm.
  now rewrite (cache_finalise_user _ _ c k u item p).
Qed.

Lemma set_storage_same k : set_storage (storage k) k = k.
Proof. now destruct k. Qed.

(** The use and the drop that follows it, given what the use does. *)
Lemma join_then_leave fuel w c x k u item p x' st tr :
  cells w !! c = Some x -> _uuid x' = Some u -> _noCache x' = false ->
  truthy (Some u) = true -> _users x' = 0 ->
  cache w = Some k -> regs k !! u = Some item ->
  primary item = Some p -> p <> c -> deferred item = false -> c ∉ users item ->
  call (6 + fuel) (CUse c) w =
  Ok (RThis c)
    (put c (set_users 1 x')
       (set_cache (Some (set_storage st (set_regs (<[u := joined c item]> (regs k)) k))) w))
    tr ->
  run (6 + fuel) [CUse c; CDrop c] w =
  Ok RVoid (put c x' (set_cache (Some (set_storage st k)) w)) tr.
Proof.
  intros Hc Hid Hnc Ht Hu' Hk Hr Hp Hne Hd Hout Huse.
  rewrite run_cons, (bind_Ok _ _ _ _ _ _ Huse), run_cons.
  change (6 + fuel) with (2 + (4 + fuel)).
  erewrite bind_Ok.
  2:{ eapply (drop_leaves _ _ c (set_users 1 x') _ u (joined c item) p).
      - apply cells_put_eq.
      - reflexivity.
      - exact Hid.
      - unfold cache_managed. cbn. rewrite Hid, Ht, Hnc. reflexivity.
      - reflexivity.
      - cbn. apply lookup_insert_eq.
      - exact Hp.
      - exact Hne.
      - exact Hd. }
  cbn [prefix run forEach]. unfold ret. cbn [prefix]. rewrite !app_nil_r. f_equal.
  rewrite (unjoin c item Hout). cbn [regs set_storage set_regs].
  rewrite insert_insert_eq, (insert_id _ _ _ Hr).
  unfold put, set_cache, set_cells, set_regs, set_storage. cbn.
  rewrite insert_insert_eq. do 2 f_equal.
  - f_equal. now rewrite <- Hu' at 1; destruct x'.
Qed.

Lemma promise_done_run bs b index value w :
  bridges w = bs ++ [b] ->
  promise_done (length bs) index value w =
  Ok RVoid (set_bridges (bs ++ [done_bridge index value b]) w) [].
Proof.
  intros Hb. unfold promise_done, update_bridge. repeat mstep.
  rewrite Hb, alter_last.
  erewrite bind_get_bridge by (cbn [bridges set_bridges]; apply lookup_last).
  unfold done_bridge. cbn [finished resolved pstate].
  destruct (Nat.eqb _ _); [|reflexivity].
  unfold settle, update_bridge. repeat mstep. unfold modify.
  cbn [bridges set_bridges]. rewrite alter_last. cbn [pstate finished resolved].
  unfold set_bridges. cbn. now destruct (pstate b).
Qed.

(** [then] with the [done] closure of a promise, on a ready cell. *)
Lemma then_ready_done fuel w c x bs b index :
  cells w !! c = Some x -> _ready x = true -> settled x w -> bridges w = bs ++ [b] ->
  call (3 + fuel) (CThen c (CbPromiseDone (length bs) index)) w =
  Ok (RThis c) (set_bridges (bs ++ [done_bridge index (_value x) b]) w) [].
Proof.
  intros Hc Hr Hs Hb. change (3 + fuel) with (S (S (S fuel))).
  rewrite call_S. unfold dispatch, then_.
  rewrite (bind_Ok _ _ _ _ _ _ (use_settled fuel w c x Hc Hs)).
  repeat mstep. cbn [_ready _value set_users]. rewrite Hr. unfold invoke.
  repeat mstep.
  assert (Hi : call (S (S fuel)) (CInvoke (CbPromiseDone (length bs) index) [_value x])
                 (put c (set_users (S (_users x)) x) w) =
               Ok RVoid (set_bridges (bs ++ [done_bridge index (_value x) b])
                           (put c (set_users (S (_users x)) x) w)) []).
  { rewrite call_S. unfold dispatch, apply_callback. cbn [nth].
    now apply promise_done_run. }
  rewrite (bind_Ok _ _ _ _ _ _ Hi).
  set (B := bs ++ [done_bridge index (_value x) b]).
  assert (Hd : call (S (S fuel)) (CDrop c)
                 (set_bridges B (put c (set_users (S (_users x)) x) w))
               = Ok RVoid (set_bridges B w) []).
  { assert (Hback : forall n, _users x = n ->
              put c (set_users n (set_users (S n) x))
                (set_bridges B (put c (set_users (S n) x) w)) = set_bridges B w).
    { intros n Hn. change (set_users n (set_users (S n) x)) with (set_users n x).
      rewrite (set_users_same n x Hn). unfold put, set_bridges, set_cells. cbn.
      now rewrite insert_insert_eq, (insert_id _ _ _ Hc). }
    destruct (_users x) as [|n] eqn:Hu.
    - destruct Hs as [Hs|[Hk Hm]]; [lia|].
      erewrite drop_last_inert; [ | apply cells_put_eq | reflexivity | split; assumption ].
      now rewrite (Hback 0).
    - erewrite drop_more; [ | apply cells_put_eq | reflexivity ].
      now rewrite (Hback (S n)). }
  rewrite (bind_Ok _ _ _ _ _ _ Hd). reflexivity.
Qed.

Lemma done_bridge_pending k seen v n :
  k = length seen ->
  done_bridge k v (mkBridge k (seen ++ replicate (S n) VUndefined) Pending) =
  mkBridge (S k) ((seen ++ [v]) ++ replicate n VUndefined)
    (match n with 0 => Fulfilled | _ => Pending end).
Proof.
  intros Hk. unfold done_bridge. cbn [finished resolved pstate].
  assert (Hins : <[k := v]> (seen ++ replicate (S n) VUndefined)
                 = (seen ++ [v]) ++ replicate n VUndefined).
  { rewrite Hk. cbn [replicate]. rewrite insert_app_r_alt by lia.
    rewrite Nat.sub_diag. cbn. now rewrite <- app_assoc. }
  rewrite Hins, !length_app, length_replicate. cbn [length].
  destruct n as [|n].
  - assert (Nat.eqb (S k) (length seen + 1 + 0) = true) as ->
      by (apply Nat.eqb_eq; lia). reflexivity.
  - assert (Nat.eqb (S k) (length seen + 1 + S n) = false) as ->
      by (apply Nat.eqb_neq; lia). reflexivity.
Qed.

(** The loop of [promise] over items that have their values at once. *)
Lemma promise_done_now fuel items : forall vs k seen bs w,
  Forall2 (immediate w) items vs -> k = length seen ->
  bridges w = bs ++ [mkBridge k (seen ++ replicate (length items) VUndefined) Pending] ->
  forEach (imap (fun index item => (k + index, item)) items) (fun entry =>
     match snd entry with
     | ISpook c => call (3 + fuel) (CThen c (CbPromiseDone (length bs) (fst entry)))
     | IPromise f =>
         future_then f (CbPromiseDone (length bs) (fst entry)) (CbPromiseReject (length bs))
     | IValue v => promise_done (length bs) (fst entry) v
     end) w =
  Ok RVoid
    (set_bridges
       (bs ++ [mkBridge (k + length items) (seen ++ vs)
                 (match items with [] => Pending | _ => Fulfilled end)]) w) [].
Proof.
  induction items as [|item items IH]; intros vs k seen bs w Hall Hk Hb.
  - apply Forall2_nil_inv_l in Hall as ->.
    cbn. rewrite Nat.add_0_r, app_nil_r in *. rewrite <- Hb. now destruct w.
  - apply Forall2_cons_inv_l in Hall as (v & vs' & Hv & Hall & ->).
    rewrite imap_cons. cbn [forEach snd fst]. rewrite Nat.add_0_r.
    set (b := mkBridge k (seen ++ replicate (length (item :: items)) VUndefined) Pending) in *.
    set (w1 := set_bridges (bs ++ [done_bridge k v b]) w).
    assert (Hstep : exists r,
      match item with
      | ISpook c => call (3 + fuel) (CThen c (CbPromiseDone (length bs) k))
      | IPromise f => future_then f (CbPromiseDone (length bs) k) (CbPromiseReject (length bs))
      | IValue v => promise_done (length bs) k v
      end w = Ok r w1 []).
    { destruct item as [v'|f|c]; cbn in Hv.
      - subst v'. exists RVoid. now apply promise_done_run.
      - contradiction.
      - destruct Hv as (x & Hc & Hr & Hs & <-). exists (RThis c).
        now apply then_ready_done. }
    destruct Hstep as [r Hstep]. unfold bind at 1. rewrite Hstep. cbn [prefix app].
    assert (Hshift : imap ((fun index item => (k + index, item)) ∘ S) items
                     = imap (fun index item => (S k + index, item)) items).
    { apply imap_ext. intros i y _. cbn. f_equal. lia. }
    rewrite Hshift.
    unfold w1, b. cbn [length]. rewrite (done_bridge_pending k seen v _ Hk).
    destruct items as [|item' items].
    + apply Forall2_nil_inv_l in Hall as ->. cbn.
      replace (k + 1) with (S k) by lia. now rewrite app_nil_r.
    + rewrite (IH vs' (S k) (seen ++ [v]) bs).
      * unfold set_bridges. cbn. rewrite <- app_assoc. cbn.
        replace (S (k + S (length items))) with (k + S (S (length items))) by lia.
        reflexivity.
      * exact Hall.
      * rewrite length_app. cbn [length]. lia.
      * reflexivity.
Qed.

(** *** The shared cache: a primary that was dropped *)

(** [SpookCache.initialise] of the primary of a registration. *)
Lemma cache_initialise_primary fuel w c k u item s pr :
  cache w = Some k -> regs k !! u = Some item -> primary item = Some c ->
  call (S fuel) (CCacheInitialise u c s pr) w =
  Ok RVoid (set_cache (Some (set_regs (<[u := set_owned true item]> (regs k)) k)) w)
    (if owned item
     then [EvConsole LError
             "SpookCache.initialise: initialise called on already-active Spook."]
     else []).
Proof.
  intros Hk Hr Hp. rewrite call_S. unfold dispatch, cache_initialise.
  repeat cstep. rewrite Hr, Hp. rewrite bool_decide_true by reflexivity.
  unfold update_reg, console_error, emit, update_cache, modify.
  destruct (owned item); unfold bind, ret; cbn [prefix app]; rewrite Hk;
    cbn [fmap option_fmap option_map regs]; rewrite (alter_reg _ _ _ _ Hr); reflexivity.
Qed.

(** ** The claims *)







(** C10 — [notify f] calls [f] exactly once, with no argument and before it
    returns its token, when the cell is ready at the moment the function is
    registered, that is once the [use] that [notify] begins with is done;
    it does not call [f] otherwise.  On a cell that has users already, or
    whose first use does nothing, that is the readiness at the call. *)
Theorem notify_calls_when_ready :
  (forall fuel w c tag r w1 tr1 x1,
      call fuel (CUse c) w = Ok r w1 tr1 -> cells w1 !! c = Some x1 ->
      call (S fuel) (CNotify c (CbObserve tag)) w =
      Ok (RId (symbols w1))
         (put c (set_notifies (_notifies x1 ++ [(symbols w1, CbObserve tag)]) x1)
            (set_symbols (S (symbols w1)) w1))
         (tr1 ++ (if _ready x1 then [EvCall tag []] else []))) /\
  (forall fuel w c tag x,
      cells w !! c = Some x -> settled x w ->
      call (3 + fuel) (CNotify c (CbObserve tag)) w =
      Ok (RId (symbols w))
         (put c (set_notifies (_notifies x ++ [(symbols w, CbObserve tag)])
                   (set_users (S (_users x)) x))
            (set_symbols (S (symbols w)) w))
         (if _ready x then [EvCall tag []] else [])).
Proof.
  split.
  - intros fuel w c tag r w1 tr1 x1 Hu Hc. exact (notify_run _ _ _ _ _ _ _ _ Hu Hc).
  - intros fuel w c tag x Hc Hs. change (3 + fuel) with (S (2 + fuel)).
    rewrite (notify_run (2 + fuel) w c tag _ _ _ _
               (use_settled fuel w c x Hc Hs) (cells_put_eq _ _ _)).
    cbn [_ready _notifies set_users symbols put set_cells app].
    now rewrite put_symbols_put.
Qed.

Lemma notify_calls_when_ready_witness :
  (cells defaulted_world !! 0 = Some defaulted_cell /\ settled defaulted_cell defaulted_world) /\
  call 3 (CNotify 0 (CbObserve 11)) defaulted_world =
  Ok (RId 2)
     (put 0 (set_notifies [(0, CbObserve 10); (2, CbObserve 11)]
               (set_users 3 defaulted_cell))
        (set_symbols 3 defaulted_world))
     [EvCall 11 []].
Proof.
  assert (Hs : settled defaulted_cell defaulted_world) by (left; simpl; lia).
  split; [split; [reflexivity | exact Hs]|].
  destruct notify_calls_when_ready as [_ H].
  exact (H 0 defaulted_world 0 11 defaulted_cell eq_refl Hs).
Defined.








(** C8, as amended — The session identifier of a cache is eight lower-case
    hexadecimal digits, whatever [Math.random] returned.  [changed], in the
    instance whose session identifier is under the key [$_Spooks^<uuid>],
    stores the serialised value under the key [$_Spooks.<uuid>] and then
    passes the value to the registered users; in any other instance it
    does nothing.  [ensureActive], finding no owner under
    [$_Spooks^<uuid>], writes its own session identifier there before it
    initialises the new primary. *)
Theorem cache_storage_layout :
  (forall backup pre random,
      (2 ^ 32 <= random <= 2 ^ 33)%Z ->
      String.length (sessionId (new_SpookCache backup pre random)) = 8 /\
      all_hex (sessionId (new_SpookCache backup pre random)) = true) /\
  (forall fuel w k uuid item f v,
      cache w = Some k -> regs k !! uuid = Some item ->
      storage k !! ("$_Spooks^" ++ uuid)%string = Some (sessionId k) ->
      stringify item = Some f -> v <> VUndefined ->
      call (S fuel) (CCacheChanged uuid v) w =
      forEach (users item) (fun spook => call fuel (CChanged spook v))
        (set_cache
           (Some (set_storage (<[("$_Spooks." ++ uuid)%string := f v]> (storage k)) k)) w)) /\
  (forall fuel w k uuid v,
      cache w = Some k ->
      regs k !! uuid = None \/
      storage k !! ("$_Spooks^" ++ uuid)%string <> Some (sessionId k) ->
      call (S fuel) (CCacheChanged uuid v) w = Ok RVoid w []) /\
  (forall fuel w k uuid item p,
      cache w = Some k -> regs k !! uuid = Some item ->
      primary item = None -> deferred item = false -> owned item = false ->
      last (users item) = Some p -> no_deferral k uuid ->
      truthy (storage k !! ("$_Spooks^" ++ uuid)%string) = false ->
      call (S fuel) (CCacheEnsureActive uuid None) w =
      call fuel (CInitialise p)
        (set_cache (Some
           (set_regs
              (<[uuid := set_owned true (set_primary (Some p)
                           (set_reg_users (removelast (users item)) item))]> (regs k))
              (set_storage
                 (<[("$_Spooks^" ++ uuid)%string := sessionId k]> (storage k)) k))) w)).
Proof.
  split; [|split; [|split]].
  - apply sessionId_format.
  - apply cache_changed_owner.
  - apply cache_changed_other.
  - apply ensureActive_adopts.
Qed.

Lemma cache_storage_layout_witness :
  (2 ^ 32 <= 6000000000 <= 2 ^ 33)%Z /\
  String.length (sessionId (new_SpookCache ∅ None 6000000000)) = 8 /\
  all_hex (sessionId (new_SpookCache ∅ None 6000000000)) = true.
Proof.
  assert (H : (2 ^ 32 <= 6000000000 <= 2 ^ 33)%Z) by (split; discriminate).
  split; [exact H|].
  destruct cache_storage_layout as [Hs _].
  exact (Hs ∅ None 6000000000%Z H).
Defined.

(** C8, as stated, fails: nothing is ever stored under [value.<uuid>] or
    [owner.<uuid>]; the keys are [$_Spooks.<uuid>] and [$_Spooks^<uuid>]. *)
Lemma storage_keys_are_not_value_and_owner :
  exists w',
    run 6 [CUse 0; CTrigger 0 (VNum 42)] cached_world = Ok RVoid w' [] /\
    (cache w' ≫= fun k => storage k !! "value.x"%string) = None /\
    (cache w' ≫= fun k => storage k !! "owner.x"%string) = None /\
    (cache w' ≫= fun k => storage k !! "$_Spooks.x"%string) = Some "42"%string /\
    (cache w' ≫= fun k => storage k !! "$_Spooks^x"%string) = Some "65a0bc00"%string.
Proof.
  eexists. split; [vm_compute; reflexivity|].
  repeat split; vm_compute; reflexivity.
Qed.

(** C9, as amended — [done f] throws only on a cell whose [isDone] is
    [undefined].  On any other cell, which [done] finds not yet in a final
    state, it ties a wrapper and, over any later sequence of transitions,
    [f] is called exactly once, with the first value of which [isDone]
    holds, after which the wrapper is untied; it is never called when
    [isDone] holds of none of them, as with the [isDone] of the base class,
    which holds of nothing. *)
Theorem done_calls_once :
  (forall fuel w c x f,
      cells w !! c = Some x -> isDone x = IsDoneUndefined ->
      call (S fuel) (CDone c f) w =
      Thrown "Cannot call done() on Spook that has no implementation of isDone." w []) /\
  (forall fuel w c x tag vs,
      cells w !! c = Some x -> 0 < _users x -> isDone x <> IsDoneUndefined ->
      _ready x && done_test (isDone x) (_value x) = false ->
      _triggering x = None -> _thens x = [] -> observed x = true ->
      cache_managed x w = false -> fresh_id (symbols w) (_subscribers x) = true ->
      untagged tag (symbolValues (_notifies x) ++ symbolValues (_subscribers x)) = true ->
      forallb (accepts x) vs = true ->
      exists w' tr,
        run (4 + fuel) (CDone c (CbObserve tag) :: map (CTrigger c) vs) w
        = Ok RVoid w' tr /\
        calls_of tag tr =
        match List.find (done_test (isDone x)) vs with
        | Some v0 => [EvCall tag [v0]]
        | None => []
        end).
Proof.
  split.
  - intros fuel w c x f. apply done_throws.
  - intros fuel w c x tag vs. apply done_then_triggers.
Qed.

Lemma done_calls_once_witness :
  (cells final_world !! 0 = Some final_cell /\ 0 < _users final_cell
   /\ isDone final_cell <> IsDoneUndefined) /\
  exists w' tr,
    run 4 (CDone 0 (CbObserve 5)
           :: map (CTrigger 0) [VNum 1; VNum 12; VNum 13; VNum 2]) final_world
    = Ok RVoid w' tr /\
    calls_of 5 tr = [EvCall 5 [VNum 12]].
Proof.
  assert (Hu : 0 < _users final_cell) by (simpl; lia).
  assert (Hi : isDone final_cell <> IsDoneUndefined) by discriminate.
  split; [split; [reflexivity | split; [exact Hu | exact Hi]]|].
  destruct done_calls_once as [_ H].
  exact (H 0 final_world 0 final_cell 5 [VNum 1; VNum 12; VNum 13; VNum 2]
           eq_refl Hu Hi eq_refl eq_refl eq_refl eq_refl eq_refl eq_refl eq_refl eq_refl).
Defined.

(** C9, as stated, fails: the base class has an [isDone], so [done] on a
    cell that does not override it returns and throws nothing. *)
Lemma done_on_base_cell_returns :
  (isDone <$> cells plain_world !! 0) = Some IsDoneBase /\
  exists w', call 4 (CDone 0 (CbObserve 5)) plain_world = Ok (RThis 0) w' [].
Proof.
  split; [reflexivity|]. eexists. vm_compute. reflexivity.
Qed.

(** The case the amended C9 leaves out: when [done] finds the cell already
    in a final state, [tie] calls the wrapper before [done] has assigned
    [id], [untie (undefined)] only warns, and [f] is called again at the
    next final value. *)
Lemma done_on_final_cell_calls_twice :
  exists w',
    run 5 [CTrigger 0 (VNum 11); CDone 0 (CbObserve 5); CTrigger 0 (VNum 12)] final_world
    = Ok RVoid w'
        [EvCall 5 [VNum 11];
         EvConsole LWarn "untie on from old or non-existent subscriber ID";
         EvCall 5 [VNum 12]].
Proof. eexists. vm_compute. reflexivity. Qed.




(** C7 — [Spook.promise ([])] does not complete: the only test for
    completion is in [done], which runs once per item, so with no item the
    promise is returned pending, with no reaction registered anywhere that
    could settle it later.  A non-empty list of plain values, by contrast,
    completes at once with those values in order. *)
Theorem promise_of_nothing_stays_pending :
  (forall fuel w,
      exists w',
        call (S fuel) (CPromise []) w = Ok (RPromise (length (bridges w))) w' [] /\
        bridges w' !! length (bridges w) = Some (mkBridge 0 [] Pending) /\
        cells w' = cells w /\ futures w' = futures w /\ jobs w' = jobs w) /\
  (forall fuel w v vs,
      exists w',
        call (S fuel) (CPromise (map IValue (v :: vs))) w
        = Ok (RPromise (length (bridges w))) w' [] /\
        bridges w' !! length (bridges w)
        = Some (mkBridge (length (v :: vs)) (v :: vs) Fulfilled)).
Proof.
  split.
  - intros fuel w. eexists. split; [apply promise_empty|].
    split; [apply lookup_last | repeat split].
  - intros fuel w v vs. eexists. split; [apply promise_plain|]. apply lookup_last.
Qed.

(** With items of the three kinds the promise completes once the cell is
    ready and the contained promise is fulfilled, with the values in the
    order of the items; it is rejected when the contained promise is. *)
Lemma promise_of_mixed_items :
  (exists w',
      run 9 [CPromise [IValue (VNum 1); ISpook 0; IPromise 0]; CTrigger 0 (VNum 5);
             CSettle 0 (inl (VNum 9)); CRunJobs] mixed_world = Ok RVoid w' [] /\
      bridges w' = [mkBridge 3 [VNum 1; VNum 5; VNum 9] Fulfilled]) /\
  (exists w',
      run 9 [CPromise [IValue (VNum 1); ISpook 0; IPromise 0]; CTrigger 0 (VNum 5);
             CSettle 0 (inr (VNum 9)); CRunJobs] mixed_world = Ok RVoid w' [] /\
      pstate <$> bridges w' !! 0 = Some (Rejected (VNum 9))) /\
  (exists w',
      run 9 [CPromise []; CRunJobs] mixed_world = Ok RVoid w' [] /\
      pstate <$> bridges w' !! 0 = Some Pending).
Proof.
  split; [|split]; eexists; (split; [vm_compute; reflexivity|]); vm_compute; reflexivity.
Qed.

(** ** Further properties of the code *)

(** X1 — [then f] on a ready cell calls [f] at once with the current value
    and leaves the cell as it was ([use] and [drop] cancel).  On a cell that
    is not ready it queues [f] and counts a user; over any later sequence
    of transitions [f] is then called exactly once, with the first value. *)
Theorem then_calls_once :
  (forall fuel w c x tag,
      cells w !! c = Some x -> _ready x = true -> settled x w ->
      call (3 + fuel) (CThen c (CbObserve tag)) w
      = Ok (RThis c) w [EvCall tag [_value x]]) /\
  (forall fuel w c x tag v vs,
      cells w !! c = Some x -> _ready x = false -> settled x w ->
      _triggering x = None -> observed x = true -> drains x w ->
      cache_managed x w = false ->
      untagged tag
        (symbolValues (_notifies x) ++ symbolValues (_subscribers x) ++ _thens x) = true ->
      forallb (accepts x) (v :: vs) = true ->
      call (3 + fuel) (CThen c (CbObserve tag)) w
      = Ok (RThis c) (put c (queued (CbObserve tag) x) w) [] /\
      exists w' tr,
        run (4 + fuel) (CThen c (CbObserve tag) :: map (CTrigger c) (v :: vs)) w
        = Ok RVoid w' tr /\
        calls_of tag tr = [EvCall tag [v]]).
Proof.
  split.
  - intros fuel w c x tag. apply then_ready.
  - intros fuel w c x tag v vs Hc Hr Hs Ht Ho Hd Hm Hu Hvs. split.
    + now apply (then_unready fuel w c x).
    + now apply (then_fires_once fuel w c x).
Qed.

Lemma then_calls_once_witness :
  call 3 (CThen 0 (CbObserve 31)) defaulted_world
  = Ok (RThis 0) defaulted_world [EvCall 31 [VNum 7]] /\
  exists w' tr,
    run 4 (CThen 0 (CbObserve 31) :: map (CTrigger 0) [VNum 69; VNum 70]) busy_world
    = Ok RVoid w' tr /\
    calls_of 31 tr = [EvCall 31 [VNum 69]].
Proof.
  destruct then_calls_once as [H1 H2]. split.
  - apply (H1 0 defaulted_world 0 defaulted_cell 31); [reflexivity | reflexivity |].
    left. cbn. lia.
  - apply (H2 0 busy_world 0 busy_cell 31 (VNum 69) [VNum 70]);
      try reflexivity.
    + left. cbn. lia.
    + split; [cbn; lia | cbn; intros H; discriminate H].
Defined.

(** X2 — [tie f] followed by [untie] of the id it returned leaves the cell
    exactly as it was (only the supply of symbols has moved on); [f] was
    called once, with the value and its id, if the cell was ready.  A second
    [untie] of the same id only warns: it does not lower the user count
    again.  The same holds of [notify] and [unnotify]. *)
Theorem tie_untie_round_trip fuel w c x tag :
  cells w !! c = Some x -> settled x w ->
  (fresh_id (symbols w) (_subscribers x) = true ->
   run (3 + fuel) [CTie c (CbObserve tag); CUntie c (Some (symbols w));
                   CUntie c (Some (symbols w))] w
   = Ok RVoid (set_symbols (S (symbols w)) w)
       ((if _ready x then [EvCall tag [_value x; VSymbol (symbols w)]] else []) ++
        [EvConsole LWarn "untie on from old or non-existent subscriber ID"])) /\
  (fresh_id (symbols w) (_notifies x) = true ->
   run (3 + fuel) [CNotify c (CbObserve tag); CUnnotify c (Some (symbols w));
                   CUnnotify c (Some (symbols w))] w
   = Ok RVoid (set_symbols (S (symbols w)) w)
       ((if _ready x then [EvCall tag []] else []) ++
        [EvConsole LWarn "untie on from old or non-existent notifyee ID"])).
Proof.
  intros Hc Hs. split; intros Hf.
  - now apply tie_untie_run.
  - now apply notify_unnotify_run.
Qed.

Lemma tie_untie_round_trip_witness :
  run 3 [CTie 0 (CbObserve 31); CUntie 0 (Some 2); CUntie 0 (Some 2)] defaulted_world
  = Ok RVoid (set_symbols 3 defaulted_world)
      [EvCall 31 [VNum 7; VSymbol 2];
       EvConsole LWarn "untie on from old or non-existent subscriber ID"].
Proof.
  assert (Hs : settled defaulted_cell defaulted_world) by (left; cbn; lia).
  destruct (tie_untie_round_trip 0 defaulted_world 0 defaulted_cell 31 eq_refl Hs) as [H _].
  exact (H eq_refl).
Defined.

(** X3 — [defaultTo d], with [d] a value the cell accepts, makes a cell at
    rest ready for good: an unready cell takes [d] at once, a ready one
    keeps its value, and after any sequence of [trigger], [changed] and
    [reset] the cell is still ready with an accepted value.  [reset] and
    [changed] with a disallowed [null] take the cell back to [d];
    [trigger] with a disallowed [null] leaves the value as it is, because
    the [trigger] of the default that [reset] attempts is re-entrant. *)
Theorem defaultTo_keeps_ready :
  (forall fuel w c x d chs,
      cells w !! c = Some x -> at_rest x w -> accepts x d = true ->
      (_ready x = true -> accepts x (_value x) = true) ->
      exists x1 tr1,
        call (4 + fuel) (CDefaultTo c d) w = Ok (RThis c) (put c x1 w) tr1 /\
        _value x1 = (if _ready x then _value x else d) /\ _defaultTo x1 = d /\
        exists x2 tr2,
          run (6 + fuel) (map (change c) chs) (put c x1 w) = Ok RVoid (put c x2 w) tr2 /\
          _ready x2 = true /\ accepts x2 (_value x2) = true /\ _defaultTo x2 = d) /\
  (forall fuel w c x d ch,
      cells w !! c = Some x -> defaulted d x w ->
      exists tr,
        call (6 + fuel) (change c ch) w
        = Ok RVoid (put c (set_value (after_change d x ch) x) w) tr /\
        only_calls x tr).
Proof.
  split.
  - intros fuel w c x d chs Hc Hr Hd Hval.
    rewrite (defaultTo_run fuel w c x d Hc Hr Hd).
    set (x1 := if _ready x then set_defaultTo d x
               else set_value d (set_ready true (set_defaultTo d x))).
    assert (Hdef : defaulted d x1 (put c x1 w)).
    { unfold x1. destruct (_ready x) eqn:Hy.
      - repeat split; try assumption; try apply Hr. now apply Hval.
      - repeat split; try assumption; apply Hr. }
    destruct (changes_defaulted fuel c d chs (put c x1 w) x1 (cells_put_eq _ _ _) Hdef)
      as (x2 & tr2 & Hrun & (_ & Hd2 & _ & Hy2 & Hv2) & _).
    eexists x1, _. split; [reflexivity|].
    split; [unfold x1; now destruct (_ready x)|].
    split; [unfold x1; now destruct (_ready x)|].
    exists x2, tr2. rewrite Hrun, put_put. repeat split; assumption.
  - intros fuel w c x d ch Hc Hdef.
    destruct (change_defaulted fuel w c x d ch Hc Hdef) as (tr & Hrun & _ & Htr).
    eauto.
Qed.

Lemma defaultTo_keeps_ready_witness :
  (exists x1 tr1,
      call 4 (CDefaultTo 0 (VNum 7)) defaulted_world
      = Ok (RThis 0) (put 0 x1 defaulted_world) tr1 /\
      exists x2 tr2,
        run 6 (map (change 0) [ByChanged VNull; ByTrigger VNull; ByReset])
          (put 0 x1 defaulted_world)
        = Ok RVoid (put 0 x2 defaulted_world) tr2 /\
        _ready x2 = true /\ _defaultTo x2 = VNum 7) /\
  (exists tr,
      call 6 (CTrigger 0 VNull) defaulted_world = Ok RVoid defaulted_world tr).
Proof.
  assert (Hrest : at_rest defaulted_cell defaulted_world) by (repeat split; reflexivity).
  destruct defaultTo_keeps_ready as [H1 H2]. split.
  - destruct (H1 0 defaulted_world 0 defaulted_cell (VNum 7)
                [ByChanged VNull; ByTrigger VNull; ByReset] eq_refl Hrest eq_refl
                (fun _ => eq_refl))
      as (x1 & tr1 & Hrun1 & _ & _ & x2 & tr2 & Hrun2 & Hy & _ & Hd).
    exists x1, tr1. split; [exact Hrun1|]. exists x2, tr2. repeat split; assumption.
  - destruct (H2 0 defaulted_world 0 defaulted_cell (VNum 7) (ByTrigger VNull) eq_refl)
      as (tr & Hrun & _).
    + repeat split; reflexivity.
    + exists tr. exact Hrun.
Defined.

(** X4 — On a cell at rest with no default, [reset] of a ready cell makes
    it not ready with value [null] and calls the readiness-notifiers, not
    the change-subscribers; on a cell that is not ready it does nothing.
    After a reset the old value counts as a change again: [changed v] with
    any accepted [v], also the one held before, makes a transition. *)
Theorem reset_forgets_value fuel w c x v :
  cells w !! c = Some x -> at_rest x w -> _defaultTo x = VUndefined ->
  accepts x v = true ->
  (_ready x = false -> call (2 + fuel) (CReset c) w = Ok RVoid w []) /\
  (_ready x = true ->
   run (4 + fuel) [CReset c; CChanged c v] w =
   Ok RVoid (put c (set_value v x) w)
     (calls [] (symbolValues (_notifies x)) ++
      calls [] (symbolValues (_notifies x)) ++ calls [v] (symbolValues (_subscribers x)))).
Proof.
  intros Hc Hr Hd Hv. split; intros Hy.
  - rewrite (reset_plain fuel w c x Hc Hr Hd), Hy. reflexivity.
  - rewrite run_cons. change (4 + fuel) with (2 + (2 + fuel)).
    pose proof (reset_plain (2 + fuel) w c x Hc Hr Hd) as Hreset. rewrite Hy in Hreset.
    rewrite (bind_Ok _ _ _ _ _ _ Hreset).
    rewrite run_cons. change (2 + (2 + fuel)) with (S (3 + fuel)).
    destruct (accepts_inv _ _ Hv) as [Hv1 Hv2].
    set (x1 := set_value VNull (set_ready false x)).
    assert (Hch : call (S (3 + fuel)) (CChanged c v) (put c x1 w)
                  = Ok RVoid (put c (set_value v x) w)
                      (calls [] (symbolValues (_notifies x)) ++
                       calls [v] (symbolValues (_subscribers x)))).
    { rewrite (changed_differs _ (put c x1 w) c x1 v (cells_put_eq _ _ _) Hv1 Hv2)
        by (left; reflexivity).
      rewrite (trigger_at_rest fuel (put c x1 w) c x1 v (cells_put_eq _ _ _) Hr Hv).
      rewrite put_put. do 2 f_equal. unfold x1. destruct x; cbn in *. now subst. }
    rewrite (bind_Ok _ _ _ _ _ _ Hch). cbn [prefix run forEach]. unfold ret. cbn [prefix].
    now rewrite !app_nil_r.
Qed.

Lemma reset_forgets_value_witness :
  run 4 [CReset 0; CChanged 0 (VNum 69)] (put 0 (triggered (VNum 69) busy_cell) busy_world) =
  Ok RVoid (put 0 (triggered (VNum 69) busy_cell) busy_world)
    [EvCall 10 []; EvCall 11 []; EvCall 10 []; EvCall 11 [];
     EvCall 20 [VNum 69]; EvCall 21 [VNum 69]].
Proof.
  refine (proj2 (reset_forgets_value 0 (put 0 (triggered (VNum 69) busy_cell) busy_world)
                   0 (triggered (VNum 69) busy_cell) (VNum 69)
                   eq_refl _ eq_refl eq_refl) _).
  - repeat split; reflexivity.
  - reflexivity.
Defined.



(** X6 — Whatever is called, with whatever observers, a ready cell never
    comes to hold [undefined], nor [null] when it disallows [null]: if
    every ready cell holds an accepted value before a call, so it does
    after, whether the call returns or throws. *)
Theorem ready_values_stay_accepted fuel k w :
  all_sound w ->
  match call fuel k w with
  | Ok _ w' _ | Thrown _ w' _ => all_sound w'
  | OutOfFuel => True
  end.
Proof.
  intros H. pose proof (call_stays_sound fuel k w) as Hk. unfold post in Hk.
  destruct (call fuel k w); auto.
Qed.

Lemma ready_values_stay_accepted_witness :
  all_sound defaulted_world /\
  match call 6 (CChanged 0 VNull) defaulted_world with
  | Ok _ w' _ | Thrown _ w' _ => all_sound w'
  | OutOfFuel => True
  end.
Proof.
  assert (H : all_sound defaulted_world).
  { intros c x Hc _.
    change (cells defaulted_world) with (<[0 := defaulted_cell]> (∅ : gmap CellId Spook)) in Hc.
    apply lookup_insert_Some in Hc as [[_ <-]|[_ Hc]]; [reflexivity|].
    rewrite lookup_empty in Hc. discriminate Hc. }
  split; [exact H|]. exact (ready_values_stay_accepted 6 (CChanged 0 VNull) defaulted_world H).
Defined.



(** X8 — [SpookCache.changed], with [trigger] and
    [changed]: when a cell of a cache identity that this instance owns is
    triggered to [v], the text of [v] is stored and every registered user of
    the identity ends up ready with a value equivalent to [v]; the observers
    of the cell, then those of each user that did not show [v] yet, are
    called once, in the order of registration, and no other cell changes. *)
Theorem cache_keeps_cells_equal fuel w c x k u item f v n :
  cells w !! c = Some x -> mirrors u v x ->
  cache w = Some k -> regs k !! u = Some item -> stringify item = Some f ->
  truthy (Some u) = true ->
  storage k !! owner_key u = Some (sessionId k) ->
  NoDup (users item) ->
  (forall c', c' ∈ users item -> exists y, cells w !! c' = Some y /\ mirrors u v y) ->
  length (List.filter (stale v (put c (set_value v (set_ready true x)) w)) (users item)) = n ->
  exists w',
    call (3 * n + 3 + fuel) (CTrigger c v) w =
    Ok RVoid w'
      (calls [] (symbolValues (_notifies x)) ++ calls [v] (symbolValues (_subscribers x)) ++
       all_told v (users item) (put c (set_value v (set_ready true x)) w)) /\
    (forall c', c' ∈ c :: users item ->
       exists y, cells w' !! c' = Some y /\ _ready y = true /\
                 equivalent v (_value y) = true) /\
    (forall c', c' ∉ c :: users item -> cells w' !! c' = cells w !! c') /\
    cache w' = Some (set_storage (<[value_key u := f v]> (storage k)) k).
Proof.
  intros Hc Hm Hk Hr Hf Ht Ho Hnd Hall Hn.
  set (x' := set_value v (set_ready true x)) in *.
  set (w1 := stored u (f v) k (put c x' w)).
  assert (Hx' : shows v x' = true) by (unfold shows, x'; cbn; apply equivalent_refl').
  assert (Hmx' : mirrors u v x') by exact Hm.
  assert (Hp : publishing u v f (users item) w1).
  { exists (set_storage (<[value_key u := f v]> (storage k)) k), item.
    split; [reflexivity|]. split; [exact Hr|]. split; [reflexivity|].
    split; [exact Hf|]. split; [exact Ht|].
    cbn [storage set_storage sessionId]. split.
    - rewrite lookup_insert_ne; [exact Ho|]. unfold value_key, owner_key. discriminate.
    - split; [apply lookup_insert_eq|]. intros c' Hin. cbn.
      destruct (decide (c' = c)) as [->|Hne].
      + rewrite lookup_insert_eq. now exists x'.
      + rewrite lookup_insert_ne by congruence. now apply Hall. }
  exists (synced v (users item) w1). split; [|split; [|split]].
  - pose proof (mirrors_managed _ _ _ _ _ Hm Ht Hk) as Hcm.
    pose proof (mirrors_drains _ _ _ w Hm) as Hd.
    destruct Hm as (Htr & Hob & Hth & Hu & Hnc & Ha).
    destruct (accepts_inv _ _ Ha) as [Hv Hnl].
    replace (3 * n + 3 + fuel) with (S (S (S (3 * n + fuel)))) by lia.
    rewrite (trigger_passive _ w c x v Hc Htr Hv Hnl Hob Hd).
    rewrite Hcm, Hu. cbn [default]. change (Datatypes.id u) with u.
    rewrite (triggered_at_rest v x Hth), Hth. cbn [calls map]. rewrite app_nil_r.
    rewrite (cache_changed_owner _ _ k u item f v); try assumption.
    replace (S (3 * n + fuel)) with (3 * n + 1 + fuel) by lia.
    pose proof (sync_users fuel u v f (users item) n w1 Hp Hnd Hn) as HS.
    unfold w1 at 1, stored, x' in HS. rewrite HS.
    cbn [prefix]. now rewrite <- app_assoc.
  - intros c' Hin. cbn [cells synced set_cells]. rewrite lookup_sync_cells.
    assert (exists y, cells w1 !! c' = Some y /\ mirrors u v y /\
                      (c' ∈ users item \/ shows v y = true)) as (y & Hy & _ & Hs).
    { apply elem_of_cons in Hin as [->|Hin].
      - exists x'. cbn. rewrite lookup_insert_eq. auto.
      - destruct Hp as (? & ? & _ & _ & _ & _ & _ & _ & _ & H).
        destruct (H c' Hin) as (y & ? & ?). exists y. auto. }
    rewrite Hy. cbn [fmap option_fmap option_map].
    eexists. split; [reflexivity|].
    assert (shows v (if bool_decide (c' ∈ users item) then adopt v y else y) = true) as E.
    { destruct (bool_decide (c' ∈ users item)) eqn:B; [apply shows_adopt|].
      apply bool_decide_eq_false in B. destruct Hs; [contradiction | assumption]. }
    apply andb_prop in E. exact E.
  - intros c' Hout. apply not_elem_of_cons in Hout as [Hne Hout].
    cbn [cells synced set_cells]. rewrite lookup_sync_cells.
    rewrite bool_decide_false by exact Hout. cbn.
    rewrite lookup_insert_ne by congruence. now destruct (cells w !! c').
  - reflexivity.
Qed.

Lemma cache_keeps_cells_equal_witness :
  exists w',
    call 6 (CTrigger 0 (VNum 5)) shared_world =
    Ok RVoid w' [EvCall 10 [VNum 5]] /\
    forall c', c' ∈ [0; 1; 2] ->
      exists y, cells w' !! c' = Some y /\ _ready y = true /\
                equivalent (VNum 5) (_value y) = true.
Proof.
  destruct (cache_keeps_cells_equal 0 shared_world 0
              (set_users 1 (new_Spook true (Some x_config)))
              (mkSpookCache None
                 {[ "x"%string := mkReg true false [1; 2] (Some 0) (Some show_value) (Some read_value) ]}
                 "s" {[ "$_Spooks^x"%string := "s"%string ]})
              "x" (mkReg true false [1; 2] (Some 0) (Some show_value) (Some read_value))
              show_value (VNum 5) 1) as (w' & H & H2 & _).
  - reflexivity.
  - repeat split; reflexivity.
  - reflexivity.
  - reflexivity.
  - reflexivity.
  - reflexivity.
  - reflexivity.
  - apply NoDup_cons. split; [intros [H|H]%elem_of_cons; [discriminate | now apply elem_of_nil in H]|].
    apply NoDup_cons. split; [apply not_elem_of_nil | apply NoDup_nil_2].
  - intros c' [->|[->|H%elem_of_nil]%elem_of_cons]%elem_of_cons; [| |contradiction].
    + eexists. split; [reflexivity|]. repeat split; reflexivity.
    + eexists. split; [reflexivity|]. repeat split; reflexivity.
  - vm_compute. reflexivity.
  - exists w'. split; [exact H | exact H2].
Defined.

(** X9 — [SpookCache.onStorageChanged]: a storage event
    changes nothing and calls nothing, whatever its key.  A key that starts
    with [$_Spooks] has [s] at index 7, so neither the branch of [.] nor the
    branch of [^] is taken; any other key is dismissed at once. *)
Theorem storage_events_are_ignored fuel w k key :
  cache w = Some k ->
  onStorageChanged (call fuel) (Some key) w = Ok RVoid w [].
Proof.
  intros Hk. unfold onStorageChanged.
  destruct (String.prefix "$_Spooks" key) eqn:E; [|reflexivity]. cbn [negb].
  rewrite (bind_get_reg _ _ _ _ Hk).
  destruct (regs k !! substr 8 key); [|reflexivity].
  rewrite (prefix_Spooks key E).
  rewrite !bool_decide_false by (intros [=]). reflexivity.
Qed.

Lemma storage_events_are_ignored_witness :
  onStorageChanged (call 5) (Some "$_Spooks.x"%string) shared_world = Ok RVoid shared_world [].
Proof. now apply (storage_events_are_ignored 5 shared_world _ "$_Spooks.x" eq_refl). Defined.

(** X10 — [SpookCache.onMessage] and [reconstruct], with
    [prepUpdate]: when the parent frame posts the update of a
    ready cell of value [v] (an array or object travels as text that the
    first user parses back to [v]), every user registered for the identity
    in a frame that does not own it ends up ready with a value equivalent to
    [v]; the observers of each user that did not show [v] yet are called
    once, in the order of registration, and neither the cache nor any other
    cell changes. *)
Theorem parent_update_reaches_users fuel w k u item first rest y s v :
  cache w = Some k -> truthy (Some u) = true ->
  storage k !! owner_key u <> Some (sessionId k) ->
  regs k !! u = Some item -> users item = first :: rest -> NoDup (users item) ->
  (forall c, c ∈ users item -> exists x, cells w !! c = Some x /\ mirrors u v x) ->
  cells w !! first = Some y ->
  _ready s = true -> _value s = v ->
  (is_object v = true -> forall f, _stringify s = Some f ->
     f v <> ""%string /\ exists p, _parse y = Some p /\ p (f v) = v) ->
  exists w',
    onMessage (call (4 + fuel)) true (Some (prepUpdate u s)) w =
    Ok RVoid w' (all_told v (users item) w) /\
    (forall c, c ∈ users item ->
       exists x, cells w' !! c = Some x /\ _ready x = true /\
                 equivalent v (_value x) = true) /\
    (forall c, c ∉ users item -> cells w' !! c = cells w !! c) /\
    cache w' = cache w.
Proof.
  intros Hk Ht Ho Hr Hus Hnd Hall Hy Hrs Hvs Hobj.
  exists (synced v (users item) w). split; [|split; [|split]].
  - unfold onMessage.
    assert (Hu : up_uuid (prepUpdate u s) = u).
    { unfold prepUpdate. rewrite Hrs. destruct (is_object (_value s)); [destruct (_stringify s)|]; reflexivity. }
    rewrite Hu, (bind_get_reg _ _ _ _ Hk), Hr, Hus.
    rewrite (bind_get_cell _ _ _ _ Hy).
    rewrite (bind_Ok _ _ _ _ _ _ (reconstruct_prepUpdate u s y v w Hrs Hvs Hobj)).
    rewrite prefix_nil.
    destruct (Hall first) as (x & _ & Hm); [rewrite Hus; left|].
    destruct Hm as (_ & _ & _ & _ & _ & Ha).
    destruct (accepts_inv _ _ Ha) as [Hv _].
    rewrite (is_undefined_false v Hv). cbn [negb]. rewrite <- Hus.
    apply (mirror_users fuel u); [now exists k | exact Hnd | exact Hall].
  - intros c Hin. destruct (Hall c Hin) as (x & Hx & _).
    cbn [cells synced set_cells]. rewrite lookup_sync_cells, Hx. cbn.
    rewrite bool_decide_true by exact Hin.
    eexists. split; [reflexivity|]. apply andb_prop. apply shows_adopt.
  - intros c Hout. cbn [cells synced set_cells]. rewrite lookup_sync_cells.
    rewrite bool_decide_false by exact Hout. now destruct (cells w !! c).
  - reflexivity.
Qed.

Lemma parent_update_reaches_users_witness :
  exists w',
    onMessage (call 4) true
      (Some (prepUpdate "x" (set_value (VNum 5) (set_ready true (new_Spook true (Some x_config))))))
      deferring_world =
    Ok RVoid w' [EvCall 10 [VNum 5]] /\
    forall c, c ∈ [1; 2] ->
      exists x, cells w' !! c = Some x /\ _ready x = true /\
                equivalent (VNum 5) (_value x) = true.
Proof.
  destruct (parent_update_reaches_users 0 deferring_world
              (mkSpookCache (Some "x"%string)
                 {[ "x"%string := mkReg false true [1; 2] None (Some show_value) (Some read_value) ]}
                 "s" ∅)
              "x" (mkReg false true [1; 2] None (Some show_value) (Some read_value))
              1 [2]
              (set_users 1 (set_subscribers [(0, CbObserve 10)] (new_Spook true (Some x_config))))
              (set_value (VNum 5) (set_ready true (new_Spook true (Some x_config))))
              (VNum 5)) as (w' & H & H2 & _).
  - reflexivity.
  - reflexivity.
  - discriminate.
  - reflexivity.
  - reflexivity.
  - apply NoDup_cons. split; [intros [H|H]%elem_of_cons; [discriminate | now apply elem_of_nil in H]|].
    apply NoDup_cons. split; [apply not_elem_of_nil | apply NoDup_nil_2].
  - intros c' [->|[->|H%elem_of_nil]%elem_of_cons]%elem_of_cons; [| |contradiction].
    + eexists. split; [reflexivity|]. repeat split; reflexivity.
    + eexists. split; [reflexivity|]. repeat split; reflexivity.
  - reflexivity.
  - reflexivity.
  - reflexivity.
  - discriminate.
  - exists w'. split; [exact H | exact H2].
Defined.

(** X11 — [SpookCache.initialise] and [finalise], with
    [use] and [drop]: a first [use] of a cell that is not ready,
    when its cache identity is registered with a ready primary whose value
    the registered users show, adds the cell to the users and gives it the
    value of the primary, telling its observers once; its own [initialise]
    is not called.  In the instance that owns the identity the text of the
    value is stored as well.  A [drop] straight after takes the cell out of
    the users again, so the registration is as it was; the cell keeps the
    value. *)
Theorem second_cell_joins_and_leaves fuel w c x k u item p xp v :
  cells w !! c = Some x -> _users x = 0 -> _ready x = false -> mirrors u v x ->
  cache w = Some k -> truthy (Some u) = true -> regs k !! u = Some item ->
  primary item = Some p -> p <> c -> deferred item = false -> c ∉ users item ->
  cells w !! p = Some xp -> _ready xp = true -> _value xp = v ->
  (forall c', c' ∈ users item ->
     exists y, cells w !! c' = Some y /\ accepts y v = true /\ shows v y = true) ->
  (storage k !! owner_key u <> Some (sessionId k) ->
   call (6 + fuel) (CUse c) w =
   Ok (RThis c)
     (put c (set_users 1 (set_value v (set_ready true x)))
        (set_cache (Some (set_regs (<[u := joined c item]> (regs k)) k)) w))
     (calls [] (symbolValues (_notifies x)) ++ calls [v] (symbolValues (_subscribers x))) /\
   run (6 + fuel) [CUse c; CDrop c] w =
   Ok RVoid (put c (set_value v (set_ready true x)) w)
     (calls [] (symbolValues (_notifies x)) ++ calls [v] (symbolValues (_subscribers x)))) /\
  (forall f,
   storage k !! owner_key u = Some (sessionId k) -> stringify item = Some f ->
   call (6 + fuel) (CUse c) w =
   Ok (RThis c)
     (put c (set_users 1 (set_value v (set_ready true x)))
        (stored u (f v) (set_regs (<[u := joined c item]> (regs k)) k) w))
     (calls [] (symbolValues (_notifies x)) ++ calls [v] (symbolValues (_subscribers x))) /\
   run (6 + fuel) [CUse c; CDrop c] w =
   Ok RVoid (put c (set_value v (set_ready true x)) (stored u (f v) k w))
     (calls [] (symbolValues (_notifies x)) ++ calls [v] (symbolValues (_subscribers x)))).
Proof.
  intros Hc Hu Hrx Hm Hk Ht Hr Hp Hne Hd Hout Hxp Hrp Hv Hall.
  pose proof (shows_unready v x Hrx) as Hsh.
  pose proof (mirrors_managed _ _ _ _ _ Hm Ht Hk) as Hcm.
  pose proof Hm as (_ & _ & _ & Hid & Hnc & _).
  set (k1 := set_regs (<[u := joined c item]> (regs k)) k).
  assert (Hm1 : cells (set_cache (Some k1) w) !! c = Some x) by exact Hc.
  split.
  - intros Ho.
    assert (Huse : call (6 + fuel) (CUse c) w =
      Ok (RThis c)
        (put c (set_users 1 (set_value v (set_ready true x)))
           (set_cache (Some (set_storage (storage k1) k1)) w))
        (calls [] (symbolValues (_notifies x)) ++ calls [v] (symbolValues (_subscribers x)))).
    { refine (use_joins fuel w c x k u item p xp (set_value v (set_ready true x)) _ _
                Hc Hu Hid Hcm Hk Hr Hp Hne Hxp Hrp Hu _).
      rewrite Hv. fold k1.
      rewrite (mirror_step fuel u v (set_cache (Some k1) w) c x); [| |exact Hm1|exact Hm].
      - unfold adopt, told. rewrite Hsh. reflexivity.
      - exists k1. repeat split; assumption. }
    split.
    + rewrite Huse. now rewrite set_storage_same.
    + rewrite (join_then_leave fuel w c x k u item p (set_value v (set_ready true x))
                 (storage k1) _ Hc Hid Hnc Ht Hu Hk Hr Hp Hne Hd Hout Huse).
      change (storage k1) with (storage k).
      now rewrite set_storage_same, (set_cache_same _ _ Hk).
  - intros f Ho Hf.
    assert (Huse : call (6 + fuel) (CUse c) w =
      Ok (RThis c)
        (put c (set_users 1 (set_value v (set_ready true x)))
           (set_cache (Some (set_storage (<[value_key u := f v]> (storage k1)) k1)) w))
        (calls [] (symbolValues (_notifies x)) ++ calls [v] (symbolValues (_subscribers x)))).
    { refine (use_joins fuel w c x k u item p xp (set_value v (set_ready true x)) _ _
                Hc Hu Hid Hcm Hk Hr Hp Hne Hxp Hrp Hu _).
      rewrite Hv. fold k1.
      rewrite (owner_step fuel u v (set_cache (Some k1) w) c x k1 (joined c item) f);
        try assumption; try reflexivity.
      - unfold adopt, told. rewrite Hsh. reflexivity.
      - apply lookup_insert_eq.
      - intros c' [Hin|Hin]%elem_of_app Hc'; [now apply Hall|].
        apply list_elem_of_singleton in Hin. contradiction. }
    split; [exact Huse|].
    exact (join_then_leave fuel w c x k u item p (set_value v (set_ready true x))
             _ _ Hc Hid Hnc Ht Hu Hk Hr Hp Hne Hd Hout Huse).
Qed.

Lemma second_cell_joins_and_leaves_witness :
  run 6 [CUse 1; CDrop 1] joining_world =
  Ok RVoid
    (put 1 (set_value (VNum 5) (set_ready true
              (set_subscribers [(0, CbObserve 10)] (new_Spook true (Some x_config)))))
       (stored "x" "5"
          (mkSpookCache None
             {[ "x"%string := mkReg true false [] (Some 0) (Some show_value) (Some read_value) ]}
             "s" {[ "$_Spooks^x"%string := "s"%string ]})
          joining_world))
    [EvCall 10 [VNum 5]].
Proof.
  destruct (second_cell_joins_and_leaves 0 joining_world 1
              (set_subscribers [(0, CbObserve 10)] (new_Spook true (Some x_config)))
              (mkSpookCache None
                 {[ "x"%string := mkReg true false [] (Some 0) (Some show_value) (Some read_value) ]}
                 "s" {[ "$_Spooks^x"%string := "s"%string ]})
              "x" (mkReg true false [] (Some 0) (Some show_value) (Some read_value))
              0 (set_users 1 (set_value (VNum 5) (set_ready true (new_Spook true (Some x_config)))))
              (VNum 5)) as [_ H].
  - reflexivity.
  - reflexivity.
  - reflexivity.
  - repeat split; reflexivity.
  - reflexivity.
  - reflexivity.
  - reflexivity.
  - reflexivity.
  - discriminate.
  - reflexivity.
  - apply not_elem_of_nil.
  - reflexivity.
  - reflexivity.
  - reflexivity.
  - intros c' Hin. now apply elem_of_nil in Hin.
  - destruct (H show_value eq_refl eq_refl) as [_ H2]. exact H2.
Defined.

(** X12 — [Spook.promise] with [then]: over a non-empty list
    whose items are plain values or ready cells (with users already, or
    inert), the promise is fulfilled before [promise] returns, with the
    plain values and the current values of the cells in the order of the
    items; no observer is called and the cells, their user counts included,
    are as they were. *)
Theorem promise_of_values_at_hand fuel w items vs :
  Forall2 (immediate w) items vs -> items <> [] ->
  call (4 + fuel) (CPromise items) w =
  Ok (RPromise (length (bridges w)))
     (set_bridges (bridges w ++ [mkBridge (length vs) vs Fulfilled]) w) [].
Proof.
  intros Hall Hne. change (4 + fuel) with (S (3 + fuel)).
  rewrite call_S. unfold dispatch, promise. repeat mstep. unfold try_catch.
  pose proof (promise_done_now fuel items vs 0 [] (bridges w)
    (set_bridges (bridges w ++
       [mkBridge 0 (replicate (length items) VUndefined) Pending]) w)
    Hall eq_refl eq_refl) as H.
  cbn [Nat.add app] in H. change (S (S (S fuel))) with (3 + fuel) in H.
  unfold bind at 1. rewrite H. cbn [prefix]. repeat mstep.
  rewrite (Forall2_length _ _ _ Hall).
  destruct items; [now elim Hne|]. reflexivity.
Qed.

Lemma promise_of_values_at_hand_witness :
  call 4 (CPromise [IValue (VNum 1); ISpook 0; IValue (VNum 3)]) defaulted_world =
  Ok (RPromise 0)
     (set_bridges [mkBridge 3 [VNum 1; VNum 7; VNum 3] Fulfilled] defaulted_world) [].
Proof.
  apply (promise_of_values_at_hand 0 defaulted_world
           [IValue (VNum 1); ISpook 0; IValue (VNum 3)] [VNum 1; VNum 7; VNum 3]).
  - repeat constructor.
    exists defaulted_cell. repeat split; try reflexivity. left. cbn. lia.
  - discriminate.
Defined.

(** X13 — [SpookCache.initialise] and [finalise], with
    [use] and [drop]: on the primary of its cache identity that
    has no users and is kept by the cache as not owned, [use] only counts
    and marks the registration as owned, and [drop] only counts and marks
    it as not owned: [initialise] and [finalise] of the cell are not called
    again, whatever its class, and [use] followed by [drop] leaves the
    whole state as it was. *)
Theorem kept_primary_is_not_restarted fuel w c x k u item :
  cells w !! c = Some x -> _users x = 0 -> _uuid x = Some u ->
  cache_managed x w = true -> cache w = Some k -> regs k !! u = Some item ->
  primary item = Some c -> owned item = false ->
  call (2 + fuel) (CUse c) w =
  Ok (RThis c)
    (put c (set_users 1 x)
       (set_cache (Some (set_regs (<[u := set_owned true item]> (regs k)) k)) w)) [] /\
  run (2 + fuel) [CUse c; CDrop c] w = Ok RVoid w [].
Proof.
  intros Hc Hu Hid Hm Hk Hr Hp Ho.
  set (w1 := set_cache (Some (set_regs (<[u := set_owned true item]> (regs k)) k)) w).
  assert (Huse : call (2 + fuel) (CUse c) w = Ok (RThis c) (put c (set_users 1 x) w1) []).
  { change (2 + fuel) with (S (S fuel)).
    rewrite call_S. unfold dispatch, use. repeat mstep. rewrite Hu, Hid, Hm. cbn [Nat.eqb].
    rewrite (bind_Ok _ _ _ _ _ _
               (cache_initialise_primary fuel w c k u item _ _ Hk Hr Hp)).
    rewrite Ho. fold w1. repeat mstep. rewrite Hu. reflexivity. }
  split; [exact Huse|].
  rewrite run_cons, (bind_Ok _ _ _ _ _ _ Huse), run_cons.
  assert (Hdrop : call (2 + fuel) (CDrop c) (put c (set_users 1 x) w1) = Ok RVoid w []).
  { change (2 + fuel) with (S (S fuel)).
    rewrite (drop_last (S fuel) _ c (set_users 1 x) (cells_put_eq _ _ _) eq_refl).
    assert (cache_managed (set_users 1 x) (put c (set_users 1 x) w1) = true) as ->.
    { unfold cache_managed in Hm |- *. apply andb_prop in Hm as [Hm _].
      cbn [_uuid _noCache set_users]. rewrite Hm. reflexivity. }
    change (_uuid (set_users 1 x)) with (_uuid x). rewrite Hid. cbn [default].
    change (Datatypes.id u) with u.
    erewrite (cache_finalise_primary fuel _ c _ u (set_owned true item));
      [ | reflexivity | apply lookup_insert_eq | exact Hp ].
    f_equal. cbn [regs set_regs]. rewrite insert_insert_eq.
    assert (set_owned false (set_owned true item) = item) as ->
      by (destruct item; cbn in *; now subst).
    rewrite (insert_id _ _ _ Hr).
    unfold put, set_cache, set_cells, set_regs, w1. cbn.
    rewrite !insert_insert_eq. change (set_users 0 (set_users 1 x)) with (set_users 0 x).
    rewrite (set_users_same 0 x Hu), (insert_id _ _ _ Hc).
    destruct w, k; cbn in *. now subst. }
  rewrite (bind_Ok _ _ _ _ _ _ Hdrop). reflexivity.
Qed.

Lemma kept_primary_is_not_restarted_witness :
  run 2 [CUse 0; CDrop 0] kept_world = Ok RVoid kept_world [].
Proof.
  now apply (kept_primary_is_not_restarted 0 kept_world 0
               (set_kind (KCustom (CbObserve 40) (CbObserve 41)) (new_Spook true (Some x_config)))
               (mkSpookCache None
                  {[ "x"%string := mkReg false false [] (Some 0) (Some show_value) (Some read_value) ]}
                  "s" {[ "$_Spooks^x"%string := "s"%string ]})
               "x" (mkReg false false [] (Some 0) (Some show_value) (Some read_value))).
Defined.

(** X14 — LatchSpook [initialise] and [finalise], with [use],
    [drop], [notify] and [unnotify]: a use and then a drop of a latch
    without users, while its input is not ready, leave the input as it was
    (the notifier of the latch is taken off again and the user count of
    the input is back), call nothing, and leave the latch as it was but for
    the identifier of the spent notifier, which it keeps. *)
Theorem latch_use_drop_round_trip fuel w a l xa xl n0 :
  a <> l -> cells w !! a = Some xa -> cells w !! l = Some xl ->
  kind xl = KLatch (mkLatch a (Some a) true n0) ->
  _users xl = 0 -> cache_managed xl w = false ->
  _ready xa = false -> settled xa w ->
  fresh_id (symbols w) (_notifies xa) = true ->
  run (5 + fuel) [CUse l; CDrop l] w =
  Ok RVoid (put l (released_latch a (symbols w) xl) (set_symbols (S (symbols w)) w)) [].
Proof.
  intros Hal Ha Hl Hk Hu Hm Hr Hs Hf.
  rewrite run_cons.
  rewrite (bind_Ok _ _ _ _ _ _ (latch_use fuel w a l xa xl n0 Hal Ha Hl Hk Hu Hm Hr Hs)).
  rewrite run_cons.
  set (id := symbols w). set (w0 := set_symbols (S id) w).
  assert (Hdrop : call (5 + fuel) (CDrop l)
                    (put l (waiting a id xl) (put a (polled l id xa) w0)) =
                  Ok RVoid (put l (released_latch a id xl) w0) []).
  { change (5 + fuel) with (S (S (3 + fuel))).
    rewrite (drop_last _ _ l (waiting a id xl) (cells_put_eq _ _ _) eq_refl).
    change (cache_managed (waiting a id xl) (put l (waiting a id xl) (put a (polled l id xa) w0)))
      with (cache_managed xl w). rewrite Hm.
    rewrite put_put.
    change (set_users 0 (waiting a id xl)) with (set_users 0 (released_latch a id xl)).
    rewrite (set_users_same 0 (released_latch a id xl) Hu).
    rewrite call_S. unfold dispatch, finalise.
    rewrite (bind_get_cell _ _ _ _ (cells_put_eq _ _ _)).
    cbn [kind released_latch set_kind]. unfold latch_finalise.
    rewrite (bind_get_latch l (released_latch a id xl) (mkLatch a (Some a) true (Some id))
               _ _ (cells_put_eq _ _ _) eq_refl).
    cbn [_targetSpook _notifyId].
    rewrite (put_comm l a) by congruence.
    apply (unnotify_back fuel (put l (released_latch a id xl) w0) a xa id (CbLatchPoll l)).
    - rewrite cells_put_ne by congruence. exact Ha.
    - exact Hs.
    - exact Hf. }
  rewrite (bind_Ok _ _ _ _ _ _ Hdrop). reflexivity.
Qed.

Lemma latch_use_drop_round_trip_witness :
  run 5 [CUse 1; CDrop 1] (latch_world (VNum 3)) =
  Ok RVoid
    (put 1 (released_latch 0 0 (new_LatchSpook 0 true (VNum 3) None None))
       (set_symbols 1 (latch_world (VNum 3)))) [].
Proof.
  apply (latch_use_drop_round_trip 0 (latch_world (VNum 3)) 0 1 (new_Spook true None)
           (new_LatchSpook 0 true (VNum 3) None None) None); try reflexivity.
  - discriminate.
  - right. split; reflexivity.
Defined.
